(** * The Zora and Polymarket plugins: a shallow embedding

    The two plugins are glue code around external collaborators (the agent
    runtime, viem, the coin and market SDKs, the Pinata pinning service).
    The embedding keeps the control flow of the TypeScript sources and makes
    every external call explicit:

    - [process.env] is a finite map from variable names to strings;
    - an external call is looked up in a [World], a record giving the outcome
      (a value or a thrown value) of each call the code can make;
    - a computation returns the list of the external calls it made, in order,
      together with its outcome ([Eff]); [try]/[catch] is [tryCatch];
    - the optional result callback of a handler is a function that may itself
      throw, and every invocation is recorded.

    Strings are sequences of code units in the range 0..255, which covers
    every literal the properties depend on; the symbols in a few console
    lines are kept as the bytes of their UTF-8 encoding. *)

From Stdlib Require Import ZArith String Ascii List Bool Lia DecimalString.
From Stdlib Require QArith DecimalZ DecimalPos.
From stdpp Require Import base strings gmap.
Import ListNotations.
Open Scope string_scope.

(** ** JavaScript strings *)

Module JS.

(** The double quote character, for template literals that contain one. *)
Definition dquote : string := String "034"%char EmptyString.
Definition backslash : string := String "092"%char EmptyString.
Definition newline : string := String "010"%char EmptyString.

(** White space and line terminators of ECMAScript below code unit 256:
    TAB, LF, VT, FF, CR, SP and NBSP. *)
Definition isWhiteSpace (c : ascii) : bool :=
  let n := nat_of_ascii c in
  ((9 <=? n)%nat && (n <=? 13)%nat) || (n =? 32)%nat || (n =? 160)%nat.

Fixpoint trimStart (s : string) : string :=
  match s with
  | EmptyString => EmptyString
  | String c s' => if isWhiteSpace c then trimStart s' else s
  end.

Definition isEmpty (s : string) : bool :=
  match s with EmptyString => true | String _ _ => false end.

Fixpoint trimEnd (s : string) : string :=
  match s with
  | EmptyString => EmptyString
  | String c s' =>
      let r := trimEnd s' in
      if isWhiteSpace c && isEmpty r then EmptyString else String c r
  end.

(** [String.prototype.trim]. *)
Definition trim (s : string) : string := trimEnd (trimStart s).

(** [s.startsWith(p)]. *)
Definition startsWith (s p : string) : bool := String.prefix p s.

(** [s.includes(sub)]: [sub] occurs in [s] at some position. *)
Fixpoint includes (s sub : string) : bool :=
  String.prefix sub s ||
  match s with
  | EmptyString => false
  | String _ s' => includes s' sub
  end.

(** [String.prototype.toLowerCase] on one code unit: A..Z and the upper case
    letters of Latin-1 (192..222 but the multiplication sign 215) move up by
    32; everything else stays. *)
Definition toLowerCaseUnit (c : ascii) : ascii :=
  let n := nat_of_ascii c in
  if ((65 <=? n)%nat && (n <=? 90)%nat)
     || ((192 <=? n)%nat && (n <=? 222)%nat && negb (n =? 215)%nat)
  then ascii_of_nat (n + 32)
  else c.

Fixpoint toLowerCase (s : string) : string :=
  match s with
  | EmptyString => EmptyString
  | String c s' => String (toLowerCaseUnit c) (toLowerCase s')
  end.

(** Truthiness of a value that is a string or [undefined]: [undefined] and
    the empty string are falsy.  [truthyString v] is the string itself when
    [v] is truthy. *)
Definition truthyString (v : option string) : option string :=
  match v with
  | Some s => if isEmpty s then None else Some s
  | None => None
  end.

Definition truthy (v : option string) : bool :=
  match truthyString v with Some _ => true | None => false end.

(** [BigInt.prototype.toString] and [Number.prototype.toString] on an
    integer: decimal digits, with a minus sign below zero. *)
Definition bigintToString (n : Z) : string :=
  NilZero.string_of_int (Z.to_int n).

(** The reading back of a decimal string. *)
Definition parseBigInt (s : string) : option Z :=
  match NilZero.int_of_string s with
  | Some d => Some (Z.of_int d)
  | None => None
  end.

(** *** Thrown values and outcomes *)

(** What a [throw] carries: an [Error] instance with its [message], or a
    value that is not an [Error], has no [message] property, and that
    [String] turns into [text] (a thrown string, say).  The libraries
    called here throw [Error] instances; a thrown [null] or [undefined], on
    which reading [message] is an error of its own, is not modelled. *)
Inductive Thrown : Type :=
  | ErrorObj (message : string)
  | NonError (text : string).

(** [error instanceof Error ? error.message : String(error)] *)
Definition errorMessageOf (error : Thrown) : string :=
  match error with
  | ErrorObj message => message
  | NonError text => text
  end.

(** [error.message], which is [undefined] on a value that has none. *)
Definition messageProp (error : Thrown) : option string :=
  match error with
  | ErrorObj message => Some message
  | NonError _ => None
  end.

(** A value inside a template literal: [undefined] prints as the word. *)
Definition interpolate (v : option string) : string :=
  match v with
  | Some s => s
  | None => "undefined"
  end.

(** The result of evaluating an expression or awaiting a promise. *)
Inductive Outcome (A : Type) : Type :=
  | Ret (a : A)
  | Throw (e : Thrown).
Arguments Ret {A} a.
Arguments Throw {A} e.

#[export] Instance Outcome_ret : MRet Outcome := fun _ a => Ret a.
#[export] Instance Outcome_bind : MBind Outcome := fun _ _ k m =>
  match m with
  | Ret a => k a
  | Throw e => Throw e
  end.

(** *** Values and JSON *)

(** The data the SDKs hand back: JSON-like trees whose leaves may also be
    bigints.  [JNum n] is the number of integer value [n], for [n] a safe
    integer (at most 2^53 - 1 in absolute value): these are the integers
    a number holds exactly and prints in plain decimal digits.  Other
    numbers are not modelled. *)
#[warnings="-register-all"]
Inductive JsValue : Type :=
  | JNull
  | JBool (b : bool)
  | JNum (n : Z)
  | JBigInt (n : Z)
  | JStr (s : string)
  | JArr (items : list JsValue)
  | JObj (fields : list (string * JsValue)).

(** Truthiness of a value that may be [undefined]. *)
Definition truthyValue (v : option JsValue) : bool :=
  match v with
  | None => false
  | Some JNull => false
  | Some (JBool b) => b
  | Some (JNum n) => negb (n =? 0)%Z
  | Some (JBigInt n) => negb (n =? 0)%Z
  | Some (JStr s) => negb (isEmpty s)
  | Some (JArr _) => true
  | Some (JObj _) => true
  end.

(** Property access [v.key].  Reading a property of [null] is a TypeError;
    an object gives the field or [undefined]; the named properties read by
    the sources do not exist on other values. *)
Definition objectLookup (fields : list (string * JsValue)) (key : string)
  : option JsValue :=
  match List.find (fun kv => String.eqb (fst kv) key) fields with
  | Some kv => Some (snd kv)
  | None => None
  end.

Definition getProp (v : JsValue) (key : string) : Outcome (option JsValue) :=
  match v with
  | JNull =>
      Throw (ErrorObj ("Cannot read properties of null (reading '" ++ key ++ "')"))
  | JObj fields => Ret (objectLookup fields key)
  | _ => Ret None
  end.

Definition hexDigit (n : nat) : string :=
  String (ascii_of_nat (if (n <? 10)%nat then 48 + n else 87 + n)) EmptyString.

(** QuoteJSONString on one code unit. *)
Definition quoteUnit (c : ascii) : string :=
  let n := nat_of_ascii c in
  if (n =? 34)%nat then backslash ++ dquote
  else if (n =? 92)%nat then backslash ++ backslash
  else if (n =? 8)%nat then backslash ++ "b"
  else if (n =? 12)%nat then backslash ++ "f"
  else if (n =? 10)%nat then backslash ++ "n"
  else if (n =? 13)%nat then backslash ++ "r"
  else if (n =? 9)%nat then backslash ++ "t"
  else if (n <? 32)%nat then backslash ++ "u00" ++ hexDigit (n / 16) ++ hexDigit (n mod 16)
  else String c EmptyString.

Fixpoint quoteBody (s : string) : string :=
  match s with
  | EmptyString => EmptyString
  | String c s' => quoteUnit c ++ quoteBody s'
  end.

Definition quoteJSONString (s : string) : string :=
  dquote ++ quoteBody s ++ dquote.

Fixpoint join (sep : string) (parts : list string) : string :=
  match parts with
  | [] => EmptyString
  | [p] => p
  | p :: rest => p ++ sep ++ join sep rest
  end.

(** The closing steps of SerializeJSONArray and SerializeJSONObject: the
    parts between the brackets, on one line when [gap] is empty and one per
    line at the new indentation otherwise. *)
Definition wrap (opening closing gap stepback : string) (partial : list string)
  : string :=
  match partial with
  | [] => opening ++ closing
  | _ =>
      if isEmpty gap then opening ++ join "," partial ++ closing
      else
        let indent := stepback ++ gap in
        opening ++ newline ++ indent
        ++ join ("," ++ newline ++ indent) partial
        ++ newline ++ stepback ++ closing
  end.

(** [JSON.stringify(value, replacer, space)] on a value.

    [replacer] stands for the one replacer function of the sources,
    [(_key, val) => typeof val === 'bigint' ? val.toString() : val]: it is
    given by what it returns on a bigint, and [None] is a call without a
    replacer.  [gap] is the indentation unit ([space] spaces).  A bigint
    that no replacer has turned into a string raises the TypeError of
    SerializeJSONProperty. *)
Section Stringify.
Variable replacer : option (Z -> string).
Variable gap : string.

Fixpoint serializeJSONProperty (indent : string) (v : JsValue) {struct v}
  : Outcome string :=
  match v with
  | JNull => Ret "null"
  | JBool true => Ret "true"
  | JBool false => Ret "false"
  | JNum n => Ret (bigintToString n)
  | JBigInt n =>
      match replacer with
      | Some toString => Ret (quoteJSONString (toString n))
      | None => Throw (ErrorObj "Do not know how to serialize a BigInt")
      end
  | JStr s => Ret (quoteJSONString s)
  | JArr items =>
      let fix elements (l : list JsValue) : Outcome (list string) :=
        match l with
        | [] => Ret []
        | x :: l' =>
            match serializeJSONProperty (indent ++ gap) x with
            | Throw e => Throw e
            | Ret s =>
                match elements l' with
                | Throw e => Throw e
                | Ret ss => Ret (s :: ss)
                end
            end
        end in
      match elements items with
      | Throw e => Throw e
      | Ret partial => Ret (wrap "[" "]" gap indent partial)
      end
  | JObj fields =>
      let fix members (l : list (string * JsValue)) : Outcome (list string) :=
        match l with
        | [] => Ret []
        | (k, x) :: l' =>
            match serializeJSONProperty (indent ++ gap) x with
            | Throw e => Throw e
            | Ret s =>
                match members l' with
                | Throw e => Throw e
                | Ret ss =>
                    Ret ((quoteJSONString k ++ ":"
                          ++ (if isEmpty gap then "" else " ") ++ s) :: ss)
                end
            end
        end in
      match members fields with
      | Throw e => Throw e
      | Ret partial => Ret (wrap "{" "}" gap indent partial)
      end
  end.
End Stringify.

Definition JSON_stringify (replacer : option (Z -> string)) (space : nat)
  (value : JsValue) : Outcome string :=
  serializeJSONProperty replacer (String.concat "" (repeat " " space)) "" value.

End JS.
Export JS.

(** ** Effects: external calls, traces, exceptions *)

Module Effects.

(** A computation that has run: the events it produced, oldest first, and
    how it ended. *)
Definition Eff (E A : Type) : Type := (list E * Outcome A)%type.

#[export] Instance Eff_ret {E} : MRet (Eff E) := fun _ a => ([], Ret a).
#[export] Instance Eff_bind {E} : MBind (Eff E) := fun _ _ k m =>
  match m with
  | (t, Ret a) => let '(t', r) := k a in ((t ++ t')%list, r)
  | (t, Throw e) => (t, Throw e)
  end.

(** [throw e] *)
Definition throw {E A} (e : Thrown) : Eff E A := ([], Throw e).

(** [try { m } catch (error) { h error }] *)
Definition tryCatch {E A} (m : Eff E A) (h : Thrown -> Eff E A) : Eff E A :=
  match m with
  | (t, Ret a) => (t, Ret a)
  | (t, Throw e) => let '(t', r) := h e in ((t ++ t')%list, r)
  end.

(** One external call: the event, and the outcome the world gives it. *)
Definition call {E A} (ev : E) (r : Outcome A) : Eff E A := ([ev], r).

(** A pure expression that may throw. *)
Definition eval {E A} (r : Outcome A) : Eff E A := ([], r).

(** The same run seen through an embedding of its events. *)
Definition lift {E E' A} (f : E -> E') (m : Eff E A) : Eff E' A :=
  (List.map f (fst m), snd m).

Definition trace {E A} (m : Eff E A) : list E := fst m.
Definition outcome {E A} (m : Eff E A) : Outcome A := snd m.

End Effects.
Export Effects.

(** ** The external collaborators *)

Module Runtime.

(** A number that need not be an integer (the slippage of a trade). *)
Definition number : Type := QArith_base.Q.

(** Conversation state and messages are objects owned by the agent runtime. *)
Definition State : Type := JsValue.
Definition Memory : Type := JsValue.

(** viem: chains, accounts and clients.  A client is the record of the
    configuration it was built from. *)
Inductive Chain : Type := base | baseSepolia | polygon.

Definition chainName (c : Chain) : string :=
  match c with
  | base => "Base"
  | baseSepolia => "Base Sepolia"
  | polygon => "Polygon"
  end.

Definition chainId (c : Chain) : Z :=
  match c with
  | base => 8453
  | baseSepolia => 84532
  | polygon => 137
  end.

Record Account : Type := { address : string }.

Record PublicClient : Type := {
  pc_chain : Chain;
  pc_transport : string
}.

Record WalletClient : Type := {
  wc_account : Account;
  wc_chain : Chain;
  wc_transport : string
}.

(** A tool of the market SDK: [name], [execute] and [call] may each be
    missing; running it may resolve to [undefined]. *)
Record Tool : Type := {
  tool_name : option string;
  tool_execute : option (JsValue -> Outcome (option JsValue));
  tool_call : option (JsValue -> Outcome (option JsValue))
}.

(** The object a schema makes [generateObject] return. *)
Inductive Currency : Type := ZORA | ETH.

Record CreateCoinParameters : Type := {
  cc_name : string;
  cc_symbol : string;
  cc_uri : option string;
  cc_image : option string;
  cc_description : option string;
  cc_payoutRecipient : string;
  cc_platformReferrer : option string;
  cc_currency : option Currency
}.

Record TradeCoinParameters : Type := {
  tc_sellType : string;
  tc_buyType : string;
  tc_coinAddress : string;
  tc_amountIn : string;
  tc_slippage : number
}.

Inductive Schema : Type := createCoinSchema | tradeCoinSchema | eventsSchema.

(** The argument of [createCoin]. *)
Record CoinParams : Type := {
  cp_name : string;
  cp_symbol : string;
  cp_uri : string;
  cp_payoutRecipient : string;
  cp_platformReferrer : option string;
  cp_currency : Currency
}.

(** The [tradeParameters] of [tradeCoin]. *)
Record TradeParameters : Type := {
  tp_sell_type : string;
  tp_buy_type : string;
  tp_buy_address : string;
  tp_amountIn : Z;
  tp_slippage : number;
  tp_sender : string
}.

(** [runtime.fetch]: the request, and the response with the results of its
    [text()] and [json()] methods. *)
Record RequestInit : Type := {
  req_method : string;
  req_headers : list (string * string);
  req_body : string
}.

Record PinataJson : Type := { IpfsHash : option string }.

Record FetchResponse : Type := {
  ok : bool;
  status : Z;
  statusText : string;
  response_text : Outcome string;
  response_json : Outcome PinataJson
}.

(** Every call that leaves the plugin. *)
Inductive Call : Type :=
  | console_log (text : string)
  | console_warn (text : string)
  | console_error (text : string) (error : Thrown)
  | call_privateKeyToAccount (privateKey : string)
  | call_createPublicClient (chain : Chain) (rpcUrl : string)
  | call_createWalletClient (account : Account) (chain : Chain) (rpcUrl : string)
  | call_getOnChainTools (wallet : WalletClient) (key secret passphrase : string)
  | call_composeState (message : Memory)
  | call_updateRecentMessageState (state : State)
  | call_generateObject (context : string) (schema : Schema)
  | call_generateText (context : string)
  | call_fetch (url : string) (init : RequestInit)
  | call_createCoin (coinParams : CoinParams) (walletClient : WalletClient)
      (publicClient : PublicClient) (gasMultiplier : Z)
  | call_tradeCoin (tradeParameters : TradeParameters) (walletClient : WalletClient)
      (account : Account) (publicClient : PublicClient)
  | call_toolExecute (name : option string) (params : JsValue)
  | call_toolCall (name : option string) (params : JsValue).

(** What the world answers.  [env] is [process.env]; [Date_now] is the clock
    reading of [Date.now()]; the client constructors of viem either throw or
    build the client of their configuration. *)
Record World : Type := {
  env : gmap string string;
  Date_now : Z;
  privateKeyToAccount : string -> Outcome Account;
  createPublicClient : Chain -> string -> option Thrown;
  createWalletClient : Account -> Chain -> string -> option Thrown;
  getOnChainTools : WalletClient -> string -> string -> string -> Outcome (list Tool);
  composeState : Memory -> Outcome State;
  updateRecentMessageState : State -> Outcome State;
  composeContext : State -> string -> string;
  generateObject_createCoin : string -> Outcome CreateCoinParameters;
  generateObject_tradeCoin : string -> Outcome TradeCoinParameters;
  generateObject_events : string -> Outcome JsValue;
  generateText : string -> Outcome string;
  fetch : string -> RequestInit -> Outcome FetchResponse;
  createCoin : CoinParams -> WalletClient -> PublicClient -> Z -> Outcome JsValue;
  tradeCoin : TradeParameters -> WalletClient -> Account -> PublicClient
              -> Outcome JsValue;
  parseEther : string -> Outcome Z
}.

(** The outcome of a constructor: the failure the world decides, or the
    client. *)
Definition built {A} (failure : option Thrown) (client : A) : Outcome A :=
  match failure with
  | Some e => Throw e
  | None => Ret client
  end.

(** The handler callback.  Its argument has a [text] and a [content]; the
    content is an object literal (a field may hold [undefined]) or a value
    passed as it is.  The callback may throw, and each invocation is an
    event of the handler next to its external calls. *)
Inductive Payload : Type :=
  | PayloadObject (fields : list (string * option JsValue))
  | PayloadValue (v : option JsValue).

Record CallbackContent : Type := {
  text : string;
  content : Payload
}.

Definition HandlerCallback : Type := CallbackContent -> option Thrown.

Inductive Event : Type :=
  | External (c : Call)
  | Invoked (r : CallbackContent).

(** [callback?.(argument)]: without a callback the argument is not
    evaluated; with one, the argument is evaluated, then the callback runs. *)
Definition optionalCall (callback : option HandlerCallback)
  (argument : Outcome CallbackContent) : Eff Event unit :=
  match callback with
  | None => mret tt
  | Some cb =>
      r ← eval argument;
      ([Invoked r], match cb r with Some e => Throw e | None => Ret tt end)
  end.

(** The argument of the callback in a [catch] block. *)
Definition errorReply (prefix errorMessage : string) : CallbackContent :=
  {| text := prefix ++ errorMessage;
     content := PayloadObject [("error", Some (JStr errorMessage))] |}.

(** The first two statements of every handler:
    [state ?? (await runtime.composeState(message))], then
    [runtime.updateRecentMessageState].  The state is composed when the
    one given is [undefined] or [null]. *)
Definition currentStateOf (w : World) (message : Memory) (state : option State)
  : Eff Call State :=
  currentState ← match state with
                 | None | Some JNull =>
                     call (call_composeState message) (composeState w message)
                 | Some s => mret s
                 end;
  call (call_updateRecentMessageState currentState)
       (updateRecentMessageState w currentState).

(** An action descriptor.  [validate] is the result of the predicate
    [async () => true]; [handler] takes the runtime (the world), the
    message, the optional state and the optional callback, its unused
    options argument being left out. *)
Record ActionExample : Type := {
  user : string;
  example_text : string;
  example_action : option string
}.

Record Action : Type := {
  action_name : string;
  similes : list string;
  description : string;
  validate : bool;
  handler : World -> Memory -> option State -> option HandlerCallback
            -> Eff Event bool;
  examples : list (list ActionExample)
}.

Record Provider : Type := { get : World -> Eff Call string }.

End Runtime.
Export Runtime.

(** ** Zora plugin, provider.ts *)

Module ZoraProvider.

Record ZoraClients : Type := {
  publicClient : PublicClient;
  walletClient : WalletClient;
  account : Account
}.

(** The three tests of [getZoraClients] on the lowercased [ZORA_CHAIN] and
    the two on the lowercased RPC URL. *)
Definition isSepoliaEnv (zoraChainEnv : string) : bool :=
  String.eqb zoraChainEnv "base-sepolia"
  || String.eqb zoraChainEnv "basesepolia"
  || String.eqb zoraChainEnv "sepolia".

Definition isSepoliaRpc (rpcUrlLower : string) : bool :=
  includes rpcUrlLower "sepolia" || includes rpcUrlLower "84532".

Definition getZoraClients (w : World) : Eff Call ZoraClients :=
  let rpcUrl := env w !! "ZORA_RPC_URL" in
  let privateKey := env w !! "ZORA_PRIVATE_KEY" in
  match truthyString rpcUrl, truthyString privateKey with
  | Some rpcUrl, Some privateKey =>
      (* process.env.ZORA_CHAIN || '' *)
      let zoraChainEnv :=
        toLowerCase (default "" (truthyString (env w !! "ZORA_CHAIN"))) in
      let rpcUrlLower := toLowerCase rpcUrl in
      let chain :=
        if isSepoliaEnv zoraChainEnv || isSepoliaRpc rpcUrlLower
        then baseSepolia else base in
      (if truthy (env w !! "DEBUG_ZORA")
       then call (console_log ("[Zora] Using chain: " ++ chainName chain
                               ++ " (id: " ++ bigintToString (chainId chain)
                               ++ ") with RPC: " ++ rpcUrl)) (Ret tt)
       else mret tt);;
      account ← call (call_privateKeyToAccount privateKey)
                     (privateKeyToAccount w privateKey);
      publicClient ← call (call_createPublicClient chain rpcUrl)
                          (built (createPublicClient w chain rpcUrl)
                             {| pc_chain := chain; pc_transport := rpcUrl |});
      walletClient ← call (call_createWalletClient account chain rpcUrl)
                          (built (createWalletClient w account chain rpcUrl)
                             {| wc_account := account; wc_chain := chain;
                                wc_transport := rpcUrl |});
      mret {| publicClient := publicClient; walletClient := walletClient;
              account := account |}
  | _, _ =>
      throw (ErrorObj "Missing required Zora credentials. Please set ZORA_RPC_URL and ZORA_PRIVATE_KEY environment variables.")
  end.

Definition zoraProvider : Provider := {|
  get := fun w =>
    tryCatch
      (clients ← getZoraClients w;
       mret ("Zora Wallet Address: " ++ address (account clients)))
      (fun error =>
         call (console_error "Error in Zora provider:" error) (Ret tt);;
         mret ("Error initializing Zora wallet: " ++ interpolate (messageProp error)))
|}.

End ZoraProvider.

(** ** Zora plugin, actions.ts *)

Module ZoraActions.
Import ZoraProvider.

(** Safely stringify objects containing BigInt by converting them to strings *)
Definition safeStringify (value : JsValue) : Outcome string :=
  JSON_stringify (Some bigintToString) 0 value.

Record MetadataParams : Type := {
  name : string;
  symbol : string;
  uri : option string;
  image : option string;
  description : option string
}.

Definition pinataUrl : string := "https://api.pinata.cloud/pinning/pinJSONToIPFS".

Definition ensureMetadataUri (w : World) (params : MetadataParams) : Eff Call string :=
  (* If a plausible URI is provided, use it as-is *)
  let provided := trim <$> uri params in
  (* what follows the early return: the pinning of a metadata document *)
  let pin : Eff Call string :=
    match truthyString (env w !! "PINATA_JWT") with
    | None =>
        throw (ErrorObj "Missing PINATA_JWT. Cannot auto-generate metadata URI. Provide a valid uri or set PINATA_JWT to enable auto-pinning.")
    | Some pinataJwt =>
        let defaultImageCid := env w !! "PINATA_DEFAULT_IMAGE_CID" in
        let image : option string :=
          match truthyString (trim <$> image params) with
          | Some i => Some i
          | None =>
              match truthyString defaultImageCid with
              | Some cid => Some ("ipfs://" ++ cid)
              | None => None
              end
          end in
        let description : string :=
          match truthyString (trim <$> description params) with
          | Some d => d
          | None => "Creator coin for " ++ name params
          end in
        let metadata :=
          JObj ([("name", JStr (name params)); ("description", JStr description)]
                ++ match truthyString image with
                   | Some i => [("image", JStr i)]
                   | None => []
                   end)%list in
        let body :=
          JObj [("pinataContent", metadata);
                ("pinataMetadata",
                 JObj [("name", JStr ("zora-coin-" ++ symbol params ++ "-"
                                      ++ bigintToString (Date_now w)))])] in
        bodyText ← eval (JSON_stringify None 0 body);
        let init := {| req_method := "POST";
                       req_headers := [("Content-Type", "application/json");
                                       ("Authorization", "Bearer " ++ pinataJwt)];
                       req_body := bodyText |} in
        response ← call (call_fetch pinataUrl init) (fetch w pinataUrl init);
        if negb (ok response) then
          (* response.text().catch(() => '') *)
          let text := match response_text response with
                      | Ret t => t
                      | Throw _ => ""
                      end in
          throw (ErrorObj ("Pinata pinJSONToIPFS failed: "
                           ++ bigintToString (status response) ++ " "
                           ++ statusText response ++ " " ++ text))
        else
          json ← eval (response_json response);
          match truthyString (IpfsHash json) with
          | None => throw (ErrorObj "Pinata response missing IpfsHash")
          | Some hash => mret ("ipfs://" ++ hash)
          end
    end in
  match truthyString provided with
  | Some provided =>
      if startsWith provided "ipfs://" || startsWith provided "http://"
         || startsWith provided "https://"
      then mret provided
      else pin
  | None => pin
  end.

Definition composeParameterContext (w : World) (actionName : string)
  (state : State) (description : string) : string :=
  let contextTemplate := "{{recentMessages}}

Given the recent messages, extract the following information for the action " ++ dquote ++ actionName ++ dquote ++ ":
" ++ description ++ "

Please provide the parameters in the correct format.
" in
  composeContext w state contextTemplate.

(** A schema with the type of the object it describes and the answers the
    object generator gives for it. *)
Record TypedSchema (T : Type) : Type := {
  schema_tag : Schema;
  schema_answer : World -> string -> Outcome T
}.
Arguments schema_tag {T} _.
Arguments schema_answer {T} _ _ _.

Definition generateParameters {T} (w : World) (context : string)
  (schema : TypedSchema T) : Eff Call T :=
  call (call_generateObject context (schema_tag schema))
       (schema_answer schema w context).

Definition composeResponseContext (w : World) (actionName : string)
  (result : JsValue) (state : State) : Outcome string :=
  serialized ← safeStringify result;
  let responseTemplate := "
# Action Examples
{{actionExamples}}

# Knowledge
{{knowledge}}

# Task: Generate dialog and actions for the character {{agentName}}.
About {{agentName}}:
{{bio}}
{{lore}}

{{providers}}

{{attachments}}

# Capabilities
Note that {{agentName}} is capable of reading/seeing/hearing various forms of media, including images, videos, audio, plaintext and PDFs. Recent attachments have been included above under the " ++ dquote ++ "Attachments" ++ dquote ++ " section.

The Zora action " ++ dquote ++ actionName ++ dquote ++ " was executed successfully.
Here is the result:
" ++ serialized ++ "

{{actions}}

Respond to the message knowing that the action was successful and these were the previous messages:
{{recentMessages}}
" in
  mret (composeContext w state responseTemplate).

Definition generateResponse (w : World) (context : string) : Eff Call string :=
  call (call_generateText context) (generateText w context).

Definition createCoinSchemaOf : TypedSchema CreateCoinParameters :=
  {| schema_tag := createCoinSchema; schema_answer := generateObject_createCoin |}.

Definition tradeCoinSchemaOf : TypedSchema TradeCoinParameters :=
  {| schema_tag := tradeCoinSchema; schema_answer := generateObject_tradeCoin |}.

(** The [try] block of the CREATE_COIN handler up to the reply, that is all
    of it but the call of the callback: the generated reply and the result
    of the SDK. *)
Definition createCoinSteps (getClients : World -> Eff Call ZoraClients)
  (w : World) (message : Memory) (state : option State)
  : Eff Call (string * JsValue) :=
  clients ← getClients w;
  currentState ← currentStateOf w message state;
  let parameterContext :=
    composeParameterContext w "CREATE_COIN" currentState
      "Extract coin creation parameters including name, symbol, metadata URI (optional), payout recipient address. Optionally include image and description for metadata." in
  parameters ← generateParameters w parameterContext createCoinSchemaOf;
  resolvedUri ← ensureMetadataUri w
    {| name := cc_name parameters;
       symbol := cc_symbol parameters;
       uri := cc_uri parameters;
       image := cc_image parameters;
       description := cc_description parameters |};
  let coinParams :=
    {| cp_name := cc_name parameters;
       cp_symbol := cc_symbol parameters;
       cp_uri := resolvedUri;
       cp_payoutRecipient := cc_payoutRecipient parameters;
       (* (parameters.platformReferrer as Address) || undefined *)
       cp_platformReferrer := truthyString (cc_platformReferrer parameters);
       cp_currency := match cc_currency parameters with
                      | Some ZORA => ZORA
                      | _ => ETH
                      end |} in
  result ← call (call_createCoin coinParams (walletClient clients)
                   (publicClient clients) 120)
                (createCoin w coinParams (walletClient clients)
                   (publicClient clients) 120);
  responseContext ← eval (composeResponseContext w "CREATE_COIN" result currentState);
  response ← generateResponse w responseContext;
  mret (response, result).

(** The argument of the callback after a successful creation. *)
Definition createCoinReply (response : string) (result : JsValue)
  : Outcome CallbackContent :=
  hash ← getProp result "hash";
  address ← getProp result "address";
  deployment ← getProp result "deployment";
  mret {| text := response;
          content := PayloadObject [("transactionHash", hash);
                                    ("coinAddress", address);
                                    ("deploymentDetails", deployment)] |}.

Definition example (u t : string) (a : option string) : ActionExample :=
  {| user := u; example_text := t; example_action := a |}.

Definition createCoinAction (getClients : World -> Eff Call ZoraClients) : Action := {|
  action_name := "CREATE_COIN";
  Runtime.description :=
    "Create a new coin on Zora using the Zora Coins SDK. This action allows you to deploy a new creator coin with specified parameters including name, symbol, metadata URI, and payout recipient.";
  similes := ["deploy coin"; "create token"; "mint coin"; "launch coin"];
  validate := true;
  handler := fun w message state callback =>
    tryCatch
      ('(response, result) ← lift External (createCoinSteps getClients w message state);
       optionalCall callback (createCoinReply response result);;
       mret true)
      (fun error =>
         let errorMessage := errorMessageOf error in
         optionalCall callback (Ret (errorReply "Error creating coin: " errorMessage));;
         mret false);
  examples := [
    [ example "{{user1}}" "Create a coin named 'My Awesome Coin' with symbol 'MAC'" None;
      example "{{user2}}" "I'll create that coin for you" (Some "CREATE_COIN") ];
    [ example "{{user1}}" "Deploy a new creator coin with metadata URI and payout address" None;
      example "{{user2}}" "Creating your creator coin now" (Some "CREATE_COIN") ];
    [ example "{{user1}}" "Launch a new token on Zora platform" None;
      example "{{user2}}" "Launching your token on Zora" (Some "CREATE_COIN") ] ]
|}.

(** The [try] block of the TRADE_COIN handler up to the reply. *)
Definition tradeCoinSteps (getClients : World -> Eff Call ZoraClients)
  (w : World) (message : Memory) (state : option State)
  : Eff Call (string * JsValue) :=
  clients ← getClients w;
  currentState ← currentStateOf w message state;
  let parameterContext :=
    composeParameterContext w "TRADE_COIN" currentState
      "Extract trade parameters including sell type (eth), buy type (erc20), coin address, amount in ETH, and slippage tolerance." in
  parameters ← generateParameters w parameterContext tradeCoinSchemaOf;
  amountIn ← eval (parseEther w (tc_amountIn parameters));
  let tradeParameters :=
    {| tp_sell_type := "eth";
       tp_buy_type := "erc20";
       tp_buy_address := tc_coinAddress parameters;
       tp_amountIn := amountIn;
       tp_slippage := tc_slippage parameters;
       tp_sender := address (account clients) |} in
  result ← call (call_tradeCoin tradeParameters (walletClient clients)
                   (account clients) (publicClient clients))
                (tradeCoin w tradeParameters (walletClient clients)
                   (account clients) (publicClient clients));
  responseContext ← eval (composeResponseContext w "TRADE_COIN" result currentState);
  response ← generateResponse w responseContext;
  mret (response, result).

Definition tradeCoinReply (response : string) (result : JsValue)
  : Outcome CallbackContent :=
  hash ← getProp result "hash";
  mret {| text := response;
          content := PayloadObject [("transactionHash", hash);
                                    ("tradeDetails", Some result)] |}.

Definition tradeCoinAction (getClients : World -> Eff Call ZoraClients) : Action := {|
  action_name := "TRADE_COIN";
  Runtime.description :=
    "Trade coins on Zora using the Zora Coins SDK. This action allows you to buy or sell coins with specified amounts, slippage tolerance, and trade parameters.";
  similes := ["buy coin"; "sell coin"; "swap coin"; "trade token"];
  validate := true;
  handler := fun w message state callback =>
    tryCatch
      ('(response, result) ← lift External (tradeCoinSteps getClients w message state);
       optionalCall callback (tradeCoinReply response result);;
       mret true)
      (fun error =>
         let errorMessage := errorMessageOf error in
         optionalCall callback (Ret (errorReply "Error trading coin: " errorMessage));;
         mret false);
  examples := [
    [ example "{{user1}}" "Buy 0.001 ETH worth of coin at address 0x4e93a01c90f812284f71291a8d1415a904957156" None;
      example "{{user2}}" "I'll execute that trade for you" (Some "TRADE_COIN") ];
    [ example "{{user1}}" "Trade ETH for a creator coin with 5% slippage tolerance" None;
      example "{{user2}}" "Executing the trade with 5% slippage" (Some "TRADE_COIN") ];
    [ example "{{user1}}" "Swap ETH for a specific coin token" None;
      example "{{user2}}" "Swapping ETH for your coin" (Some "TRADE_COIN") ] ]
|}.

(** Get all Zora actions *)
Definition getZoraActions (getClients : World -> Eff Call ZoraClients)
  : Eff Call (list Action) :=
  mret [createCoinAction getClients; tradeCoinAction getClients].

End ZoraActions.

(** ** Zora plugin, index.ts *)

Module ZoraIndex.
Import ZoraProvider ZoraActions.

Definition initializeActions (w : World) : Eff Call (list Action) :=
  tryCatch
    ((* Validate environment variables *)
     let rpcUrl := env w !! "ZORA_RPC_URL" in
     let privateKey := env w !! "ZORA_PRIVATE_KEY" in
     if negb (truthy rpcUrl) || negb (truthy privateKey) then
       call (console_warn "⚠️ Missing Zora credentials - Zora actions will not be available") (Ret tt);;
       call (console_warn "Please set ZORA_RPC_URL and ZORA_PRIVATE_KEY environment variables") (Ret tt);;
       mret []
     else
       actions ← getZoraActions getZoraClients;
       call (console_log "✔ Zora actions initialized successfully.") (Ret tt);;
       mret actions)
    (fun error =>
       call (console_error "❌ Failed to initialize Zora actions:" error) (Ret tt);;
       (* Return empty array instead of failing *)
       mret []).

End ZoraIndex.

(** ** Polymarket plugin: provider, actions and index *)

Module Polymarket.

Record PolymarketClient : Type := {
  tools : list Tool;
  walletClient : WalletClient;
  account : Account
}.

Definition getPolymarketClient (w : World) : Eff Call PolymarketClient :=
  (* Validate required environment variables *)
  let apiKey := env w !! "POLYMARKET_API_KEY" in
  let apiSecret := env w !! "POLYMARKET_SECRET" in
  let apiPassphrase := env w !! "POLYMARKET_PASSPHRASE" in
  let walletPrivateKey := env w !! "WALLET_PRIVATE_KEY" in
  let rpcProviderUrl := env w !! "RPC_PROVIDER_URL" in
  match truthyString apiKey, truthyString apiSecret, truthyString apiPassphrase with
  | Some apiKey, Some apiSecret, Some apiPassphrase =>
      match truthyString walletPrivateKey, truthyString rpcProviderUrl with
      | Some walletPrivateKey, Some rpcProviderUrl =>
          tryCatch
            ((* Create wallet client *)
             account ← call (call_privateKeyToAccount walletPrivateKey)
                            (privateKeyToAccount w walletPrivateKey);
             walletClient ← call (call_createWalletClient account polygon rpcProviderUrl)
                                 (built (createWalletClient w account polygon rpcProviderUrl)
                                    {| wc_account := account; wc_chain := polygon;
                                       wc_transport := rpcProviderUrl |});
             (* Create Polymarket tools *)
             tools ← call (call_getOnChainTools walletClient apiKey apiSecret apiPassphrase)
                          (getOnChainTools w walletClient apiKey apiSecret apiPassphrase);
             mret {| tools := tools; walletClient := walletClient; account := account |})
            (fun error =>
               call (console_error "Failed to initialize Polymarket client:" error) (Ret tt);;
               (* error.message || 'Unknown error' *)
               throw (ErrorObj ("Failed to initialize Polymarket client: "
                                ++ default "Unknown error" (truthyString (messageProp error)))))
      | _, _ =>
          throw (ErrorObj "Missing required wallet configuration. Please set WALLET_PRIVATE_KEY and RPC_PROVIDER_URL environment variables.")
      end
  | _, _, _ =>
      throw (ErrorObj "Missing required Polymarket API credentials. Please set POLYMARKET_API_KEY, POLYMARKET_SECRET, and POLYMARKET_PASSPHRASE environment variables.")
  end.

Definition walletProvider : Provider := {|
  get := fun w =>
    tryCatch
      (client ← getPolymarketClient w;
       mret ("Polymarket Wallet Address: " ++ address (account client)))
      (fun error =>
         call (console_error "Error in Polymarket provider:" error) (Ret tt);;
         mret ("Error initializing Polymarket wallet: " ++ interpolate (messageProp error)))
|}.

(** [JSON.stringify(result, null, 2)] inside the template literal; the
    result may be [undefined], which [JSON.stringify] gives back and the
    template prints as the word. *)
Definition generateResponse (w : World) (state : State) (actionName : string)
  (result : option JsValue) (successMessage : string) : Eff Call string :=
  serialized ← eval (match result with
                     | Some value => JSON_stringify None 2 value
                     | None => Ret "undefined"
                     end);
  let responseTemplate := "
# Action Examples
{{actionExamples}}

# Knowledge
{{knowledge}}

# Task: Generate dialog and actions for the character {{agentName}}.
About {{agentName}}:
{{bio}}
{{lore}}

{{providers}}

{{attachments}}

# Capabilities
Note that {{agentName}} is capable of reading/seeing/hearing various forms of media, including images, videos, audio, plaintext and PDFs. Recent attachments have been included above under the " ++ dquote ++ "Attachments" ++ dquote ++ " section.

The action " ++ dquote ++ actionName ++ dquote ++ " was executed successfully.
" ++ successMessage ++ "

Here is the result:
" ++ serialized ++ "

{{actions}}

Respond to the message knowing that the action was successful and these were the previous messages:
{{recentMessages}}
" in
  let context := composeContext w state responseTemplate in
  call (call_generateText context) (generateText w context).

Definition handleError (error : Thrown) (actionName : string)
  (callback : option HandlerCallback) : Eff Event bool :=
  let errorMessage := errorMessageOf error in
  lift External (call (console_error ("Error executing " ++ actionName ++ ":") error) (Ret tt));;
  optionalCall callback
    (Ret (errorReply ("Error executing " ++ actionName ++ ": ") errorMessage));;
  mret false.

(** The predicate of [tools.find]: the lowercased name, when there is one,
    includes [event] or [market]. *)
Definition isEventTool (tool : Tool) : bool :=
  match tool_name tool with
  | Some name =>
      includes (toLowerCase name) "event" || includes (toLowerCase name) "market"
  | None => false
  end.

Definition eventsTemplate : string := "{{recentMessages}}

Extract any specific event or market criteria from the recent messages. Look for:
- Event names or keywords
- Date ranges
- Market categories
- Active/inactive status
If no specific criteria is mentioned, get general events.".

(** [await eventTool.execute?.(params) || await eventTool.call?.(params)] *)
Definition runTool (eventTool : Tool) (params : JsValue) : Eff Call (option JsValue) :=
  first ← match tool_execute eventTool with
          | Some execute => call (call_toolExecute (tool_name eventTool) params)
                                 (execute params)
          | None => mret None
          end;
  if truthyValue first then mret first
  else match tool_call eventTool with
       | Some call_ => call (call_toolCall (tool_name eventTool) params) (call_ params)
       | None => mret None
       end.

(** The [try] block of the GET_POLYMARKET_EVENTS handler up to the reply. *)
Definition eventsSteps (w : World) (message : Memory) (state : option State)
  : Eff Call (string * option JsValue) :=
  client ← getPolymarketClient w;
  currentState ← currentStateOf w message state;
  let eventsContext := composeContext w currentState eventsTemplate in
  params ← call (call_generateObject eventsContext eventsSchema)
                (generateObject_events w eventsContext);
  match List.find isEventTool (tools client) with
  | None => throw (ErrorObj "Events tool not found")
  | Some eventTool =>
      result ← runTool eventTool params;
      responseText ← generateResponse w currentState "GET_POLYMARKET_EVENTS" result
                       "Retrieved Polymarket events and markets successfully";
      mret (responseText, result)
  end.

(** The one descriptor of the array that [getPolymarketActions] builds. *)
Definition getPolymarketEventsAction : Action := {|
  action_name := "GET_POLYMARKET_EVENTS";
  similes := ["LIST_EVENTS"; "SHOW_EVENTS"; "VIEW_EVENTS"; "GET_MARKETS"];
  Runtime.description := "Get Polymarket events and markets";
  validate := true;
  handler := fun w message state callback =>
    tryCatch
      ('(responseText, result) ← lift External (eventsSteps w message state);
       optionalCall callback
         (Ret {| text := responseText; content := PayloadValue result |});;
       mret true)
      (fun error => handleError error "GET_POLYMARKET_EVENTS" callback);
  examples := []
|}.

Definition getPolymarketActions : Eff Call (list Action) :=
  let actions := [getPolymarketEventsAction] in
  mret actions.

Definition initializeActions (w : World) : Eff Call (list Action) :=
  tryCatch
    ((* Validate environment variables *)
     let apiKey := env w !! "POLYMARKET_API_KEY" in
     let apiSecret := env w !! "POLYMARKET_SECRET" in
     let apiPassphrase := env w !! "POLYMARKET_PASSPHRASE" in
     let walletPrivateKey := env w !! "WALLET_PRIVATE_KEY" in
     let rpcProviderUrl := env w !! "RPC_PROVIDER_URL" in
     if negb (truthy apiKey) || negb (truthy apiSecret) || negb (truthy apiPassphrase) then
       call (console_warn "⚠️ Missing Polymarket API credentials - Polymarket actions will not be available") (Ret tt);;
       mret []
     else if negb (truthy walletPrivateKey) || negb (truthy rpcProviderUrl) then
       call (console_warn "⚠️ Missing wallet configuration - Polymarket actions will not be available") (Ret tt);;
       mret []
     else
       actions ← getPolymarketActions;
       call (console_log "✔ Polymarket actions initialized successfully.") (Ret tt);;
       mret actions)
    (fun error =>
       call (console_error "❌ Failed to initialize Polymarket actions:" error) (Ret tt);;
       mret []).

End Polymarket.

(** ** Vocabulary of the properties *)

Module Properties.
Import ZoraProvider ZoraActions.

(** The callback invocations of a run, in order. *)
Definition invocations (t : list Event) : list CallbackContent :=
  omap (fun ev => match ev with Invoked r => Some r | External _ => None end) t.

(** The external calls of a handler run, in order. *)
Definition externals (t : list Event) : list Call :=
  omap (fun ev => match ev with External c => Some c | Invoked _ => None end) t.

(** The external calls of a run that are requests to the pinning service. *)
Definition pinRequests (t : list Call) : list RequestInit :=
  omap (fun c => match c with
                 | call_fetch url init =>
                     if String.eqb url pinataUrl then Some init else None
                 | _ => None
                 end) t.

(** The first test of [ensureMetadataUri] on the trimmed uri. *)
Definition hasUriScheme (provided : string) : bool :=
  startsWith provided "ipfs://" || startsWith provided "http://"
  || startsWith provided "https://".


(** No uri that passes the test is supplied: none at all, or one whose
    trimmed text has none of the three schemes. *)
Definition noUsableUri (supplied : option string) : Prop :=
  match supplied with
  | Some u => hasUriScheme (trim u) = false
  | None => True
  end.

Definition withoutUri (params : MetadataParams) : MetadataParams :=
  {| name := name params; symbol := symbol params; uri := None;
     image := image params; description := description params |}.


Definition withAnswer (w : World)
  (answer : string -> Outcome CreateCoinParameters) : World :=
  {| env := env w;
     Date_now := Date_now w;
     privateKeyToAccount := privateKeyToAccount w;
     createPublicClient := createPublicClient w;
     createWalletClient := createWalletClient w;
     getOnChainTools := getOnChainTools w;
     composeState := composeState w;
     updateRecentMessageState := updateRecentMessageState w;
     composeContext := composeContext w;
     generateObject_createCoin := answer;
     generateObject_tradeCoin := generateObject_tradeCoin w;
     generateObject_events := generateObject_events w;
     generateText := generateText w;
     fetch := fetch w;
     createCoin := createCoin w;
     tradeCoin := tradeCoin w;
     parseEther := parseEther w |}.

(** The same world with another environment. *)
Definition withEnv (w : World) (e : gmap string string) : World :=
  {| env := e;
     Date_now := Date_now w;
     privateKeyToAccount := privateKeyToAccount w;
     createPublicClient := createPublicClient w;
     createWalletClient := createWalletClient w;
     getOnChainTools := getOnChainTools w;
     composeState := composeState w;
     updateRecentMessageState := updateRecentMessageState w;
     composeContext := composeContext w;
     generateObject_createCoin := generateObject_createCoin w;
     generateObject_tradeCoin := generateObject_tradeCoin w;
     generateObject_events := generateObject_events w;
     generateText := generateText w;
     fetch := fetch w;
     createCoin := createCoin w;
     tradeCoin := tradeCoin w;
     parseEther := parseEther w |}.


(** The environment variables of the two plugins, and those a message names. *)
Definition variables : list string :=
  [ "POLYMARKET_API_KEY"; "POLYMARKET_SECRET"; "POLYMARKET_PASSPHRASE";
    "WALLET_PRIVATE_KEY"; "RPC_PROVIDER_URL";
    "ZORA_RPC_URL"; "ZORA_PRIVATE_KEY"; "ZORA_CHAIN"; "DEBUG_ZORA";
    "PINATA_JWT"; "PINATA_DEFAULT_IMAGE_CID" ].

Definition namedVariables (message : string) : list string :=
  List.filter (includes message) variables.

(** A value of [ZORA_CHAIN] that selects the testnet. *)
Definition sepoliaValue (zoraChain : option string) : bool :=
  match zoraChain with
  | Some v =>
      bool_decide (toLowerCase v ∈ ["base-sepolia"; "basesepolia"; "sepolia"])
  | None => false
  end.

(** The lowercased RPC URL contains [sepolia] or [84532]. *)
Definition sepoliaHint (rpcUrl : string) : bool :=
  includes (toLowerCase rpcUrl) "sepolia" || includes (toLowerCase rpcUrl) "84532".

(** The chain a bundle of Zora clients is bound to, when both agree. *)
Definition boundTo (clients : ZoraClients) (chain : Chain) : Prop :=
  pc_chain (publicClient clients) = chain /\ wc_chain (walletClient clients) = chain.

(** [sub], a lowercase string, occurs in [s] whatever the case of the
    letters: a substring of [s] has [sub] as its lowercase form. *)
Definition occursIgnoringCase (s sub : string) : Prop :=
  exists pre mid post, s = pre ++ mid ++ post /\ toLowerCase mid = sub.

(** A tool has a name in which [event] or [market] occurs, whatever the
    case of the letters. *)
Definition nameMatches (tool : Tool) : Prop :=
  exists name, tool_name tool = Some name
    /\ (occursIgnoringCase name "event" \/ occursIgnoringCase name "market").

(** The value holds a bigint somewhere. *)
Fixpoint hasBigInt (v : JsValue) : bool :=
  match v with
  | JBigInt _ => true
  | JArr items => existsb hasBigInt items
  | JObj fields => existsb (fun kv => hasBigInt (snd kv)) fields
  | _ => false
  end.


(** The [try] block the three handlers share: the steps, then the call of
    the callback on the reply built from what the steps return. *)
Definition tryBlock {A} (steps : Eff Call A)
  (reply : A -> Outcome CallbackContent) (callback : option HandlerCallback)
  : Eff Event bool :=
  a ← lift External steps;
  optionalCall callback (reply a);;
  mret true.

(** The [catch] block of the two Zora handlers. *)
Definition reportError (prefix : string) (callback : option HandlerCallback)
  (error : Thrown) : Eff Event bool :=
  let errorMessage := errorMessageOf error in
  optionalCall callback (Ret (errorReply prefix errorMessage));;
  mret false.

(** The three handlers. *)
Inductive HandlerId : Type := CREATE_COIN | TRADE_COIN | GET_POLYMARKET_EVENTS.

Definition actionOf (h : HandlerId) : Action :=
  match h with
  | CREATE_COIN => createCoinAction getZoraClients
  | TRADE_COIN => tradeCoinAction getZoraClients
  | GET_POLYMARKET_EVENTS => Polymarket.getPolymarketEventsAction
  end.

Definition errorPrefix (h : HandlerId) : string :=
  match h with
  | CREATE_COIN => "Error creating coin: "
  | TRADE_COIN => "Error trading coin: "
  | GET_POLYMARKET_EVENTS => "Error executing GET_POLYMARKET_EVENTS: "
  end.

(** What a [try] block does before it invokes the callback: its steps and,
    when there is a callback, the evaluation of the argument built for it. *)
Definition upToCallback {A} (steps : Eff Call A)
  (reply : A -> Outcome CallbackContent) (callback : option HandlerCallback)
  : Eff Call (option CallbackContent) :=
  a ← steps;
  match callback with
  | Some _ => r ← eval (reply a); mret (Some r)
  | None => mret None
  end.

Definition beforeCallback (h : HandlerId) (w : World) (message : Memory)
  (state : option State) (callback : option HandlerCallback)
  : Eff Call (option CallbackContent) :=
  match h with
  | CREATE_COIN =>
      upToCallback (createCoinSteps getZoraClients w message state)
        (fun '(response, result) => createCoinReply response result) callback
  | TRADE_COIN =>
      upToCallback (tradeCoinSteps getZoraClients w message state)
        (fun '(response, result) => tradeCoinReply response result) callback
  | GET_POLYMARKET_EVENTS =>
      upToCallback (Polymarket.eventsSteps w message state)
        (fun '(responseText, result) =>
           Ret {| text := responseText; content := PayloadValue result |}) callback
  end.

(** The [try] block of a handler. *)
Definition tryBlockOf (h : HandlerId) (w : World) (message : Memory)
  (state : option State) (callback : option HandlerCallback) : Eff Event bool :=
  match h with
  | CREATE_COIN =>
      tryBlock (createCoinSteps getZoraClients w message state)
        (fun '(response, result) => createCoinReply response result) callback
  | TRADE_COIN =>
      tryBlock (tradeCoinSteps getZoraClients w message state)
        (fun '(response, result) => tradeCoinReply response result) callback
  | GET_POLYMARKET_EVENTS =>
      tryBlock (Polymarket.eventsSteps w message state)
        (fun '(responseText, result) =>
           Ret {| text := responseText; content := PayloadValue result |}) callback
  end.

(** The [catch] block of a handler. *)
Definition catchBlockOf (h : HandlerId) (callback : option HandlerCallback)
  (error : Thrown) : Eff Event bool :=
  match h with
  | CREATE_COIN => reportError "Error creating coin: " callback error
  | TRADE_COIN => reportError "Error trading coin: " callback error
  | GET_POLYMARKET_EVENTS =>
      Polymarket.handleError error "GET_POLYMARKET_EVENTS" callback
  end.


(** The first three steps of the market query: client, state, criteria. *)
Definition eventsPrelude (w : World) (message : Memory) (state : option State)
  : Eff Call (Polymarket.PolymarketClient * State * JsValue) :=
  client ← Polymarket.getPolymarketClient w;
  currentState ← currentStateOf w message state;
  let eventsContext := composeContext w currentState Polymarket.eventsTemplate in
  params ← call (call_generateObject eventsContext eventsSchema)
                (generateObject_events w eventsContext);
  mret (client, currentState, params).

(** The rest of the market query once a tool is chosen. *)
Definition eventsWith (w : World) (currentState : State) (params : JsValue)
  (eventTool : Tool) : Eff Call (string * option JsValue) :=
  result ← Polymarket.runTool eventTool params;
  responseText ← Polymarket.generateResponse w currentState "GET_POLYMARKET_EVENTS"
                   result "Retrieved Polymarket events and markets successfully";
  mret (responseText, result).

(** *** Further vocabulary *)

(** The value with each bigint replaced by the string of its decimal
    digits, as the replacer of [safeStringify] does. *)
Fixpoint bigintsAsText (v : JsValue) : JsValue :=
  match v with
  | JBigInt n => JStr (bigintToString n)
  | JArr items => JArr (List.map bigintsAsText items)
  | JObj fields => JObj (List.map (fun kv => (fst kv, bigintsAsText (snd kv))) fields)
  | _ => v
  end.

(** Console lines, and the calls of the coin SDK. *)
Definition isConsole (c : Call) : bool :=
  match c with
  | console_log _ | console_warn _ | console_error _ _ => true
  | _ => false
  end.

Definition isSdkCall (c : Call) : bool :=
  match c with
  | call_createCoin _ _ _ _ | call_tradeCoin _ _ _ _ => true
  | _ => false
  end.

Definition sdkCalls (t : list Call) : list Call := List.filter isSdkCall t.

(** The calls that are not console lines. *)
Definition effective (t : list Call) : list Call :=
  List.filter (fun c => negb (isConsole c)) t.

(** The console line a [catch] block writes. *)
Definition loggedBy (h : HandlerId) (error : Thrown) : list Call :=
  match h with
  | GET_POLYMARKET_EVENTS =>
      [console_error "Error executing GET_POLYMARKET_EVENTS:" error]
  | _ => []
  end.

(** The client bootstrap of a handler fails with [error] after the calls
    [t]. *)
Definition bootstrapFails (h : HandlerId) (w : World) (t : list Call)
  (error : Thrown) : Prop :=
  match h with
  | GET_POLYMARKET_EVENTS => Polymarket.getPolymarketClient w = (t, Throw error)
  | _ => getZoraClients w = (t, Throw error)
  end.

(** The five variables of the Polymarket plugin are all set and not empty. *)
Definition polymarketConfigured (w : World) : bool :=
  truthy (env w !! "POLYMARKET_API_KEY") && truthy (env w !! "POLYMARKET_SECRET")
  && truthy (env w !! "POLYMARKET_PASSPHRASE")
  && truthy (env w !! "WALLET_PRIVATE_KEY") && truthy (env w !! "RPC_PROVIDER_URL").

(** A string that is missing, empty or made of white space only. *)
Definition blank (v : option string) : bool :=
  match v with
  | Some s => isEmpty (trim s)
  | None => true
  end.

(** What the coin SDK answers to a call of it. *)
Definition sdkAnswer (w : World) (c : Call) : option (Outcome JsValue) :=
  match c with
  | call_createCoin coinParams wallet public gasMultiplier =>
      Some (createCoin w coinParams wallet public gasMultiplier)
  | call_tradeCoin tradeParameters wallet acct public =>
      Some (tradeCoin w tradeParameters wallet acct public)
  | _ => None
  end.

(** The two Zora handlers end alike once the SDK has answered: the reply
    is generated from the serialized result. *)
Definition respond (w : World) (actionName : string) (currentState : State)
  (result : JsValue) : Eff Call (string * JsValue) :=
  responseContext ← eval (composeResponseContext w actionName result currentState);
  response ← generateResponse w responseContext;
  mret (response, result).

(** The world with another pinning service, and the world whose coin SDK
    gives one answer to every call. *)
Definition withFetch (w : World)
  (answer : string -> RequestInit -> Outcome FetchResponse) : World :=
  {| env := env w;
     Date_now := Date_now w;
     privateKeyToAccount := privateKeyToAccount w;
     createPublicClient := createPublicClient w;
     createWalletClient := createWalletClient w;
     getOnChainTools := getOnChainTools w;
     composeState := composeState w;
     updateRecentMessageState := updateRecentMessageState w;
     composeContext := composeContext w;
     generateObject_createCoin := generateObject_createCoin w;
     generateObject_tradeCoin := generateObject_tradeCoin w;
     generateObject_events := generateObject_events w;
     generateText := generateText w;
     fetch := answer;
     createCoin := createCoin w;
     tradeCoin := tradeCoin w;
     parseEther := parseEther w |}.

Definition withSdk (w : World) (answer : Outcome JsValue) : World :=
  {| env := env w;
     Date_now := Date_now w;
     privateKeyToAccount := privateKeyToAccount w;
     createPublicClient := createPublicClient w;
     createWalletClient := createWalletClient w;
     getOnChainTools := getOnChainTools w;
     composeState := composeState w;
     updateRecentMessageState := updateRecentMessageState w;
     composeContext := composeContext w;
     generateObject_createCoin := generateObject_createCoin w;
     generateObject_tradeCoin := generateObject_tradeCoin w;
     generateObject_events := generateObject_events w;
     generateText := generateText w;
     fetch := fetch w;
     createCoin := fun _ _ _ _ => answer;
     tradeCoin := fun _ _ _ _ => answer;
     parseEther := parseEther w |}.

(** The place of a call in the course of a handler: the bootstrap, the
    state, the extraction, the pinning, the SDK or the tool, the reply.
    Console lines have no place. *)
Definition stage (c : Call) : nat :=
  match c with
  | console_log _ | console_warn _ | console_error _ _ => 0
  | call_privateKeyToAccount _ => 1
  | call_createPublicClient _ _ => 2
  | call_createWalletClient _ _ _ => 3
  | call_getOnChainTools _ _ _ _ => 4
  | call_composeState _ => 5
  | call_updateRecentMessageState _ => 6
  | call_generateObject _ _ => 7
  | call_fetch _ _ => 8
  | call_createCoin _ _ _ _ | call_tradeCoin _ _ _ _ | call_toolExecute _ _ => 9
  | call_toolCall _ _ => 10
  | call_generateText _ => 11
  end.

Definition stages (t : list Call) : list nat := List.map stage (effective t).

(** The numbers grow strictly, from above [lo]. *)
Fixpoint ordered (lo : nat) (l : list nat) : bool :=
  match l with
  | [] => true
  | n :: rest => Nat.ltb lo n && ordered n rest
  end.

(** The calls of [t] that are not console lines happen in the order of
    their stages, after stage [lo] and up to stage [hi]. *)
Definition staged (lo hi : nat) (t : list Call) : Prop :=
  ordered lo (stages t) = true /\ Forall (fun n => n <= hi) (stages t).

(** The world with another derivation of accounts. *)
Definition withAccount (w : World) (answer : string -> Outcome Account) : World :=
  {| env := env w;
     Date_now := Date_now w;
     privateKeyToAccount := answer;
     createPublicClient := createPublicClient w;
     createWalletClient := createWalletClient w;
     getOnChainTools := getOnChainTools w;
     composeState := composeState w;
     updateRecentMessageState := updateRecentMessageState w;
     composeContext := composeContext w;
     generateObject_createCoin := generateObject_createCoin w;
     generateObject_tradeCoin := generateObject_tradeCoin w;
     generateObject_events := generateObject_events w;
     generateText := generateText w;
     fetch := fetch w;
     createCoin := createCoin w;
     tradeCoin := tradeCoin w;
     parseEther := parseEther w |}.

End Properties.

(** ** Sample worlds *)

Module Samples.

(** Three tools; the second is the first whose name passes the test of the
    market query, and its result holds a bigint. *)
Definition marketTools : list Tool :=
  [ {| tool_name := Some "create_order";
       tool_execute := Some (fun _ => Ret (Some (JStr "order")));
       tool_call := None |};
    {| tool_name := Some "Get_Polymarket_EVENTS";
       tool_execute := Some (fun _ => Ret (Some (JObj [("volume", JBigInt 12345678901234567890)])));
       tool_call := None |};
    {| tool_name := Some "get_market_info";
       tool_execute := Some (fun _ => Ret (Some JNull));
       tool_call := None |} ].

(** One tool, with a plain result. *)
Definition eventsTool : list Tool :=
  [ {| tool_name := Some "get_polymarket_events";
       tool_execute := Some (fun _ => Ret (Some (JArr [JObj [("title", JStr "Election")]])));
       tool_call := None |} ].

(** A world in which every collaborator answers. *)
Definition answeringWith (e : gmap string string) (tools : list Tool) : World := {|
  env := e;
  Date_now := 1700000000000;
  privateKeyToAccount := fun _ => Ret {| address := "0xA11CE" |};
  createPublicClient := fun _ _ => None;
  createWalletClient := fun _ _ _ => None;
  getOnChainTools := fun _ _ _ _ => Ret tools;
  composeState := fun message => Ret message;
  updateRecentMessageState := fun state => Ret state;
  composeContext := fun _ template => template;
  generateObject_createCoin := fun _ =>
    Ret {| cc_name := "My Awesome Coin"; cc_symbol := "MAC";
           cc_uri := Some "  my-metadata.json ";
           cc_image := None; cc_description := None;
           cc_payoutRecipient := "0xB0B"; cc_platformReferrer := None;
           cc_currency := None |};
  generateObject_tradeCoin := fun _ =>
    Ret {| tc_sellType := "eth"; tc_buyType := "erc20";
           tc_coinAddress := "0x4e93a01c90f812284f71291a8d1415a904957156";
           tc_amountIn := "0.001";
           tc_slippage := QArith_base.Qmake 5 100 |};
  generateObject_events := fun _ => Ret (JObj [("limit", JNum 10)]);
  generateText := fun _ => Ret "Done.";
  fetch := fun _ _ =>
    Ret {| ok := true; status := 200; statusText := "OK";
           response_text := Ret EmptyString;
           response_json := Ret {| IpfsHash := Some "QmHash" |} |};
  createCoin := fun _ _ _ _ =>
    Ret (JObj [("hash", JStr "0xdead"); ("address", JStr "0xc01n")]);
  tradeCoin := fun _ _ _ _ =>
    Ret (JObj [("hash", JStr "0xbeef"); ("amountOut", JBigInt 340282366920938463463374607431768211456)]);
  parseEther := fun _ => Ret 1000000000000000%Z
|}.

Definition answering (e : gmap string string) : World :=
  answeringWith e marketTools.

Definition zoraEnv : gmap string string :=
  {[ "ZORA_RPC_URL" := "https://mainnet.base.org";
     "ZORA_PRIVATE_KEY" := "0x01";
     "PINATA_JWT" := "jwt" ]}.

Definition zoraEnvNoPinata : gmap string string :=
  {[ "ZORA_RPC_URL" := "https://mainnet.base.org";
     "ZORA_PRIVATE_KEY" := "0x01" ]}.

(** A testnet endpoint together with a mainnet setting of [ZORA_CHAIN]. *)
Definition sepoliaRpcEnv : gmap string string :=
  {[ "ZORA_RPC_URL" := "https://SEPOLIA.base.org";
     "ZORA_PRIVATE_KEY" := "0x01";
     "ZORA_CHAIN" := "base" ]}.

Definition polymarketEnv : gmap string string :=
  {[ "POLYMARKET_API_KEY" := "key";
     "POLYMARKET_SECRET" := "secret";
     "POLYMARKET_PASSPHRASE" := "passphrase";
     "WALLET_PRIVATE_KEY" := "0x02";
     "RPC_PROVIDER_URL" := "https://polygon-rpc.com" ]}.

(** The API group is complete, the wallet key is set but empty. *)
Definition polymarketEnvNoWallet : gmap string string :=
  {[ "POLYMARKET_API_KEY" := "key";
     "POLYMARKET_SECRET" := "secret";
     "POLYMARKET_PASSPHRASE" := "passphrase";
     "WALLET_PRIVATE_KEY" := "";
     "RPC_PROVIDER_URL" := "https://polygon-rpc.com" ]}.

(** The Zora world in which the object generator supplies a web uri. *)
Definition withWebUri : World :=
  Properties.withAnswer (answering zoraEnv) (fun _ =>
    Ret {| cc_name := "My Awesome Coin"; cc_symbol := "MAC";
           cc_uri := Some "https://example.org/coin.json";
           cc_image := None; cc_description := None;
           cc_payoutRecipient := "0xB0B"; cc_platformReferrer := None;
           cc_currency := Some ZORA |}).

(** A callback that accepts every reply, and one that always throws. *)
Definition accepting : HandlerCallback := fun _ => None.
Definition throwing : HandlerCallback := fun _ => Some (ErrorObj "sink closed").

(** The pinning service refuses the credential, and the body of its
    response cannot be read. *)
Definition pinRefused : World :=
  Properties.withFetch (answering zoraEnv) (fun _ _ =>
    Ret {| ok := false; status := 401; statusText := "Unauthorized";
           response_text := Throw (ErrorObj "body stream already read");
           response_json := Ret {| IpfsHash := Some "QmIgnored" |} |}).

(** The coin SDK resolves to null. *)
Definition nullResult : World := Properties.withSdk (answering zoraEnv) (Ret JNull).

(** The five variables of the market plugin are set and the wallet key is
    rejected, with a value that is not an [Error]. *)
Definition keyRejected : World :=
  Properties.withAccount (answering polymarketEnv)
    (fun _ => Throw (NonError "invalid private key")).

(** A testnet chosen by [ZORA_CHAIN], in mixed case, over an endpoint whose
    address gives no hint of it. *)
Definition sepoliaChainEnv : gmap string string :=
  {[ "ZORA_RPC_URL" := "https://rpc.example.org";
     "ZORA_PRIVATE_KEY" := "0x01";
     "ZORA_CHAIN" := "Base-Sepolia" ]}.

End Samples.

(** * Properties *)

Import ZoraProvider ZoraActions Properties.

(** ** Laws of the effect layer *)

Section EffLaws.
Context {E A B : Type}.

Lemma bind_Ret (t : list E) (a : A) (k : A -> Eff E B) :
  ((t, Ret a) ≫= k) = ((t ++ fst (k a))%list, snd (k a)).
Proof. unfold mbind, Eff_bind. destruct (k a); reflexivity. Qed.

Lemma bind_Throw (t : list E) (e : Thrown) (k : A -> Eff E B) :
  ((t, Throw e) ≫= k) = (t, Throw e).
Proof. reflexivity. Qed.

Lemma bind_mret (a : A) (k : A -> Eff E B) : (mret a ≫= k) = k a.
Proof. unfold mret, Eff_ret. rewrite bind_Ret. destruct (k a); reflexivity. Qed.

Lemma tryCatch_Ret (t : list E) (a : A) (h : Thrown -> Eff E A) :
  tryCatch (t, Ret a) h = (t, Ret a).
Proof. reflexivity. Qed.

Lemma tryCatch_Throw (t : list E) (e : Thrown) (h : Thrown -> Eff E A) :
  tryCatch (t, Throw e) h = ((t ++ fst (h e))%list, snd (h e)).
Proof. unfold tryCatch. destruct (h e); reflexivity. Qed.

End EffLaws.

Lemma invocations_app (t1 t2 : list Event) :
  invocations (t1 ++ t2) = (invocations t1 ++ invocations t2)%list.
Proof. unfold invocations. apply omap_app. Qed.

Lemma invocations_External (t : list Call) :
  invocations (List.map External t) = [].
Proof. induction t as [| c t IH]; [reflexivity | exact IH]. Qed.

(** ** The embedding on concrete inputs *)

Example trim_both_ends : trim "  https://x y  " = "https://x y".
Proof. reflexivity. Qed.

Example includes_after_lowercase :
  includes (toLowerCase "Get_Polymarket_EVENTS") "event" = true
  /\ includes (toLowerCase "create_order") "market" = false.
Proof. split; reflexivity. Qed.

Example stringify_compact :
  safeStringify (JObj [("hash", JStr "0xab"); ("fee", JBigInt 18446744073709551616);
                       ("logs", JArr [JNum 1; JNull; JObj []])])
  = Ret ("{" ++ dquote ++ "hash" ++ dquote ++ ":" ++ dquote ++ "0xab" ++ dquote
         ++ "," ++ dquote ++ "fee" ++ dquote ++ ":"
         ++ dquote ++ "18446744073709551616" ++ dquote
         ++ "," ++ dquote ++ "logs" ++ dquote ++ ":[1,null,{}]}").
Proof. reflexivity. Qed.

Example stringify_indented :
  JSON_stringify None 2 (JObj [("a", JArr [JNum 1; JBool true]); ("b", JArr [])])
  = Ret ("{" ++ newline
         ++ "  " ++ dquote ++ "a" ++ dquote ++ ": [" ++ newline
         ++ "    1," ++ newline
         ++ "    true" ++ newline
         ++ "  ]," ++ newline
         ++ "  " ++ dquote ++ "b" ++ dquote ++ ": []" ++ newline
         ++ "}").
Proof. reflexivity. Qed.

(** Coin creation with a web uri: no pin request, the SDK is called with
    the uri as supplied, the callback receives the transaction hash. *)
Example create_coin_with_web_uri :
  let run := handler (createCoinAction getZoraClients) Samples.withWebUri
               JNull None (Some Samples.accepting) in
  pinRequests (externals (trace run)) = []
  /\ In (call_createCoin
           {| cp_name := "My Awesome Coin"; cp_symbol := "MAC";
              cp_uri := "https://example.org/coin.json";
              cp_payoutRecipient := "0xB0B"; cp_platformReferrer := None;
              cp_currency := ZORA |}
           {| wc_account := {| address := "0xA11CE" |}; wc_chain := base;
              wc_transport := "https://mainnet.base.org" |}
           {| pc_chain := base; pc_transport := "https://mainnet.base.org" |}
           120)
        (externals (trace run))
  /\ invocations (trace run)
     = [ {| text := "Done.";
            content := PayloadObject [("transactionHash", Some (JStr "0xdead"));
                                      ("coinAddress", Some (JStr "0xc01n"));
                                      ("deploymentDetails", None)] |} ]
  /\ outcome run = Ret true.
Proof.
  cbv zeta. repeat split; try (vm_compute; reflexivity).
  vm_compute. do 6 right. left. reflexivity.
Qed.

(** A trade: the sell leg is eth, the buy leg erc20 at the coin address. *)
Example trade_coin_legs :
  let run := handler (tradeCoinAction getZoraClients)
               (Samples.answering Samples.zoraEnv) JNull None
               (Some Samples.accepting) in
  In (call_tradeCoin
        {| tp_sell_type := "eth"; tp_buy_type := "erc20";
           tp_buy_address := "0x4e93a01c90f812284f71291a8d1415a904957156";
           tp_amountIn := 1000000000000000;
           tp_slippage := QArith_base.Qmake 5 100;
           tp_sender := "0xA11CE" |}
        {| wc_account := {| address := "0xA11CE" |}; wc_chain := base;
           wc_transport := "https://mainnet.base.org" |}
        {| address := "0xA11CE" |}
        {| pc_chain := base; pc_transport := "https://mainnet.base.org" |})
     (externals (trace run))
  /\ outcome run = Ret true.
Proof.
  cbv zeta. split; [| vm_compute; reflexivity].
  vm_compute. do 6 right. left. reflexivity.
Qed.

(** The market query on a plain result: the callback receives the reply and
    the result of the tool as it is. *)
Example polymarket_events_query :
  let run := handler Polymarket.getPolymarketEventsAction
               (Samples.answeringWith Samples.polymarketEnv Samples.eventsTool)
               JNull None (Some Samples.accepting) in
  invocations (trace run)
  = [ {| text := "Done.";
         content := PayloadValue
                      (Some (JArr [JObj [("title", JStr "Election")]])) |} ]
  /\ outcome run = Ret true.
Proof. cbv zeta. split; vm_compute; reflexivity. Qed.

(** ** Credentials and bootstrap *)

(** Case analysis on the truthiness of an environment variable. *)
Ltac case_env w key :=
  let v := fresh "v" in
  let Hv := fresh "H" v in
  destruct (truthyString (env w !! key)) as [v |] eqn:Hv.

Lemma truthyString_Some (v : option string) (s : string) :
  truthyString v = Some s -> v = Some s /\ s <> "".
Proof.
  destruct v as [x |]; [| discriminate]. simpl.
  destruct x; simpl; [discriminate |]. intros [= <-]. split; [reflexivity | discriminate].
Qed.

(** C3: when a credential is missing, client bootstrap throws before any
    external call, so no account, client or tool list is built.  The
    Polymarket bootstrap tests the API group first and reports it, naming
    its three variables and no other; with that group complete it tests the
    wallet group and names its two variables; the Zora bootstrap names its
    two.  A variable is missing when it is unset or empty. *)
Theorem bootstrap_reports_missing_group (w : World) :
  (truthy (env w !! "POLYMARKET_API_KEY") && truthy (env w !! "POLYMARKET_SECRET")
   && truthy (env w !! "POLYMARKET_PASSPHRASE") = false ->
   exists message,
     Polymarket.getPolymarketClient w = ([], Throw (ErrorObj message))
     /\ namedVariables message
        = ["POLYMARKET_API_KEY"; "POLYMARKET_SECRET"; "POLYMARKET_PASSPHRASE"])
  /\ (truthy (env w !! "POLYMARKET_API_KEY") && truthy (env w !! "POLYMARKET_SECRET")
      && truthy (env w !! "POLYMARKET_PASSPHRASE") = true ->
      truthy (env w !! "WALLET_PRIVATE_KEY") && truthy (env w !! "RPC_PROVIDER_URL") = false ->
      exists message,
        Polymarket.getPolymarketClient w = ([], Throw (ErrorObj message))
        /\ namedVariables message = ["WALLET_PRIVATE_KEY"; "RPC_PROVIDER_URL"])
  /\ (truthy (env w !! "ZORA_RPC_URL") && truthy (env w !! "ZORA_PRIVATE_KEY") = false ->
      exists message,
        getZoraClients w = ([], Throw (ErrorObj message))
        /\ namedVariables message = ["ZORA_RPC_URL"; "ZORA_PRIVATE_KEY"]).
Proof.
  unfold truthy, Polymarket.getPolymarketClient, getZoraClients.
  repeat split.
  - case_env w "POLYMARKET_API_KEY"; case_env w "POLYMARKET_SECRET";
      case_env w "POLYMARKET_PASSPHRASE"; try discriminate;
      intros _; eexists; (split; [reflexivity | vm_compute; reflexivity]).
  - case_env w "POLYMARKET_API_KEY"; case_env w "POLYMARKET_SECRET";
      case_env w "POLYMARKET_PASSPHRASE"; try discriminate; intros _.
    case_env w "WALLET_PRIVATE_KEY"; case_env w "RPC_PROVIDER_URL";
      try discriminate;
      intros _; eexists; (split; [reflexivity | vm_compute; reflexivity]).
  - case_env w "ZORA_RPC_URL"; case_env w "ZORA_PRIVATE_KEY"; try discriminate;
      intros _; eexists; (split; [reflexivity | vm_compute; reflexivity]).
Qed.

Lemma bootstrap_reports_missing_group_witness :
  exists message,
    Polymarket.getPolymarketClient (Samples.answering Samples.polymarketEnvNoWallet)
    = ([], Throw (ErrorObj message))
    /\ namedVariables message = ["WALLET_PRIVATE_KEY"; "RPC_PROVIDER_URL"].
Proof.
  apply (proj1 (proj2 (bootstrap_reports_missing_group
                         (Samples.answering Samples.polymarketEnvNoWallet))));
    vm_compute; reflexivity.
Defined.

(** ** Chain selection *)

Lemma isSepoliaEnv_sepoliaValue (zoraChain : option string) :
  isSepoliaEnv (toLowerCase (default "" (truthyString zoraChain)))
  = sepoliaValue zoraChain.
Proof.
  destruct zoraChain as [v |]; [| reflexivity].
  assert (Hv : toLowerCase (default "" (truthyString (Some v))) = toLowerCase v).
  { destruct v; reflexivity. }
  rewrite Hv. unfold isSepoliaEnv, sepoliaValue.
  generalize (toLowerCase v) as x. intros x.
  apply eq_true_iff_eq. rewrite bool_decide_eq_true, !orb_true_iff, !String.eqb_eq.
  rewrite !elem_of_cons, elem_of_nil. tauto.
Qed.

(** Unfolding of the effect layer, and case analysis on the outcome an
    external call is given: the innermost scrutinee first. *)
Ltac eff_unfold :=
  unfold mbind, Eff_bind, mret, Eff_ret, Outcome_bind, Outcome_ret,
    call, eval, throw, tryCatch, lift, built in *.

Ltac case_outcome_in H :=
  match type of H with
  | context [match ?x with _ => _ end] =>
      lazymatch x with
      | context [match _ with _ => _ end] => fail
      | _ => destruct x eqn:?; simpl in H; try discriminate H
      end
  end.

Ltac case_outcome :=
  match goal with
  | |- context [match ?x with _ => _ end] =>
      lazymatch x with
      | context [match _ with _ => _ end] => fail
      | _ => destruct x eqn:?; simpl
      end
  end.

(** The clients of a successful Zora bootstrap are bound to the chain the
    two tests select. *)
Lemma getZoraClients_chain (w : World) (t : list Call) (clients : ZoraClients) :
  getZoraClients w = (t, Ret clients) ->
  exists rpcUrl,
    truthyString (env w !! "ZORA_RPC_URL") = Some rpcUrl
    /\ boundTo clients
         (if sepoliaValue (env w !! "ZORA_CHAIN") || sepoliaHint rpcUrl
          then baseSepolia else base).
Proof.
  unfold getZoraClients.
  case_env w "ZORA_RPC_URL"; [| discriminate].
  case_env w "ZORA_PRIVATE_KEY"; [| discriminate].
  rewrite isSepoliaEnv_sepoliaValue.
  change (isSepoliaRpc (toLowerCase v)) with (sepoliaHint v).
  intros H. exists v. split; [reflexivity |]. revert H.
  generalize (if sepoliaValue (env w !! "ZORA_CHAIN") || sepoliaHint v
              then baseSepolia else base).
  intros chain H.
  eff_unfold. simpl in H.
  repeat case_outcome_in H.
  all: injection H as _ <-; split; reflexivity.
Qed.

(** C4: for every configuration the Zora bootstrap accepts, that is with
    its two credentials set, the chain is Base Sepolia when [ZORA_CHAIN] is,
    in any letter case, one of base-sepolia, basesepolia and sepolia, or
    when the lowercased [ZORA_RPC_URL] contains sepolia or 84532, and Base
    mainnet otherwise.  That chain is the one the bootstrap asks the two
    client constructors for, and no other; the bootstrap returns as soon as
    the key and the two constructors accept it; and the clients it returns
    are bound to it. *)
Theorem zora_chain_resolution (w : World) (rpcUrl privateKey : string) :
  truthyString (env w !! "ZORA_RPC_URL") = Some rpcUrl ->
  truthyString (env w !! "ZORA_PRIVATE_KEY") = Some privateKey ->
  let chain := if sepoliaValue (env w !! "ZORA_CHAIN") || sepoliaHint rpcUrl
               then baseSepolia else base in
  (forall t clients, getZoraClients w = (t, Ret clients) -> boundTo clients chain)
  /\ (forall account,
        privateKeyToAccount w privateKey = Ret account ->
        In (call_createPublicClient chain rpcUrl) (trace (getZoraClients w))
        /\ (createPublicClient w chain rpcUrl = None ->
            In (call_createWalletClient account chain rpcUrl)
               (trace (getZoraClients w))
            /\ (createWalletClient w account chain rpcUrl = None ->
                outcome (getZoraClients w)
                = Ret {| publicClient := {| pc_chain := chain;
                                            pc_transport := rpcUrl |};
                         walletClient := {| wc_account := account;
                                            wc_chain := chain;
                                            wc_transport := rpcUrl |};
                         account := account |})))
  /\ (forall c, In c (trace (getZoraClients w)) ->
        match c with
        | call_createPublicClient chain' _ | call_createWalletClient _ chain' _ =>
            chain' = chain
        | _ => True
        end).
Proof.
  intros Hrpc Hkey chain.
  assert (Hreturned : forall t clients,
            getZoraClients w = (t, Ret clients) -> boundTo clients chain).
  { intros t clients H. apply getZoraClients_chain in H as (rpcUrl' & Hrpc' & Hbound).
    rewrite Hrpc in Hrpc'. injection Hrpc' as <-. exact Hbound. }
  split; [exact Hreturned |]. clear Hreturned.
  unfold getZoraClients. rewrite Hrpc, Hkey, isSepoliaEnv_sepoliaValue.
  change (isSepoliaRpc (toLowerCase rpcUrl)) with (sepoliaHint rpcUrl).
  fold chain. clearbody chain.
  eff_unfold. unfold trace, outcome. split.
  - intros account Haccount. rewrite Haccount.
    destruct (truthy (env w !! "DEBUG_ZORA")); simpl.
    all: destruct (createPublicClient w chain rpcUrl) as [e |]; simpl.
    all: destruct (createWalletClient w account chain rpcUrl) as [e' |]; simpl.
    all: repeat match goal with
                | |- _ /\ _ => split
                | |- In _ _ => simpl
                | |- _ \/ _ => first [left; reflexivity | right]
                | |- Some _ = None -> _ => intros [=]
                | |- None = None -> _ => intros _
                | |- _ = _ => reflexivity
                end.
  - intros c Hin.
    destruct (truthy (env w !! "DEBUG_ZORA")); simpl in Hin.
    all: destruct (privateKeyToAccount w privateKey) as [account | e0]; simpl in Hin.
    all: try destruct (createPublicClient w chain rpcUrl) as [e |]; simpl in Hin.
    all: try destruct (createWalletClient w account chain rpcUrl) as [e' |];
      simpl in Hin.
    all: repeat (destruct Hin as [<- | Hin]; [try exact I; reflexivity |]).
    all: destruct Hin.
Qed.

Lemma zora_chain_resolution_witness :
  let w := Samples.answering Samples.sepoliaChainEnv in
  sepoliaHint "https://rpc.example.org" = false
  /\ In (call_createPublicClient baseSepolia "https://rpc.example.org")
        (trace (getZoraClients w))
  /\ exists clients,
       outcome (getZoraClients w) = Ret clients /\ boundTo clients baseSepolia.
Proof.
  destruct (zora_chain_resolution (Samples.answering Samples.sepoliaChainEnv)
              "https://rpc.example.org" "0x01" eq_refl eq_refl)
    as (Hreturned & Hcalls & _).
  destruct (Hcalls {| address := "0xA11CE" |} eq_refl) as (Hpublic & _).
  split; [reflexivity |]. split; [exact Hpublic |].
  eexists. split; [reflexivity |].
  exact (Hreturned _ _ eq_refl).
Defined.

(** C9: whenever the lowercased [ZORA_RPC_URL] contains sepolia or 84532
    the clients are bound to Base Sepolia, whatever [ZORA_CHAIN] holds: the
    two tests are joined by a disjunction, so no value of [ZORA_CHAIN], set
    by hand in the second part, brings the bootstrap back to mainnet. *)
Theorem sepolia_rpc_hint_wins (w : World) (t : list Call) (clients : ZoraClients) :
  sepoliaHint (default "" (env w !! "ZORA_RPC_URL")) = true ->
  getZoraClients w = (t, Ret clients) ->
  boundTo clients baseSepolia
  /\ forall (zoraChain : string) (t' : list Call) (clients' : ZoraClients),
       getZoraClients (withEnv w (<["ZORA_CHAIN" := zoraChain]> (env w)))
       = (t', Ret clients') ->
       boundTo clients' baseSepolia.
Proof.
  intros Hhint H. split.
  - apply getZoraClients_chain in H as (rpcUrl & Hrpc & Hbound).
    apply truthyString_Some in Hrpc as [Hrpc _]. rewrite Hrpc in Hhint.
    change (sepoliaHint rpcUrl = true) in Hhint.
    rewrite Hhint, orb_true_r in Hbound. exact Hbound.
  - intros zoraChain t' clients' H'.
    apply getZoraClients_chain in H' as (rpcUrl & Hrpc & Hbound).
    cbn [env withEnv] in Hrpc.
    rewrite (lookup_insert_ne (env w) "ZORA_CHAIN" "ZORA_RPC_URL") in Hrpc by done.
    apply truthyString_Some in Hrpc as [Hrpc _]. rewrite Hrpc in Hhint.
    change (sepoliaHint rpcUrl = true) in Hhint.
    rewrite Hhint, orb_true_r in Hbound. exact Hbound.
Qed.

Lemma sepolia_rpc_hint_wins_witness :
  let w := Samples.answering Samples.sepoliaRpcEnv in
  env w !! "ZORA_CHAIN" = Some "base"
  /\ exists clients,
       outcome (getZoraClients w) = Ret clients /\ boundTo clients baseSepolia.
Proof.
  split; [reflexivity |].
  eexists. split; [reflexivity |].
  exact (proj1 (sepolia_rpc_hint_wins (Samples.answering Samples.sepoliaRpcEnv) _ _
                  eq_refl eq_refl)).
Defined.

(** ** Providers and action registration *)

(** C6: the [get] method of both providers always returns a string and
    never throws: the wallet address line when the bootstrap succeeds, a
    line that starts with Error initializing and carries the message of the
    failure when it does not. *)
Theorem providers_never_throw (w : World) :
  (exists line,
     outcome (get zoraProvider w) = Ret line
     /\ match outcome (getZoraClients w) with
        | Ret clients => line = "Zora Wallet Address: " ++ address (account clients)
        | Throw error =>
            line = "Error initializing Zora wallet: " ++ interpolate (messageProp error)
        end)
  /\ (exists line,
        outcome (get Polymarket.walletProvider w) = Ret line
        /\ match outcome (Polymarket.getPolymarketClient w) with
           | Ret client =>
               line = "Polymarket Wallet Address: "
                      ++ address (Polymarket.account client)
           | Throw error =>
               line = "Error initializing Polymarket wallet: "
                      ++ interpolate (messageProp error)
           end).
Proof.
  split.
  - simpl. destruct (getZoraClients w) as [t [clients | error]];
      eexists; (split; [reflexivity |]); reflexivity.
  - simpl. destruct (Polymarket.getPolymarketClient w) as [t [client | error]];
      eexists; (split; [reflexivity |]); reflexivity.
Qed.

(** C7: action initialization never throws.  With a required credential
    unset or empty it returns the empty list; with all of them present it
    returns the fixed descriptors: CREATE_COIN and TRADE_COIN for Zora,
    GET_POLYMARKET_EVENTS for Polymarket. *)
Theorem initializeActions_gating (w : World) :
  outcome (ZoraIndex.initializeActions w)
  = Ret (if truthy (env w !! "ZORA_RPC_URL") && truthy (env w !! "ZORA_PRIVATE_KEY")
         then [createCoinAction getZoraClients; tradeCoinAction getZoraClients]
         else [])
  /\ outcome (Polymarket.initializeActions w)
     = Ret (if truthy (env w !! "POLYMARKET_API_KEY")
               && truthy (env w !! "POLYMARKET_SECRET")
               && truthy (env w !! "POLYMARKET_PASSPHRASE")
               && truthy (env w !! "WALLET_PRIVATE_KEY")
               && truthy (env w !! "RPC_PROVIDER_URL")
            then [Polymarket.getPolymarketEventsAction]
            else [])
  /\ List.map action_name [createCoinAction getZoraClients; tradeCoinAction getZoraClients]
     = ["CREATE_COIN"; "TRADE_COIN"]
  /\ action_name Polymarket.getPolymarketEventsAction = "GET_POLYMARKET_EVENTS".
Proof.
  repeat split.
  - unfold ZoraIndex.initializeActions.
    destruct (truthy (env w !! "ZORA_RPC_URL"));
      destruct (truthy (env w !! "ZORA_PRIVATE_KEY")); reflexivity.
  - unfold Polymarket.initializeActions.
    destruct (truthy (env w !! "POLYMARKET_API_KEY"));
      destruct (truthy (env w !! "POLYMARKET_SECRET"));
      destruct (truthy (env w !! "POLYMARKET_PASSPHRASE"));
      destruct (truthy (env w !! "WALLET_PRIVATE_KEY"));
      destruct (truthy (env w !! "RPC_PROVIDER_URL")); reflexivity.
Qed.

(** ** Metadata URI resolution *)

Lemma hasUriScheme_nonempty (s : string) :
  hasUriScheme s = true -> truthyString (Some s) = Some s.
Proof. destruct s; [discriminate | reflexivity]. Qed.

(** A uri that passes the scheme test once trimmed is returned as trimmed,
    with no external call. *)
Lemma ensureMetadataUri_passes (w : World) (params : MetadataParams) (u : string) :
  uri params = Some u -> hasUriScheme (trim u) = true ->
  ensureMetadataUri w params = ([], Ret (trim u)).
Proof.
  intros Hu Hscheme. unfold ensureMetadataUri. rewrite Hu.
  cbn [fmap option_fmap option_map].
  rewrite (hasUriScheme_nonempty _ Hscheme).
  unfold hasUriScheme in Hscheme. rewrite Hscheme. reflexivity.
Qed.

(** A uri that fails the scheme test is dropped: resolution goes on as it
    does without a uri. *)
Lemma ensureMetadataUri_discards (w : World) (params : MetadataParams) :
  noUsableUri (uri params) ->
  ensureMetadataUri w params = ensureMetadataUri w (withoutUri params).
Proof.
  unfold noUsableUri, ensureMetadataUri, hasUriScheme.
  destruct params as [n s [u |] i d];
    cbn [uri name symbol image description withoutUri fmap option_fmap option_map];
    [| reflexivity].
  intros Hscheme.
  destruct (truthyString (Some (trim u))) as [p |] eqn:Hp; [| reflexivity].
  apply truthyString_Some in Hp as [[= <-] _].
  rewrite Hscheme. reflexivity.
Qed.

(** Without a usable uri and without a pinning credential, resolution
    throws before any external call. *)
Lemma ensureMetadataUri_no_credential (w : World) (params : MetadataParams) :
  noUsableUri (uri params) ->
  truthy (env w !! "PINATA_JWT") = false ->
  ensureMetadataUri w params
  = ([], Throw (ErrorObj "Missing PINATA_JWT. Cannot auto-generate metadata URI. Provide a valid uri or set PINATA_JWT to enable auto-pinning.")).
Proof.
  intros Huri Hjwt. rewrite ensureMetadataUri_discards by exact Huri.
  unfold ensureMetadataUri, truthy in *. simpl.
  destruct (truthyString (env w !! "PINATA_JWT")); [discriminate | reflexivity].
Qed.

(** Without a usable uri and with a pinning credential, resolution makes
    one external call, the pin request, and its result follows the
    response. *)
Lemma ensureMetadataUri_pins (w : World) (params : MetadataParams) :
  noUsableUri (uri params) ->
  truthy (env w !! "PINATA_JWT") = true ->
  exists init,
    ensureMetadataUri w params
    = ([call_fetch pinataUrl init],
       match fetch w pinataUrl init with
       | Throw e => Throw e
       | Ret response =>
           if ok response then
             match response_json response with
             | Throw e => Throw e
             | Ret json =>
                 match truthyString (IpfsHash json) with
                 | Some hash => Ret ("ipfs://" ++ hash)
                 | None => Throw (ErrorObj "Pinata response missing IpfsHash")
                 end
             end
           else
             Throw (ErrorObj ("Pinata pinJSONToIPFS failed: "
                              ++ bigintToString (status response) ++ " "
                              ++ statusText response ++ " "
                              ++ match response_text response with
                                 | Ret t => t
                                 | Throw _ => ""
                                 end))
       end).
Proof.
  intros Huri Hjwt. rewrite ensureMetadataUri_discards by exact Huri.
  unfold ensureMetadataUri, truthy in *. simpl.
  destruct (truthyString (env w !! "PINATA_JWT")) as [jwt |]; [| discriminate].
  destruct (truthyString (trim <$> image params)) as [i |] eqn:Hi;
    [apply truthyString_Some in Hi as [_ Hi]; destruct i; [congruence |]
    | destruct (truthyString (env w !! "PINATA_DEFAULT_IMAGE_CID")) ].
  all: destruct (truthyString (trim <$> description params)).
  all: eff_unfold; simpl.
  all: match goal with |- context [fetch _ pinataUrl ?init] => exists init end.
  all: repeat case_outcome; try reflexivity; simpl in *; discriminate.
Qed.

(** C2: metadata URI resolution.  A supplied uri whose trimmed text starts
    with one of the three schemes is returned as trimmed, with no external
    call at all.  Otherwise, when [PINATA_JWT] is unset or empty, resolution
    throws before any request; when it is set, the pin request is the one
    external call made, and the content identifier of a successful response
    comes back behind the ipfs scheme. *)
Theorem metadata_uri_resolution (w : World) (params : MetadataParams) :
  (forall u, uri params = Some u -> hasUriScheme (trim u) = true ->
     ensureMetadataUri w params = ([], Ret (trim u)))
  /\ (noUsableUri (uri params) -> truthy (env w !! "PINATA_JWT") = false ->
      exists message,
        ensureMetadataUri w params = ([], Throw (ErrorObj message)))
  /\ (noUsableUri (uri params) -> truthy (env w !! "PINATA_JWT") = true ->
      exists init,
        trace (ensureMetadataUri w params) = [call_fetch pinataUrl init]
        /\ pinRequests (trace (ensureMetadataUri w params)) = [init]
        /\ forall response hash,
             fetch w pinataUrl init = Ret response ->
             ok response = true ->
             response_json response = Ret {| IpfsHash := Some hash |} ->
             hash <> "" ->
             outcome (ensureMetadataUri w params) = Ret ("ipfs://" ++ hash)).
Proof.
  split; [| split].
  - intros u Hu Hscheme. apply ensureMetadataUri_passes; assumption.
  - intros Huri Hjwt. eexists. apply ensureMetadataUri_no_credential; assumption.
  - intros Huri Hjwt.
    destruct (ensureMetadataUri_pins w params Huri Hjwt) as [init ->].
    exists init. split; [reflexivity |]. split.
    + unfold pinRequests, trace. cbn [fst omap list_omap]. 
      rewrite String.eqb_refl. reflexivity.
    + intros response hash -> Hok Hjson Hhash. unfold outcome. cbn [snd].
      rewrite Hok, Hjson. cbn [IpfsHash truthyString].
      destruct hash; [congruence | reflexivity].
Qed.

Lemma metadata_uri_resolution_witness :
  (ensureMetadataUri (Samples.answering Samples.zoraEnv)
     {| name := "My Awesome Coin"; symbol := "MAC";
        uri := Some " https://example.org/coin.json  ";
        image := None; description := None |}
   = ([], Ret "https://example.org/coin.json"))
  /\ (exists message,
        ensureMetadataUri (Samples.answering Samples.zoraEnvNoPinata)
          {| name := "My Awesome Coin"; symbol := "MAC"; uri := None;
             image := None; description := None |}
        = ([], Throw (ErrorObj message)))
  /\ (exists init,
        trace (ensureMetadataUri (Samples.answering Samples.zoraEnv)
                 {| name := "My Awesome Coin"; symbol := "MAC"; uri := None;
                    image := None; description := None |})
        = [call_fetch pinataUrl init]
        /\ outcome (ensureMetadataUri (Samples.answering Samples.zoraEnv)
                      {| name := "My Awesome Coin"; symbol := "MAC"; uri := None;
                         image := None; description := None |})
           = Ret "ipfs://QmHash").
Proof.
  split; [| split].
  - apply (proj1 (metadata_uri_resolution (Samples.answering Samples.zoraEnv)
                    {| name := "My Awesome Coin"; symbol := "MAC";
                       uri := Some " https://example.org/coin.json  ";
                       image := None; description := None |})
             " https://example.org/coin.json  "); reflexivity.
  - apply (proj1 (proj2 (metadata_uri_resolution
                           (Samples.answering Samples.zoraEnvNoPinata)
                           {| name := "My Awesome Coin"; symbol := "MAC"; uri := None;
                              image := None; description := None |})));
      [exact I | reflexivity].
  - destruct (proj2 (proj2 (metadata_uri_resolution
                              (Samples.answering Samples.zoraEnv)
                              {| name := "My Awesome Coin"; symbol := "MAC";
                                 uri := None; image := None; description := None |}))
                I eq_refl) as (init & Htrace & _ & Hresult).
    exists init. split; [exact Htrace |].
    apply (Hresult {| ok := true; status := 200; statusText := "OK";
                      response_text := Ret EmptyString;
                      response_json := Ret {| IpfsHash := Some "QmHash" |} |}
                   "QmHash");
      [reflexivity | reflexivity | reflexivity | discriminate].
Defined.

(** *** Traces of sequences *)

Lemma trace_bind {E A B} (m : Eff E A) (k : A -> Eff E B) :
  trace (m ≫= k)
  = (trace m ++ match outcome m with
                | Ret a => trace (k a)
                | Throw _ => []
                end)%list.
Proof.
  destruct m as [t [a | e]]; unfold trace, outcome; simpl.
  - destruct (k a); reflexivity.
  - symmetry. apply app_nil_r.
Qed.



(** *** The scheme test and trimming *)





(** What resolution returns without a usable uri is a pinned identifier. *)
Lemma ensureMetadataUri_pinned (w : World) (params : MetadataParams) (r : string) :
  noUsableUri (uri params) ->
  outcome (ensureMetadataUri w params) = Ret r ->
  exists hash, r = "ipfs://" ++ hash.
Proof.
  intros Huri Hr.
  destruct (truthy (env w !! "PINATA_JWT")) eqn:Hjwt.
  - destruct (ensureMetadataUri_pins w params Huri Hjwt) as [init Hrun].
    rewrite Hrun in Hr. unfold outcome in Hr. cbn [snd] in Hr.
    repeat case_outcome_in Hr. injection Hr as <-. eauto.
  - rewrite (ensureMetadataUri_no_credential w params Huri Hjwt) in Hr. discriminate.
Qed.

Lemma ensureMetadataUri_trace (w : World) (params : MetadataParams) :
  Forall (fun c => exists url init, c = call_fetch url init)
         (trace (ensureMetadataUri w params)).
Proof.
  destruct (uri params) as [u |] eqn:Hu.
  destruct (hasUriScheme (trim u)) eqn:Hscheme.
  - rewrite (ensureMetadataUri_passes w params u Hu Hscheme). constructor.
  - assert (Huri : noUsableUri (uri params)) by (rewrite Hu; exact Hscheme).
    destruct (truthy (env w !! "PINATA_JWT")) eqn:Hjwt.
    + destruct (ensureMetadataUri_pins w params Huri Hjwt) as [init ->].
      repeat constructor. eauto.
    + rewrite (ensureMetadataUri_no_credential w params Huri Hjwt). constructor.
  - assert (Huri : noUsableUri (uri params)) by (rewrite Hu; exact I).
    destruct (truthy (env w !! "PINATA_JWT")) eqn:Hjwt.
    + destruct (ensureMetadataUri_pins w params Huri Hjwt) as [init ->].
      repeat constructor. eauto.
    + rewrite (ensureMetadataUri_no_credential w params Huri Hjwt). constructor.
Qed.





(** ** Error containment in the handlers *)

(** Each handler is its [try] block under its [catch] block. *)
Lemma handler_try_catch (h : HandlerId) (w : World) (message : Memory)
  (state : option State) (callback : option HandlerCallback) :
  handler (actionOf h) w message state callback
  = tryCatch (tryBlockOf h w message state callback) (catchBlockOf h callback).
Proof.
  destruct h; simpl; unfold tryBlock; f_equal.
  - destruct (createCoinSteps getZoraClients w message state) as [t [[r x] | e]];
      reflexivity.
  - destruct (tradeCoinSteps getZoraClients w message state) as [t [[r x] | e]];
      reflexivity.
  - destruct (Polymarket.eventsSteps w message state) as [t [[r x] | e]];
      reflexivity.
Qed.

(** The run of a [try] block, by cases on its steps, the reply and the
    callback. *)
Lemma tryBlock_run {A} (steps : Eff Call A) (reply : A -> Outcome CallbackContent)
  (callback : option HandlerCallback) :
  tryBlock steps reply callback
  = match steps with
    | (t, Throw e) => (List.map External t, Throw e)
    | (t, Ret a) =>
        match callback with
        | None => (List.map External t, Ret true)
        | Some cb =>
            match reply a with
            | Throw e => (List.map External t, Throw e)
            | Ret r =>
                ((List.map External t ++ [Invoked r])%list,
                 match cb r with
                 | None => Ret true
                 | Some e => Throw e
                 end)
            end
        end
    end.
Proof.
  unfold tryBlock. destruct steps as [t [a | e]]; [| reflexivity].
  destruct callback as [cb |]; simpl.
  - destruct (reply a) as [r | e]; simpl.
    + destruct (cb r); simpl; rewrite ?app_nil_r; reflexivity.
    + rewrite app_nil_r. reflexivity.
  - rewrite app_nil_r. reflexivity.
Qed.

(** The run of a [catch] block: the console line of the Polymarket handler,
    then the error reply to the callback, if any. *)
Lemma catchBlock_run (h : HandlerId) (callback : option HandlerCallback)
  (error : Thrown) :
  let reply := errorReply (errorPrefix h) (errorMessageOf error) in
  exists logged : list Call,
    catchBlockOf h callback error
    = match callback with
      | None => (List.map External logged, Ret false)
      | Some cb =>
          ((List.map External logged ++ [Invoked reply])%list,
           match cb reply with
           | None => Ret false
           | Some thrown => Throw thrown
           end)
      end.
Proof.
  destruct h; unfold catchBlockOf, reportError, Polymarket.handleError.
  1, 2: exists []; destruct callback as [cb |]; simpl; [| reflexivity];
        eff_unfold; simpl; destruct (cb _); reflexivity.
  exists [console_error "Error executing GET_POLYMARKET_EVENTS:" error].
  destruct callback as [cb |]; simpl; [| reflexivity].
  eff_unfold; simpl; destruct (cb _); reflexivity.
Qed.





(** ** A uri that fails the scheme test *)

Lemma externals_app (t1 t2 : list Event) :
  externals (t1 ++ t2) = (externals t1 ++ externals t2)%list.
Proof. unfold externals. apply omap_app. Qed.

Lemma externals_External (t : list Call) : externals (List.map External t) = t.
Proof. induction t as [| c t IH]; [reflexivity |]. simpl. f_equal. exact IH. Qed.

Ltac externals_done :=
  simpl; rewrite ?externals_app, ?externals_External; simpl;
  rewrite ?app_nil_r; reflexivity.

(** The external calls of the CREATE_COIN handler are those of its steps. *)
Lemma createCoin_handler_externals (w : World) (message : Memory)
  (state : option State) (callback : option HandlerCallback) :
  externals (trace (handler (actionOf CREATE_COIN) w message state callback))
  = trace (createCoinSteps getZoraClients w message state).
Proof.
  rewrite handler_try_catch. unfold tryBlockOf. rewrite tryBlock_run.
  destruct (createCoinSteps getZoraClients w message state) as [t [[r x] | e]];
    unfold trace; cbn [fst].
  - destruct callback as [cb |]; [| externals_done].
    destruct (createCoinReply r x) as [reply | e].
    + destruct (cb reply) as [thrown |]; [| externals_done].
      rewrite tryCatch_Throw. cbn [fst].
      unfold catchBlockOf, reportError, optionalCall. eff_unfold. simpl.
      destruct (cb _); externals_done.
    + rewrite tryCatch_Throw. cbn [fst].
      unfold catchBlockOf, reportError, optionalCall. eff_unfold. simpl.
      destruct (cb _); externals_done.
  - rewrite tryCatch_Throw. cbn [fst].
    unfold catchBlockOf, reportError, optionalCall. eff_unfold.
    destruct callback as [cb |]; simpl; [destruct (cb _) |]; externals_done.
Qed.



(** ** Tool selection in the market query *)

Lemma prefix_spec (p s : string) :
  String.prefix p s = true <-> exists post, s = p ++ post.
Proof.
  revert s. induction p as [| c p IH]; intros s.
  - split; [exists s; reflexivity | destruct s; reflexivity].
  - destruct s as [| c' s]; simpl.
    + split; [discriminate | intros [post [=]]].
    + destruct (ascii_dec c c') as [<- | Hne].
      * rewrite IH. split; intros [post Hpost]; exists post.
        -- rewrite Hpost. reflexivity.
        -- injection Hpost as ->. reflexivity.
      * split; [discriminate | intros [post [= Heq _]]; congruence].
Qed.

(** [includes] is containment as a substring. *)
Lemma includes_spec (s sub : string) :
  includes s sub = true <-> exists pre post, s = pre ++ sub ++ post.
Proof.
  induction s as [| c s IH].
  - change (includes "" sub) with (String.prefix sub "" || false).
    rewrite orb_true_iff, prefix_spec. split.
    + intros [[post Hpost] | [=]]. exists "", post. exact Hpost.
    + intros ([| ? ?] & post & Hs); [| discriminate]. left. exists post. exact Hs.
  - change (includes (String c s) sub)
      with (String.prefix sub (String c s) || includes s sub).
    rewrite orb_true_iff, prefix_spec, IH. split.
    + intros [[post Hpost] | (pre & post & ->)].
      * exists "", post. exact Hpost.
      * exists (String c pre), post. reflexivity.
    + intros ([| c' pre] & post & Hs).
      * left. exists post. exact Hs.
      * right. injection Hs as -> ->. eauto.
Qed.

Lemma toLowerCase_app (a b : string) :
  toLowerCase (a ++ b) = toLowerCase a ++ toLowerCase b.
Proof. induction a as [| c a IH]; simpl; [reflexivity |]. rewrite IH. reflexivity. Qed.

Lemma toLowerCase_app_inv (s x y : string) :
  toLowerCase s = x ++ y ->
  exists a b, s = a ++ b /\ toLowerCase a = x /\ toLowerCase b = y.
Proof.
  revert s. induction x as [| c x IH]; intros s H.
  - exists "", s. repeat split. exact H.
  - destruct s as [| c' s]; [discriminate |]. simpl in H. injection H as Hc H.
    destruct (IH s H) as (a & b & -> & Ha & Hb).
    exists (String c' a), b. simpl. rewrite Hc, Ha. repeat split. exact Hb.
Qed.

(** The test of the source, lowercase then [includes], is occurrence
    whatever the case. *)
Lemma includes_toLowerCase (s sub : string) :
  includes (toLowerCase s) sub = true <-> occursIgnoringCase s sub.
Proof.
  rewrite includes_spec. unfold occursIgnoringCase. split.
  - intros (pre' & post' & H).
    apply toLowerCase_app_inv in H as (pre & rest & -> & _ & H).
    apply toLowerCase_app_inv in H as (mid & post & -> & Hmid & _).
    exists pre, mid, post. split; [reflexivity | exact Hmid].
  - intros (pre & mid & post & -> & <-).
    exists (toLowerCase pre), (toLowerCase post).
    rewrite !toLowerCase_app. reflexivity.
Qed.

Lemma isEventTool_spec (tool : Tool) :
  Polymarket.isEventTool tool = true <-> nameMatches tool.
Proof.
  unfold Polymarket.isEventTool, nameMatches.
  destruct (tool_name tool) as [name |].
  - rewrite orb_true_iff, !includes_toLowerCase. split.
    + intros H. exists name. split; [reflexivity | exact H].
    + intros (name' & [= <-] & H). exact H.
  - split; [discriminate | intros (name' & [=] & _)].
Qed.

(** [find] returns the first element in list order that passes the test. *)
Lemma find_first {A} (f : A -> bool) (l pre post : list A) (x : A) :
  l = (pre ++ x :: post)%list -> Forall (fun y => f y = false) pre -> f x = true ->
  List.find f l = Some x.
Proof.
  intros -> Hpre Hx. induction Hpre as [| y pre Hy _ IH]; simpl.
  - rewrite Hx. reflexivity.
  - rewrite Hy. exact IH.
Qed.

Lemma find_nothing {A} (f : A -> bool) (l : list A) :
  Forall (fun y => f y = false) l -> List.find f l = None.
Proof.
  induction 1 as [| y l Hy _ IH]; simpl; [reflexivity |]. rewrite Hy. exact IH.
Qed.

Lemma not_nameMatches (tools : list Tool) :
  Forall (fun tool => ~ nameMatches tool) tools ->
  Forall (fun tool => Polymarket.isEventTool tool = false) tools.
Proof.
  apply List.Forall_impl. intros tool H.
  destruct (Polymarket.isEventTool tool) eqn:E; [| reflexivity].
  apply isEventTool_spec in E. contradiction.
Qed.

(** The market query is its first three steps followed by the choice of a
    tool. *)
Lemma eventsSteps_prelude (w : World) (message : Memory) (state : option State) :
  Polymarket.eventsSteps w message state
  = match eventsPrelude w message state with
    | (t, Ret (client, currentState, params)) =>
        match List.find Polymarket.isEventTool (Polymarket.tools client) with
        | Some eventTool =>
            ((t ++ trace (eventsWith w currentState params eventTool))%list,
             outcome (eventsWith w currentState params eventTool))
        | None => (t, Throw (ErrorObj "Events tool not found"))
        end
    | (t, Throw e) => (t, Throw e)
    end.
Proof.
  unfold Polymarket.eventsSteps, eventsPrelude.
  destruct (Polymarket.getPolymarketClient w) as [t0 [client | e]]; [| reflexivity].
  rewrite !bind_Ret.
  destruct (currentStateOf w message state) as [t1 [currentState | e]];
    [| reflexivity].
  rewrite !bind_Ret. cbv zeta. unfold call.
  destruct (generateObject_events w _) as [params | e]; [| reflexivity].
  rewrite !bind_Ret. unfold trace, outcome. cbn [fst snd mret Eff_ret].
  rewrite !app_nil_r.
  destruct (List.find Polymarket.isEventTool (Polymarket.tools client)) as [tool |].
  - fold (eventsWith w currentState params tool).
    destruct (eventsWith w currentState params tool) as [t2 r]. cbn [fst snd].
    rewrite <- !app_assoc. reflexivity.
  - cbn [fst snd throw]. rewrite !app_nil_r. reflexivity.
Qed.

(** C8: once the market query has the tool list, the tool it runs is the
    first one in list order in whose name event or market occurs, whatever
    the case of the letters;
    when no tool of the list has such a name the query throws an error
    whose message, Events tool not found, contains tool not found, and the
    handler reports it to the callback and returns false. *)
Theorem events_tool_selection (w : World) (message : Memory) (state : option State)
  (t : list Call) (client : Polymarket.PolymarketClient) (currentState : State)
  (params : JsValue) :
  eventsPrelude w message state = (t, Ret (client, currentState, params)) ->
  (forall pre tool post,
     Polymarket.tools client = (pre ++ tool :: post)%list ->
     Forall (fun other => ~ nameMatches other) pre ->
     nameMatches tool ->
     Polymarket.eventsSteps w message state
     = ((t ++ trace (eventsWith w currentState params tool))%list,
        outcome (eventsWith w currentState params tool)))
  /\ (Forall (fun other => ~ nameMatches other) (Polymarket.tools client) ->
      exists errorMessage,
        Polymarket.eventsSteps w message state = (t, Throw (ErrorObj errorMessage))
        /\ includes errorMessage "tool not found" = true
        /\ forall callback : HandlerCallback,
             let run := handler Polymarket.getPolymarketEventsAction w message state
                          (Some callback) in
             let reply := errorReply "Error executing GET_POLYMARKET_EVENTS: "
                            errorMessage in
             invocations (trace run) = [reply]
             /\ (callback reply = None -> outcome run = Ret false)).
Proof.
  intros Hprelude. split.
  - intros pre tool post Htools Hpre Htool.
    rewrite eventsSteps_prelude, Hprelude.
    rewrite (find_first _ _ pre post tool Htools (not_nameMatches _ Hpre)
               (proj2 (isEventTool_spec tool) Htool)).
    reflexivity.
  - intros Hnone. exists "Events tool not found".
    assert (Hsteps : Polymarket.eventsSteps w message state
                     = (t, Throw (ErrorObj "Events tool not found"))).
    { rewrite eventsSteps_prelude, Hprelude.
      rewrite (find_nothing _ _ (not_nameMatches _ Hnone)). reflexivity. }
    split; [exact Hsteps |]. split; [reflexivity |].
    intros callback run reply. subst run.
    change Polymarket.getPolymarketEventsAction with (actionOf GET_POLYMARKET_EVENTS).
    rewrite handler_try_catch. unfold tryBlockOf.
    rewrite tryBlock_run, Hsteps, tryCatch_Throw.
    destruct (catchBlock_run GET_POLYMARKET_EVENTS (Some callback)
                (ErrorObj "Events tool not found")) as [logged ->].
    cbn [errorPrefix errorMessageOf]. fold reply. unfold trace, outcome. cbn [fst snd].
    split.
    + rewrite !invocations_app, !invocations_External. reflexivity.
    + intros ->. reflexivity.
Qed.

Lemma events_tool_selection_witness :
  let w := Samples.answering Samples.polymarketEnv in
  exists tool,
    tool_name tool = Some "Get_Polymarket_EVENTS"
    /\ outcome (Polymarket.eventsSteps w JNull None)
       = outcome (eventsWith w JNull (JObj [("limit", JNum 10)]) tool).
Proof.
  eexists. split; [| refine (f_equal snd (proj1 (events_tool_selection
      (Samples.answering Samples.polymarketEnv) JNull None _ _ _ _ eq_refl)
      [ {| tool_name := Some "create_order";
           tool_execute := Some (fun _ => Ret (Some (JStr "order")));
           tool_call := None |} ]
      _ _ eq_refl _ _)) ].
  - reflexivity.
  - repeat constructor. rewrite <- isEventTool_spec. discriminate.
  - apply isEventTool_spec. reflexivity.
Defined.

(** ** Serialization of results *)

(** Induction on values, through the lists of arrays and objects. *)
Lemma JsValue_nested_ind (P : JsValue -> Prop) :
  P JNull ->
  (forall b, P (JBool b)) ->
  (forall n, P (JNum n)) ->
  (forall n, P (JBigInt n)) ->
  (forall s, P (JStr s)) ->
  (forall items, Forall P items -> P (JArr items)) ->
  (forall fields, Forall (fun kv => P (snd kv)) fields -> P (JObj fields)) ->
  forall v, P v.
Proof.
  intros Hnull Hbool Hnum Hbig Hstr Harr Hobj.
  fix IH 1. intros [| b | n | n | s | items | fields].
  - exact Hnull.
  - apply Hbool.
  - apply Hnum.
  - apply Hbig.
  - apply Hstr.
  - apply Harr. induction items as [| x items IHitems]; constructor;
      [apply IH | exact IHitems].
  - apply Hobj. induction fields as [| [k x] fields IHfields]; constructor;
      [apply IH | exact IHfields].
Qed.

(** The decimal text of a bigint reads back as the same integer. *)
Lemma bigint_text_exact (n : Z) : parseBigInt (bigintToString n) = Some n.
Proof.
  unfold parseBigInt, bigintToString.
  rewrite NilZero.isi.
  - rewrite DecimalZ.of_to. reflexivity.
  - destruct n as [| p | p]; simpl; try discriminate.
    intros [= H]. revert H. apply DecimalPos.Unsigned.to_uint_nonnil.
  - destruct n as [| p | p]; simpl; try discriminate.
    intros [= H]. revert H. apply DecimalPos.Unsigned.to_uint_nonnil.
Qed.

(** With the replacer of [safeStringify], serialization returns a string
    for every value, at every indentation. *)
Lemma serialize_with_replacer (toString : Z -> string) (gap : string) (v : JsValue) :
  forall indent, exists s, serializeJSONProperty (Some toString) gap indent v = Ret s.
Proof.
  induction v as [| b | n | n | s | items IH | fields IH] using JsValue_nested_ind;
    intros indent; simpl; eauto.
  - destruct b; eauto.
  - assert (H : exists ss,
               (fix elements (l : list JsValue) : Outcome (list string) :=
                  match l with
                  | [] => Ret []
                  | x :: l' =>
                      match serializeJSONProperty (Some toString) gap (indent ++ gap) x with
                      | Ret s =>
                          match elements l' with
                          | Ret ss => Ret (s :: ss)
                          | Throw e => Throw e
                          end
                      | Throw e => Throw e
                      end
                  end) items = Ret ss).
    { induction IH as [| x items Hx _ IHitems]; [eauto |].
      destruct (Hx (indent ++ gap)) as [s ->]. destruct IHitems as [ss ->]. eauto. }
    destruct H as [ss ->]. eauto.
  - assert (H : exists ss,
               (fix members (l : list (string * JsValue)) : Outcome (list string) :=
                  match l with
                  | [] => Ret []
                  | (k, x) :: l' =>
                      match serializeJSONProperty (Some toString) gap (indent ++ gap) x with
                      | Ret s =>
                          match members l' with
                          | Ret ss =>
                              Ret ((quoteJSONString k ++ ":"
                                    ++ (if isEmpty gap then "" else " ") ++ s) :: ss)
                          | Throw e => Throw e
                          end
                      | Throw e => Throw e
                      end
                  end) fields = Ret ss).
    { induction IH as [| [k x] fields Hx _ IHfields]; [eauto |].
      destruct (Hx (indent ++ gap)) as [s Hs]. cbn [snd] in Hs. rewrite Hs.
      destruct IHfields as [ss ->]. eauto. }
    destruct H as [ss ->]. eauto.
Qed.

(** [safeStringify] never throws. *)
Lemma safeStringify_total (value : JsValue) : exists s, safeStringify value = Ret s.
Proof. apply serialize_with_replacer. Qed.

(** Without a replacer, serialization throws the TypeError on a value that
    holds a bigint and returns a string on any other. *)
Lemma serialize_without_replacer (gap : string) (v : JsValue) :
  forall indent,
    if hasBigInt v
    then serializeJSONProperty None gap indent v
         = Throw (ErrorObj "Do not know how to serialize a BigInt")
    else exists s, serializeJSONProperty None gap indent v = Ret s.
Proof.
  induction v as [| b | n | n | s | items IH | fields IH] using JsValue_nested_ind;
    intros indent; simpl; eauto.
  - destruct b; eauto.
  - assert (H : if existsb hasBigInt items
                then (fix elements (l : list JsValue) : Outcome (list string) :=
                        match l with
                        | [] => Ret []
                        | x :: l' =>
                            match serializeJSONProperty None gap (indent ++ gap) x with
                            | Ret s =>
                                match elements l' with
                                | Ret ss => Ret (s :: ss)
                                | Throw e => Throw e
                                end
                            | Throw e => Throw e
                            end
                        end) items
                     = Throw (ErrorObj "Do not know how to serialize a BigInt")
                else exists ss,
                  (fix elements (l : list JsValue) : Outcome (list string) :=
                        match l with
                        | [] => Ret []
                        | x :: l' =>
                            match serializeJSONProperty None gap (indent ++ gap) x with
                            | Ret s =>
                                match elements l' with
                                | Ret ss => Ret (s :: ss)
                                | Throw e => Throw e
                                end
                            | Throw e => Throw e
                            end
                        end) items = Ret ss).
    { induction IH as [| x items Hx _ IHitems]; [simpl; eauto |].
      specialize (Hx (indent ++ gap)). simpl.
      destruct (hasBigInt x); simpl.
      - rewrite Hx. reflexivity.
      - destruct Hx as [s ->]. destruct (existsb hasBigInt items).
        + rewrite IHitems. reflexivity.
        + destruct IHitems as [ss ->]. eauto. }
    destruct (existsb hasBigInt items); [rewrite H; reflexivity |].
    destruct H as [ss ->]. eauto.
  - assert (H : if existsb (fun kv => hasBigInt (snd kv)) fields
                then (fix members (l : list (string * JsValue)) : Outcome (list string) :=
                        match l with
                        | [] => Ret []
                        | (k, x) :: l' =>
                            match serializeJSONProperty None gap (indent ++ gap) x with
                            | Ret s =>
                                match members l' with
                                | Ret ss =>
                                    Ret ((quoteJSONString k ++ ":"
                                          ++ (if isEmpty gap then "" else " ") ++ s) :: ss)
                                | Throw e => Throw e
                                end
                            | Throw e => Throw e
                            end
                        end) fields
                     = Throw (ErrorObj "Do not know how to serialize a BigInt")
                else exists ss,
                  (fix members (l : list (string * JsValue)) : Outcome (list string) :=
                        match l with
                        | [] => Ret []
                        | (k, x) :: l' =>
                            match serializeJSONProperty None gap (indent ++ gap) x with
                            | Ret s =>
                                match members l' with
                                | Ret ss =>
                                    Ret ((quoteJSONString k ++ ":"
                                          ++ (if isEmpty gap then "" else " ") ++ s) :: ss)
                                | Throw e => Throw e
                                end
                            | Throw e => Throw e
                            end
                        end) fields = Ret ss).
    { induction IH as [| [k x] fields Hx _ IHfields]; [simpl; eauto |].
      specialize (Hx (indent ++ gap)). cbn [snd] in Hx. simpl.
      destruct (hasBigInt x); simpl.
      - rewrite Hx. reflexivity.
      - destruct Hx as [s ->].
        destruct (existsb (fun kv => hasBigInt (snd kv)) fields).
        + rewrite IHfields. reflexivity.
        + destruct IHfields as [ss ->]. eauto. }
    destruct (existsb (fun kv => hasBigInt (snd kv)) fields); [rewrite H; reflexivity |].
    destruct H as [ss ->]. eauto.
Qed.

(** The response generation of the market query throws, before it calls
    the text generator, on every result that holds a bigint. *)
Lemma polymarket_generateResponse_bigint (w : World) (state : State)
  (actionName successMessage : string) (result : JsValue) :
  hasBigInt result = true ->
  Polymarket.generateResponse w state actionName (Some result) successMessage
  = ([], Throw (ErrorObj "Do not know how to serialize a BigInt")).
Proof.
  intros Hbig. unfold Polymarket.generateResponse, JSON_stringify.
  pose proof (serialize_without_replacer
                (String.concat "" (repeat " " 2)) result "") as H.
  rewrite Hbig in H. rewrite H. reflexivity.
Qed.

(** C5 does not hold of the market query: its result, here an object with
    a bigint field, goes through [JSON.stringify] without a replacer, which
    throws; the handler reports Do not know how to serialize a BigInt and
    returns false.  [safeStringify] of the Zora handlers turns the same
    value into text, the bigint in full. *)
Theorem polymarket_result_with_bigint_not_serialized :
  let w := Samples.answering Samples.polymarketEnv in
  let result := JObj [("volume", JBigInt 12345678901234567890)] in
  let run := handler Polymarket.getPolymarketEventsAction w JNull None
               (Some Samples.accepting) in
  JSON_stringify None 2 result
  = Throw (ErrorObj "Do not know how to serialize a BigInt")
  /\ safeStringify result
     = Ret ("{" ++ dquote ++ "volume" ++ dquote ++ ":"
            ++ dquote ++ "12345678901234567890" ++ dquote ++ "}")
  /\ In (External (call_toolExecute (Some "Get_Polymarket_EVENTS")
                     (JObj [("limit", JNum 10)])))
        (trace run)
  /\ invocations (trace run)
     = [errorReply "Error executing GET_POLYMARKET_EVENTS: "
          "Do not know how to serialize a BigInt"]
  /\ outcome run = Ret false.
Proof.
  cbv zeta. repeat split; try (vm_compute; reflexivity).
  vm_compute. do 6 right. left. reflexivity.
Qed.

(** * Further properties of the code *)

(** ** [safeStringify] *)

Lemma hasBigInt_bigintsAsText (v : JsValue) : hasBigInt (bigintsAsText v) = false.
Proof.
  induction v as [| b | n | n | s | items IH | fields IH] using JsValue_nested_ind;
    simpl; try reflexivity.
  - induction IH as [| x items Hx _ IHitems]; simpl; [reflexivity |].
    rewrite Hx. exact IHitems.
  - induction IH as [| [k x] fields Hx _ IHfields]; simpl; [reflexivity |].
    cbn [snd] in Hx. rewrite Hx. exact IHfields.
Qed.

(** The lists inside two serializations are compared first. *)
Ltac inside_match :=
  match goal with
  | |- match ?a with _ => _ end = match ?b with _ => _ end =>
      let H := fresh "Hinside" in
      assert (H : a = b); [| rewrite H; reflexivity]
  end.

(** Serializing with the replacer is serializing, without one, the value in
    which the replacer has been applied to every bigint. *)
Lemma serialize_replacer_bigintsAsText (gap : string) (v : JsValue) :
  forall indent,
    serializeJSONProperty (Some bigintToString) gap indent v
    = serializeJSONProperty None gap indent (bigintsAsText v).
Proof.
  induction v as [| b | n | n | s | items IH | fields IH] using JsValue_nested_ind;
    intros indent; simpl; try reflexivity.
  - inside_match.
    induction IH as [| x items Hx _ IHitems]; simpl; [reflexivity |].
    rewrite (Hx (indent ++ gap)).
    destruct (serializeJSONProperty None gap (indent ++ gap) (bigintsAsText x));
      [| reflexivity].
    rewrite IHitems. reflexivity.
  - inside_match.
    induction IH as [| [k x] fields Hx _ IHfields]; simpl; [reflexivity |].
    cbn [snd] in Hx. rewrite (Hx (indent ++ gap)).
    destruct (serializeJSONProperty None gap (indent ++ gap) (bigintsAsText x));
      [| reflexivity].
    rewrite IHfields. reflexivity.
Qed.

(** X1: [safeStringify] never throws.  Its text is that of plain
    [JSON.stringify] on the value in which every bigint is replaced by the
    string of its decimal digits, digits that read back as the same
    integer; so it agrees with plain [JSON.stringify] on a value without
    bigints, and gives a bigint and the string of its digits the same
    text. *)
Theorem safeStringify_replaces_bigints (value : JsValue) :
  safeStringify value = JSON_stringify None 0 (bigintsAsText value)
  /\ (exists text, safeStringify value = Ret text)
  /\ (hasBigInt value = false -> safeStringify value = JSON_stringify None 0 value)
  /\ (forall n, parseBigInt (bigintToString n) = Some n
                /\ safeStringify (JBigInt n) = safeStringify (JStr (bigintToString n))).
Proof.
  assert (Heq : safeStringify value = JSON_stringify None 0 (bigintsAsText value)).
  { apply serialize_replacer_bigintsAsText. }
  split; [exact Heq |]. split; [| split].
  - rewrite Heq. unfold JSON_stringify.
    pose proof (serialize_without_replacer (String.concat "" (repeat " " 0))
                  (bigintsAsText value) "") as H.
    rewrite hasBigInt_bigintsAsText in H. exact H.
  - intros Hplain. rewrite Heq. f_equal.
    clear Heq. induction value as [| b | n | n | s | items IH | fields IH]
      using JsValue_nested_ind; simpl in *; try reflexivity; try discriminate.
    + f_equal. induction IH as [| x items Hx _ IHitems]; simpl in *; [reflexivity |].
      apply orb_false_iff in Hplain as [Hx' Hitems].
      rewrite (Hx Hx'), (IHitems Hitems). reflexivity.
    + f_equal. induction IH as [| [k x] fields Hx _ IHfields]; simpl in *;
        [reflexivity |].
      apply orb_false_iff in Hplain as [Hx' Hfields].
      rewrite (Hx Hx'), (IHfields Hfields). reflexivity.
  - intros n. split; [apply bigint_text_exact | reflexivity].
Qed.

(** ** Client bootstrap *)

Lemma startsWith_app (p s : string) : startsWith (p ++ s) p = true.
Proof. unfold startsWith. apply prefix_spec. exists s. reflexivity. Qed.

(** The run of the Polymarket bootstrap once its five variables are there:
    three constructions in order, the first failure logged and wrapped. *)
Lemma getPolymarketClient_run (w : World) (apiKey secret passphrase key url : string) :
  truthyString (env w !! "POLYMARKET_API_KEY") = Some apiKey ->
  truthyString (env w !! "POLYMARKET_SECRET") = Some secret ->
  truthyString (env w !! "POLYMARKET_PASSPHRASE") = Some passphrase ->
  truthyString (env w !! "WALLET_PRIVATE_KEY") = Some key ->
  truthyString (env w !! "RPC_PROVIDER_URL") = Some url ->
  let wrap cause :=
    ErrorObj ("Failed to initialize Polymarket client: "
              ++ default "Unknown error" (truthyString (messageProp cause))) in
  let logged cause := console_error "Failed to initialize Polymarket client:" cause in
  Polymarket.getPolymarketClient w
  = match privateKeyToAccount w key with
    | Throw cause => ([call_privateKeyToAccount key; logged cause], Throw (wrap cause))
    | Ret account =>
        let walletClient := {| wc_account := account; wc_chain := polygon;
                               wc_transport := url |} in
        match createWalletClient w account polygon url with
        | Some cause =>
            ([call_privateKeyToAccount key;
              call_createWalletClient account polygon url; logged cause],
             Throw (wrap cause))
        | None =>
            match getOnChainTools w walletClient apiKey secret passphrase with
            | Throw cause =>
                ([call_privateKeyToAccount key;
                  call_createWalletClient account polygon url;
                  call_getOnChainTools walletClient apiKey secret passphrase;
                  logged cause],
                 Throw (wrap cause))
            | Ret tools =>
                ([call_privateKeyToAccount key;
                  call_createWalletClient account polygon url;
                  call_getOnChainTools walletClient apiKey secret passphrase],
                 Ret {| Polymarket.tools := tools;
                        Polymarket.walletClient := walletClient;
                        Polymarket.account := account |})
            end
        end
    end.
Proof.
  intros H1 H2 H3 H4 H5. unfold Polymarket.getPolymarketClient.
  rewrite H1, H2, H3, H4, H5. eff_unfold. cbv zeta.
  destruct (privateKeyToAccount w key) as [account | cause]; [| reflexivity].
  simpl. destruct (createWalletClient w account polygon url); [reflexivity |].
  simpl. destruct (getOnChainTools w _ apiKey secret passphrase); reflexivity.
Qed.

Lemma polymarketConfigured_values (w : World) :
  polymarketConfigured w = true ->
  exists apiKey secret passphrase key url,
    truthyString (env w !! "POLYMARKET_API_KEY") = Some apiKey
    /\ truthyString (env w !! "POLYMARKET_SECRET") = Some secret
    /\ truthyString (env w !! "POLYMARKET_PASSPHRASE") = Some passphrase
    /\ truthyString (env w !! "WALLET_PRIVATE_KEY") = Some key
    /\ truthyString (env w !! "RPC_PROVIDER_URL") = Some url.
Proof.
  unfold polymarketConfigured, truthy.
  case_env w "POLYMARKET_API_KEY"; [| discriminate].
  case_env w "POLYMARKET_SECRET"; [| discriminate].
  case_env w "POLYMARKET_PASSPHRASE"; [| discriminate].
  case_env w "WALLET_PRIVATE_KEY"; [| discriminate].
  case_env w "RPC_PROVIDER_URL"; [| discriminate].
  intros _. eauto 10.
Qed.

(** X2: a Polymarket bundle, when the bootstrap returns one, is built from
    the environment in three calls: the account is derived from
    [WALLET_PRIVATE_KEY], the wallet client is that account on Polygon over
    [RPC_PROVIDER_URL], and the tools are fetched for that wallet with the
    three API credentials; nothing else is called. *)
Theorem polymarket_bundle_from_environment (w : World) (t : list Call)
  (client : Polymarket.PolymarketClient) :
  Polymarket.getPolymarketClient w = (t, Ret client) ->
  exists apiKey secret passphrase key url,
    env w !! "POLYMARKET_API_KEY" = Some apiKey
    /\ env w !! "POLYMARKET_SECRET" = Some secret
    /\ env w !! "POLYMARKET_PASSPHRASE" = Some passphrase
    /\ env w !! "WALLET_PRIVATE_KEY" = Some key
    /\ env w !! "RPC_PROVIDER_URL" = Some url
    /\ privateKeyToAccount w key = Ret (Polymarket.account client)
    /\ Polymarket.walletClient client
       = {| wc_account := Polymarket.account client; wc_chain := polygon;
            wc_transport := url |}
    /\ getOnChainTools w (Polymarket.walletClient client) apiKey secret passphrase
       = Ret (Polymarket.tools client)
    /\ t = [call_privateKeyToAccount key;
            call_createWalletClient (Polymarket.account client) polygon url;
            call_getOnChainTools (Polymarket.walletClient client)
              apiKey secret passphrase].
Proof.
  intros Hrun.
  destruct (polymarketConfigured w) eqn:Hconf.
  - destruct (polymarketConfigured_values w Hconf)
      as (apiKey & secret & passphrase & key & url & H1 & H2 & H3 & H4 & H5).
    rewrite (getPolymarketClient_run w _ _ _ _ _ H1 H2 H3 H4 H5) in Hrun.
    cbv zeta in Hrun.
    apply truthyString_Some in H1 as [H1 _]. apply truthyString_Some in H2 as [H2 _].
    apply truthyString_Some in H3 as [H3 _]. apply truthyString_Some in H4 as [H4 _].
    apply truthyString_Some in H5 as [H5 _].
    exists apiKey, secret, passphrase, key, url.
    destruct (privateKeyToAccount w key) as [account | cause] eqn:Hacc;
      [| discriminate].
    destruct (createWalletClient w account polygon url); [discriminate |].
    destruct (getOnChainTools w _ apiKey secret passphrase) as [tools | cause] eqn:Htools;
      [| discriminate].
    injection Hrun as <- <-. simpl. repeat split; assumption.
  - exfalso. revert Hrun Hconf.
    unfold polymarketConfigured, truthy, Polymarket.getPolymarketClient.
    case_env w "POLYMARKET_API_KEY"; case_env w "POLYMARKET_SECRET";
      case_env w "POLYMARKET_PASSPHRASE"; try discriminate.
    case_env w "WALLET_PRIVATE_KEY"; case_env w "RPC_PROVIDER_URL"; discriminate.
Qed.

Lemma polymarket_bundle_from_environment_witness :
  exists client,
    outcome (Polymarket.getPolymarketClient (Samples.answering Samples.polymarketEnv))
    = Ret client
    /\ Polymarket.walletClient client
       = {| wc_account := {| address := "0xA11CE" |}; wc_chain := polygon;
            wc_transport := "https://polygon-rpc.com" |}.
Proof.
  eexists. split; [reflexivity |].
  destruct (polymarket_bundle_from_environment
              (Samples.answering Samples.polymarketEnv) _ _ eq_refl)
    as (apiKey & secret & passphrase & key & url & _ & _ & _ & _ & Hurl & _ & Hwallet & _).
  reflexivity.
Defined.

(** X3: whatever the Polymarket bootstrap throws is an [Error] with a
    message that is not empty.  With a variable missing it throws before
    any call.  When the five variables are present, it throws because one
    of the three constructions threw: the derivation of the account, or,
    the account derived, the construction of the wallet client, or, the
    wallet client built, the fetching of the tools.  The calls made are
    then those up to the failed construction and no later one, followed by
    one console line that carries the cause, and what is thrown is the
    cause behind the prefix Failed to initialize Polymarket client, with
    Unknown error for a cause that has no message. *)
Theorem polymarket_bootstrap_failure_is_wrapped (w : World) (t : list Call)
  (error : Thrown) :
  Polymarket.getPolymarketClient w = (t, Throw error) ->
  exists message,
    error = ErrorObj message /\ message <> ""
    /\ (polymarketConfigured w = false -> t = [])
    /\ (polymarketConfigured w = true ->
        exists cause calls,
          message = "Failed to initialize Polymarket client: "
                    ++ default "Unknown error" (truthyString (messageProp cause))
          /\ t = (calls ++ [console_error "Failed to initialize Polymarket client:" cause])%list
          /\ effective calls = calls /\ length calls <= 3
          /\ (messageProp cause = None \/ messageProp cause = Some "" ->
              message = "Failed to initialize Polymarket client: Unknown error")
          /\ exists apiKey secret passphrase key url,
               env w !! "POLYMARKET_API_KEY" = Some apiKey
               /\ env w !! "POLYMARKET_SECRET" = Some secret
               /\ env w !! "POLYMARKET_PASSPHRASE" = Some passphrase
               /\ env w !! "WALLET_PRIVATE_KEY" = Some key
               /\ env w !! "RPC_PROVIDER_URL" = Some url
               /\ ((privateKeyToAccount w key = Throw cause
                    /\ calls = [call_privateKeyToAccount key])
                   \/ (exists account,
                         privateKeyToAccount w key = Ret account
                         /\ createWalletClient w account polygon url = Some cause
                         /\ calls = [call_privateKeyToAccount key;
                                     call_createWalletClient account polygon url])
                   \/ (exists account,
                         let wallet := {| wc_account := account; wc_chain := polygon;
                                          wc_transport := url |} in
                         privateKeyToAccount w key = Ret account
                         /\ createWalletClient w account polygon url = None
                         /\ getOnChainTools w wallet apiKey secret passphrase
                            = Throw cause
                         /\ calls = [call_privateKeyToAccount key;
                                     call_createWalletClient account polygon url;
                                     call_getOnChainTools wallet apiKey secret
                                       passphrase]))).
Proof.
  intros Hrun.
  destruct (polymarketConfigured w) eqn:Hconf.
  - destruct (polymarketConfigured_values w Hconf)
      as (apiKey & secret & passphrase & key & url & H1 & H2 & H3 & H4 & H5).
    rewrite (getPolymarketClient_run w _ _ _ _ _ H1 H2 H3 H4 H5) in Hrun.
    cbv zeta in Hrun.
    apply truthyString_Some in H1 as [H1 _]. apply truthyString_Some in H2 as [H2 _].
    apply truthyString_Some in H3 as [H3 _]. apply truthyString_Some in H4 as [H4 _].
    apply truthyString_Some in H5 as [H5 _].
    assert (Hwrapped : forall cause calls,
               t = (calls ++ [console_error "Failed to initialize Polymarket client:" cause])%list ->
               error = ErrorObj ("Failed to initialize Polymarket client: "
                         ++ default "Unknown error" (truthyString (messageProp cause))) ->
               exists message,
                 error = ErrorObj message /\ message <> ""
                 /\ (true = false -> t = [])
                 /\ (true = true ->
                     exists cause' calls',
                       cause' = cause /\ calls' = calls
                       /\ message = "Failed to initialize Polymarket client: "
                                    ++ default "Unknown error"
                                         (truthyString (messageProp cause))
                       /\ (messageProp cause = None \/ messageProp cause = Some "" ->
                           message = "Failed to initialize Polymarket client: Unknown error"))).
    { intros cause calls Ht He. eexists. split; [exact He |].
      split; [discriminate |]. split; [discriminate |]. intros _.
      exists cause, calls. repeat split.
      intros [-> | ->]; reflexivity. }
    assert (Hgoal : forall cause calls,
               t = (calls ++ [console_error "Failed to initialize Polymarket client:" cause])%list ->
               error = ErrorObj ("Failed to initialize Polymarket client: "
                         ++ default "Unknown error" (truthyString (messageProp cause))) ->
               effective calls = calls -> length calls <= 3 ->
               ((privateKeyToAccount w key = Throw cause
                 /\ calls = [call_privateKeyToAccount key])
                \/ (exists account,
                      privateKeyToAccount w key = Ret account
                      /\ createWalletClient w account polygon url = Some cause
                      /\ calls = [call_privateKeyToAccount key;
                                  call_createWalletClient account polygon url])
                \/ (exists account,
                      let wallet := {| wc_account := account; wc_chain := polygon;
                                       wc_transport := url |} in
                      privateKeyToAccount w key = Ret account
                      /\ createWalletClient w account polygon url = None
                      /\ getOnChainTools w wallet apiKey secret passphrase
                         = Throw cause
                      /\ calls = [call_privateKeyToAccount key;
                                  call_createWalletClient account polygon url;
                                  call_getOnChainTools wallet apiKey secret
                                    passphrase])) ->
               exists message,
                 error = ErrorObj message /\ message <> ""
                 /\ (true = false -> t = [])
                 /\ (true = true ->
                     exists cause calls,
                       message = "Failed to initialize Polymarket client: "
                                 ++ default "Unknown error" (truthyString (messageProp cause))
                       /\ t = (calls ++ [console_error "Failed to initialize Polymarket client:" cause])%list
                       /\ effective calls = calls /\ length calls <= 3
                       /\ (messageProp cause = None \/ messageProp cause = Some "" ->
                           message = "Failed to initialize Polymarket client: Unknown error")
                       /\ exists apiKey secret passphrase key url,
                            env w !! "POLYMARKET_API_KEY" = Some apiKey
                            /\ env w !! "POLYMARKET_SECRET" = Some secret
                            /\ env w !! "POLYMARKET_PASSPHRASE" = Some passphrase
                            /\ env w !! "WALLET_PRIVATE_KEY" = Some key
                            /\ env w !! "RPC_PROVIDER_URL" = Some url
                            /\ ((privateKeyToAccount w key = Throw cause
                                 /\ calls = [call_privateKeyToAccount key])
                                \/ (exists account,
                                      privateKeyToAccount w key = Ret account
                                      /\ createWalletClient w account polygon url = Some cause
                                      /\ calls = [call_privateKeyToAccount key;
                                                  call_createWalletClient account polygon url])
                                \/ (exists account,
                                      let wallet := {| wc_account := account;
                                                       wc_chain := polygon;
                                                       wc_transport := url |} in
                                      privateKeyToAccount w key = Ret account
                                      /\ createWalletClient w account polygon url = None
                                      /\ getOnChainTools w wallet apiKey secret passphrase
                                         = Throw cause
                                      /\ calls = [call_privateKeyToAccount key;
                                                  call_createWalletClient account polygon url;
                                                  call_getOnChainTools wallet apiKey secret
                                                    passphrase])))).
    { intros cause calls Ht He Heff Hlen Hcase.
      destruct (Hwrapped cause calls Ht He)
        as (message & Herror & Hne & _ & Hrest).
      destruct (Hrest eq_refl) as (cause' & calls' & -> & -> & Hmessage & Hunknown).
      exists message. split; [exact Herror |]. split; [exact Hne |].
      split; [discriminate |]. intros _. exists cause, calls.
      split; [exact Hmessage |]. split; [exact Ht |]. split; [exact Heff |].
      split; [exact Hlen |]. split; [exact Hunknown |].
      exists apiKey, secret, passphrase, key, url.
      repeat (split; [assumption |]). exact Hcase. }
    clear Hwrapped.
    destruct (privateKeyToAccount w key) as [account | cause] eqn:Hkey.
    + destruct (createWalletClient w account polygon url) as [cause |] eqn:Hwallet.
      * injection Hrun as <- <-.
        apply (Hgoal cause [call_privateKeyToAccount key;
                            call_createWalletClient account polygon url]);
          [reflexivity | reflexivity | reflexivity | simpl; lia |].
        right. left. exists account. repeat split. exact Hwallet.
      * destruct (getOnChainTools w _ apiKey secret passphrase) as [tools | cause]
          eqn:Htools; [discriminate |].
        injection Hrun as <- <-.
        apply (Hgoal cause
                 [call_privateKeyToAccount key;
                  call_createWalletClient account polygon url;
                  call_getOnChainTools {| wc_account := account; wc_chain := polygon;
                                          wc_transport := url |} apiKey secret passphrase]);
          [reflexivity | reflexivity | reflexivity | simpl; lia |].
        right. right. exists account. cbv zeta. repeat split; assumption.
    + injection Hrun as <- <-.
      apply (Hgoal cause [call_privateKeyToAccount key]);
        [reflexivity | reflexivity | reflexivity | simpl; lia |].
      left. split; reflexivity.
  - revert Hrun Hconf.
    unfold polymarketConfigured, truthy, Polymarket.getPolymarketClient.
    case_env w "POLYMARKET_API_KEY"; case_env w "POLYMARKET_SECRET";
      case_env w "POLYMARKET_PASSPHRASE"; try discriminate;
      try (intros [= <- <-] _; eexists; (split; [reflexivity |]);
           (split; [discriminate |]); (split; [reflexivity | discriminate])).
    case_env w "WALLET_PRIVATE_KEY"; case_env w "RPC_PROVIDER_URL"; try discriminate;
      intros [= <- <-] _; eexists; (split; [reflexivity |]);
      (split; [discriminate |]); (split; [reflexivity | discriminate]).
Qed.

Lemma polymarket_bootstrap_failure_is_wrapped_witness :
  polymarketConfigured Samples.keyRejected = true
  /\ Polymarket.getPolymarketClient Samples.keyRejected
     = ([call_privateKeyToAccount "0x02";
         console_error "Failed to initialize Polymarket client:"
           (NonError "invalid private key")],
        Throw (ErrorObj "Failed to initialize Polymarket client: Unknown error")).
Proof.
  split; [reflexivity |].
  assert (Hrun : exists t error,
             Polymarket.getPolymarketClient Samples.keyRejected = (t, Throw error)).
  { eexists _, _. vm_compute. reflexivity. }
  destruct Hrun as (t & error & Hrun).
  destruct (polymarket_bootstrap_failure_is_wrapped Samples.keyRejected t error Hrun)
    as (message & -> & _ & _ & Hwrap).
  destruct (Hwrap eq_refl) as (cause & calls & _ & _ & _ & _ & _).
  rewrite Hrun. vm_compute in Hrun. exact (eq_sym Hrun).
Defined.

(** X4: a Zora bundle is coherent.  The account is the one derived from
    [ZORA_PRIVATE_KEY]; the wallet client holds that account; both clients
    use [ZORA_RPC_URL] as transport and are bound to the same chain; and
    the bootstrap makes these three constructions, in this order, and no
    other call but the console line of [DEBUG_ZORA]. *)
Theorem zora_bundle_coherent (w : World) (t : list Call) (clients : ZoraClients) :
  getZoraClients w = (t, Ret clients) ->
  exists key url,
    env w !! "ZORA_PRIVATE_KEY" = Some key
    /\ env w !! "ZORA_RPC_URL" = Some url
    /\ privateKeyToAccount w key = Ret (account clients)
    /\ wc_account (walletClient clients) = account clients
    /\ pc_transport (publicClient clients) = url
    /\ wc_transport (walletClient clients) = url
    /\ pc_chain (publicClient clients) = wc_chain (walletClient clients)
    /\ effective t
       = [call_privateKeyToAccount key;
          call_createPublicClient (pc_chain (publicClient clients)) url;
          call_createWalletClient (account clients)
            (pc_chain (publicClient clients)) url]
    /\ length t = (if truthy (env w !! "DEBUG_ZORA") then 4 else 3).
Proof.
  unfold getZoraClients.
  case_env w "ZORA_RPC_URL"; [| discriminate].
  case_env w "ZORA_PRIVATE_KEY"; [| discriminate].
  apply truthyString_Some in Hv as [Hv _]. apply truthyString_Some in Hv0 as [Hv0 _].
  generalize (if isSepoliaEnv (toLowerCase (default "" (truthyString (env w !! "ZORA_CHAIN"))))
                 || isSepoliaRpc (toLowerCase v)
              then baseSepolia else base).
  intros chain H. exists v0, v. split; [exact Hv0 |]. split; [exact Hv |].
  eff_unfold. simpl in H.
  destruct (truthy (env w !! "DEBUG_ZORA")); simpl in H.
  all: destruct (privateKeyToAccount w v0) as [acc | e]; simpl in H; [| discriminate].
  all: destruct (createPublicClient w chain v); simpl in H; [discriminate |].
  all: destruct (createWalletClient w acc chain v); simpl in H; [discriminate |].
  all: injection H as <- <-; repeat split; reflexivity.
Qed.

Lemma zora_bundle_coherent_witness :
  exists clients,
    outcome (getZoraClients (Samples.answering Samples.zoraEnv)) = Ret clients
    /\ wc_account (walletClient clients) = account clients
    /\ pc_chain (publicClient clients) = wc_chain (walletClient clients).
Proof.
  eexists. split; [reflexivity |].
  destruct (zora_bundle_coherent (Samples.answering Samples.zoraEnv) _ _ eq_refl)
    as (key & url & _ & _ & _ & Haccount & _ & _ & Hchain & _).
  split; [exact Haccount | exact Hchain].
Defined.

(** ** Plugin load *)

(** X5: loading a plugin derives no account, builds no client and fetches
    nothing: whatever the environment, [initializeActions] of either plugin
    only writes console lines, at most two, and the clients are left to
    each handler invocation. *)
Theorem plugin_load_only_logs (w : World) :
  effective (trace (ZoraIndex.initializeActions w)) = []
  /\ length (trace (ZoraIndex.initializeActions w)) <= 2
  /\ effective (trace (Polymarket.initializeActions w)) = []
  /\ length (trace (Polymarket.initializeActions w)) <= 1.
Proof.
  unfold ZoraIndex.initializeActions, Polymarket.initializeActions.
  destruct (truthy (env w !! "ZORA_RPC_URL"));
    destruct (truthy (env w !! "ZORA_PRIVATE_KEY"));
    destruct (truthy (env w !! "POLYMARKET_API_KEY"));
    destruct (truthy (env w !! "POLYMARKET_SECRET"));
    destruct (truthy (env w !! "POLYMARKET_PASSPHRASE"));
    destruct (truthy (env w !! "WALLET_PRIVATE_KEY"));
    destruct (truthy (env w !! "RPC_PROVIDER_URL"));
    simpl; repeat split; lia.
Qed.

(** ** The market query *)

(** X6: the response generation of the market query throws, before it
    reaches the text generator, exactly when the result holds a bigint;
    for every other result, and for a result that is [undefined], it makes
    one call, to the text generator, and ends as that call does. *)
Theorem polymarket_generateResponse_outcome (w : World) (state : State)
  (actionName successMessage : string) (result : option JsValue) :
  let run := Polymarket.generateResponse w state actionName result successMessage in
  if match result with Some value => hasBigInt value | None => false end
  then run = ([], Throw (ErrorObj "Do not know how to serialize a BigInt"))
  else exists context,
         run = ([call_generateText context], generateText w context).
Proof.
  cbv zeta. destruct result as [value |].
  - destruct (hasBigInt value) eqn:Hbig.
    + apply polymarket_generateResponse_bigint. exact Hbig.
    + unfold Polymarket.generateResponse, JSON_stringify.
      pose proof (serialize_without_replacer
                    (String.concat "" (repeat " " 2)) value "") as H.
      rewrite Hbig in H. destruct H as [text ->].
      eff_unfold. cbv zeta.
      match goal with |- context [generateText _ ?c] => exists c end.
      destruct (generateText w _); reflexivity.
  - unfold Polymarket.generateResponse. eff_unfold. cbv zeta.
    match goal with |- context [generateText _ ?c] => exists c end.
    destruct (generateText w _); reflexivity.
Qed.

(** X7: which of [execute] and [call] the market query runs, and what it
    returns, case by case.  A truthy result of [execute] is returned and
    [call] is not run; when [execute] throws, the exception propagates and
    [call] is not run; when [execute] resolves to a falsy value ([null],
    [undefined], [false], 0, the empty string), that value is dropped and
    the outcome is that of [call], or [undefined] when there is no [call];
    without [execute] the outcome is that of [call]; a tool with neither
    method yields [undefined] without any call.  So [call] runs only when
    [execute] is missing or has resolved to a falsy value. *)
Theorem runTool_fallback (eventTool : Tool) (params : JsValue) :
  let run := Polymarket.runTool eventTool params in
  let executed := call_toolExecute (tool_name eventTool) params in
  let called := call_toolCall (tool_name eventTool) params in
  (forall execute first,
     tool_execute eventTool = Some execute -> execute params = Ret first ->
     truthyValue first = true ->
     run = ([executed], Ret first))
  /\ (forall execute error,
        tool_execute eventTool = Some execute -> execute params = Throw error ->
        run = ([executed], Throw error))
  /\ (forall execute first call_,
        tool_execute eventTool = Some execute -> execute params = Ret first ->
        truthyValue first = false -> tool_call eventTool = Some call_ ->
        run = ([executed; called], call_ params))
  /\ (forall execute first,
        tool_execute eventTool = Some execute -> execute params = Ret first ->
        truthyValue first = false -> tool_call eventTool = None ->
        run = ([executed], Ret None))
  /\ (forall call_,
        tool_execute eventTool = None -> tool_call eventTool = Some call_ ->
        run = ([called], call_ params))
  /\ (tool_execute eventTool = None -> tool_call eventTool = None ->
      run = ([], Ret None))
  /\ (In called (trace run) ->
      tool_execute eventTool = None
      \/ exists execute first,
           tool_execute eventTool = Some execute /\ execute params = Ret first
           /\ truthyValue first = false)
  /\ (forall result, outcome run = Ret result ->
      (exists execute, tool_execute eventTool = Some execute
                       /\ execute params = Ret result /\ truthyValue result = true)
      \/ (exists call_, tool_call eventTool = Some call_ /\ call_ params = Ret result)
      \/ (tool_call eventTool = None /\ result = None))
  /\ length (trace run) <= 2.
Proof.
  cbv zeta. unfold Polymarket.runTool.
  split; [| split; [| split; [| split; [| split; [| split]]]]].
  - intros execute first -> Hfirst Htruthy.
    eff_unfold. simpl. rewrite Hfirst. simpl. rewrite Htruthy. reflexivity.
  - intros execute error -> Hthrown.
    eff_unfold. simpl. rewrite Hthrown. reflexivity.
  - intros execute first call_ -> Hfirst Htruthy ->.
    eff_unfold. simpl. rewrite Hfirst. simpl. rewrite Htruthy. simpl.
    destruct (call_ params); reflexivity.
  - intros execute first -> Hfirst Htruthy ->.
    eff_unfold. simpl. rewrite Hfirst. simpl. rewrite Htruthy. reflexivity.
  - intros call_ -> ->. eff_unfold. simpl. destruct (call_ params); reflexivity.
  - intros -> ->. reflexivity.
  - eff_unfold. unfold trace, outcome.
    destruct (tool_execute eventTool) as [execute |]; simpl.
    + destruct (execute params) as [first | e] eqn:Hexec; simpl.
      * destruct (truthyValue first) eqn:Htruthy; simpl.
        -- repeat split.
           ++ intros [[=] | []].
           ++ intros result [= <-]. left. eauto.
           ++ lia.
        -- destruct (tool_call eventTool) as [call_ |]; simpl.
           ++ repeat split.
              ** intros _. right. eauto.
              ** intros result Hresult. right. left. exists call_.
                 split; [reflexivity |].
                 destruct (call_ params);
                   [injection Hresult as <-; reflexivity | discriminate].
              ** destruct (call_ params); simpl; lia.
           ++ repeat split.
              ** intros _. right. eauto.
              ** intros result [= <-]. right. right. split; reflexivity.
              ** lia.
      * repeat split.
        -- intros [[=] | []].
        -- discriminate.
        -- lia.
    + destruct (tool_call eventTool) as [call_ |]; simpl.
      * repeat split.
        -- intros _. left. reflexivity.
        -- intros result Hresult. right. left. exists call_. split; [reflexivity |].
           destruct (call_ params);
             [injection Hresult as <-; reflexivity | discriminate].
        -- destruct (call_ params); simpl; lia.
      * repeat split.
        -- intros [].
        -- intros result [= <-]. right. right. split; reflexivity.
        -- lia.
Qed.

(** ** The handlers as a whole *)

(** The [catch] block, with the console line it writes. *)
Lemma catchBlock_logged (h : HandlerId) (callback : option HandlerCallback)
  (error : Thrown) :
  let reply := errorReply (errorPrefix h) (errorMessageOf error) in
  catchBlockOf h callback error
  = match callback with
    | None => (List.map External (loggedBy h error), Ret false)
    | Some cb =>
        ((List.map External (loggedBy h error) ++ [Invoked reply])%list,
         match cb reply with
         | None => Ret false
         | Some thrown => Throw thrown
         end)
    end.
Proof.
  destruct h; unfold catchBlockOf, reportError, Polymarket.handleError, loggedBy.
  all: destruct callback as [cb |]; simpl; [| reflexivity].
  all: eff_unfold; simpl; destruct (cb _); reflexivity.
Qed.

(** The [try] block, from what happens before the callback is invoked. *)
Lemma tryBlockOf_run (h : HandlerId) (w : World) (message : Memory)
  (state : option State) (callback : option HandlerCallback) :
  tryBlockOf h w message state callback
  = match beforeCallback h w message state callback, callback with
    | (t, Throw e), _ => (List.map External t, Throw e)
    | (t, Ret (Some reply)), Some cb =>
        ((List.map External t ++ [Invoked reply])%list,
         match cb reply with
         | None => Ret true
         | Some thrown => Throw thrown
         end)
    | (t, Ret _), _ => (List.map External t, Ret true)
    end.
Proof.
  destruct h; unfold beforeCallback, tryBlockOf, upToCallback; rewrite tryBlock_run.
  - destruct (createCoinSteps getZoraClients w message state) as [t [[r x] | e]];
      [| reflexivity].
    destruct callback as [cb |]; simpl; rewrite ?app_nil_r; [| reflexivity].
    destruct (createCoinReply r x); simpl; rewrite ?app_nil_r; reflexivity.
  - destruct (tradeCoinSteps getZoraClients w message state) as [t [[r x] | e]];
      [| reflexivity].
    destruct callback as [cb |]; simpl; rewrite ?app_nil_r; [| reflexivity].
    destruct (tradeCoinReply r x); simpl; rewrite ?app_nil_r; reflexivity.
  - destruct (Polymarket.eventsSteps w message state) as [t [[r x] | e]];
      [| reflexivity].
    destruct callback as [cb |]; simpl; rewrite ?app_nil_r; reflexivity.
Qed.

Lemma beforeCallback_Some (h : HandlerId) (w : World) (message : Memory)
  (state : option State) (cb : HandlerCallback) (t : list Call) :
  beforeCallback h w message state (Some cb) <> (t, Ret None).
Proof.
  destruct h; unfold beforeCallback, upToCallback.
  - destruct (createCoinSteps getZoraClients w message state) as [t0 [[r x] | e]];
      simpl; [| discriminate].
    destruct (createCoinReply r x); simpl; discriminate.
  - destruct (tradeCoinSteps getZoraClients w message state) as [t0 [[r x] | e]];
      simpl; [| discriminate].
    destruct (tradeCoinReply r x); simpl; discriminate.
  - destruct (Polymarket.eventsSteps w message state) as [t0 [[r x] | e]];
      simpl; discriminate.
Qed.

(** X8: with a callback that never throws, a handler never throws and
    invokes the callback exactly once.  It returns true, after the success
    reply, exactly when nothing has thrown before the callback; otherwise
    it returns false after the error reply, which carries the message of
    the exception. *)
Theorem handler_with_quiet_callback (h : HandlerId) (w : World) (message : Memory)
  (state : option State) (cb : HandlerCallback) :
  (forall reply, cb reply = None) ->
  let run := handler (actionOf h) w message state (Some cb) in
  let before := beforeCallback h w message state (Some cb) in
  exists returned reply,
    outcome run = Ret returned
    /\ invocations (trace run) = [reply]
    /\ (returned = true <-> outcome before = Ret (Some reply))
    /\ (returned = false <->
        exists error, outcome before = Throw error
                      /\ reply = errorReply (errorPrefix h) (errorMessageOf error)).
Proof.
  intros Hquiet run before. subst run before.
  rewrite handler_try_catch, tryBlockOf_run.
  pose proof (beforeCallback_Some h w message state cb) as Hsome.
  destruct (beforeCallback h w message state (Some cb)) as [t [[reply |] | e]].
  - rewrite Hquiet, tryCatch_Ret. exists true, reply.
    unfold trace, outcome. cbn [fst snd].
    rewrite invocations_app, invocations_External. repeat split; try reflexivity.
    + discriminate.
    + intros (error & [=] & _).
  - exfalso. apply (Hsome t). reflexivity.
  - rewrite tryCatch_Throw, catchBlock_logged. cbv zeta. rewrite Hquiet.
    exists false, (errorReply (errorPrefix h) (errorMessageOf e)).
    unfold trace, outcome. cbn [fst snd].
    rewrite !invocations_app, !invocations_External. repeat split; try reflexivity.
    + discriminate.
    + discriminate.
    + intros _. exists e. split; reflexivity.
Qed.

Lemma handler_with_quiet_callback_witness :
  let run := handler (actionOf TRADE_COIN) (Samples.answering Samples.zoraEnv)
               JNull None (Some Samples.accepting) in
  exists returned reply,
    outcome run = Ret returned /\ invocations (trace run) = [reply].
Proof.
  destruct (handler_with_quiet_callback TRADE_COIN (Samples.answering Samples.zoraEnv)
              JNull None Samples.accepting (fun _ => eq_refl))
    as (returned & reply & Hout & Hinv & _).
  exists returned, reply. split; [exact Hout | exact Hinv].
Defined.

(** The steps of a handler stop with the bootstrap when it fails. *)
Lemma bootstrapFails_before (h : HandlerId) (w : World) (message : Memory)
  (state : option State) (callback : option HandlerCallback)
  (t : list Call) (error : Thrown) :
  bootstrapFails h w t error ->
  beforeCallback h w message state callback = (t, Throw error).
Proof.
  destruct h; unfold bootstrapFails, beforeCallback, upToCallback,
    createCoinSteps, tradeCoinSteps, Polymarket.eventsSteps;
    intros ->; reflexivity.
Qed.

(** X9: when the client bootstrap of a handler fails, with a missing
    credential for one, the handler stops there: it makes no call to the
    runtime, the pinning service or an SDK (its external calls are those of
    the bootstrap, and the console line of the Polymarket handler), and
    tells the callback, if there is one, the message of the bootstrap error,
    once.  It then returns false; only when the callback throws on that
    reply does the handler throw, and what it throws is the exception of
    the callback. *)
Theorem handler_stops_at_failed_bootstrap (h : HandlerId) (w : World)
  (message : Memory) (state : option State) (callback : option HandlerCallback)
  (t : list Call) (error : Thrown) :
  bootstrapFails h w t error ->
  let run := handler (actionOf h) w message state callback in
  let reply := errorReply (errorPrefix h) (errorMessageOf error) in
  externals (trace run) = (t ++ loggedBy h error)%list
  /\ invocations (trace run) = match callback with Some _ => [reply] | None => [] end
  /\ outcome run = match callback with
                   | None => Ret false
                   | Some cb =>
                       match cb reply with
                       | None => Ret false
                       | Some thrown => Throw thrown
                       end
                   end.
Proof.
  intros Hfails run reply. subst run.
  rewrite handler_try_catch, tryBlockOf_run,
    (bootstrapFails_before h w message state callback t error Hfails).
  rewrite tryCatch_Throw, catchBlock_logged. cbv zeta. fold reply.
  unfold trace, outcome.
  destruct callback as [cb |]; cbn [fst snd].
  - rewrite !externals_app, !invocations_app, !externals_External,
      !invocations_External.
    repeat split. simpl. rewrite app_nil_r. reflexivity.
  - rewrite externals_app, invocations_app, !externals_External,
      !invocations_External. repeat split.
Qed.

Lemma handler_stops_at_failed_bootstrap_witness :
  let run := handler (actionOf GET_POLYMARKET_EVENTS)
               (Samples.answering Samples.polymarketEnvNoWallet) JNull None
               (Some Samples.accepting) in
  let thrown := handler (actionOf GET_POLYMARKET_EVENTS)
                  (Samples.answering Samples.polymarketEnvNoWallet) JNull None
                  (Some Samples.throwing) in
  externals (trace run)
  = [console_error "Error executing GET_POLYMARKET_EVENTS:"
       (ErrorObj "Missing required wallet configuration. Please set WALLET_PRIVATE_KEY and RPC_PROVIDER_URL environment variables.")]
  /\ outcome run = Ret false
  /\ outcome thrown = Throw (ErrorObj "sink closed").
Proof.
  destruct (handler_stops_at_failed_bootstrap GET_POLYMARKET_EVENTS
              (Samples.answering Samples.polymarketEnvNoWallet) JNull None
              (Some Samples.accepting) _ _ eq_refl) as (Hext & _ & Hout).
  destruct (handler_stops_at_failed_bootstrap GET_POLYMARKET_EVENTS
              (Samples.answering Samples.polymarketEnvNoWallet) JNull None
              (Some Samples.throwing) _ _ eq_refl) as (_ & _ & Hthrown).
  split; [exact Hext |]. split; [exact Hout | exact Hthrown].
Defined.


(** ** The calls of the coin SDK *)

Lemma bind_run {E A B} (m : Eff E A) (k : A -> Eff E B) :
  m ≫= k = match m with
            | (t, Ret a) => ((t ++ trace (k a))%list, outcome (k a))
            | (t, Throw e) => (t, Throw e)
            end.
Proof.
  destruct m as [t [a | e]]; [| reflexivity].
  unfold mbind, Eff_bind, trace, outcome. destruct (k a); reflexivity.
Qed.

Lemma sdkCalls_app (t1 t2 : list Call) :
  sdkCalls (t1 ++ t2) = (sdkCalls t1 ++ sdkCalls t2)%list.
Proof. apply List.filter_app. Qed.

Lemma sdkCalls_none (t : list Call) (c : Call) :
  sdkCalls t = [] -> In c t -> isSdkCall c = false.
Proof.
  intros Hnone Hin. destruct (isSdkCall c) eqn:Hc; [| reflexivity].
  assert (H : In c (sdkCalls t)) by (apply List.filter_In; split; assumption).
  rewrite Hnone in H. destruct H.
Qed.

Lemma getZoraClients_no_sdk (w : World) : sdkCalls (trace (getZoraClients w)) = [].
Proof.
  unfold getZoraClients.
  case_env w "ZORA_RPC_URL"; [| reflexivity].
  case_env w "ZORA_PRIVATE_KEY"; [| reflexivity].
  eff_unfold. unfold trace. simpl.
  repeat case_outcome; reflexivity.
Qed.

Lemma currentStateOf_no_sdk (w : World) (message : Memory) (state : option State) :
  sdkCalls (trace (currentStateOf w message state)) = [].
Proof.
  unfold currentStateOf. eff_unfold. unfold trace.
  destruct state as [[] |]; simpl; repeat case_outcome; reflexivity.
Qed.

Lemma ensureMetadataUri_no_sdk (w : World) (params : MetadataParams) :
  sdkCalls (trace (ensureMetadataUri w params)) = [].
Proof.
  pose proof (ensureMetadataUri_trace w params) as H.
  induction H as [| c t (url & init & ->) _ IH]; [reflexivity | exact IH].
Qed.

(** The wallet client of a bundle holds the account of the bundle. *)
Lemma getZoraClients_account (w : World) (t : list Call) (clients : ZoraClients) :
  getZoraClients w = (t, Ret clients) ->
  wc_account (walletClient clients) = account clients.
Proof.
  unfold getZoraClients.
  case_env w "ZORA_RPC_URL"; [| discriminate].
  case_env w "ZORA_PRIVATE_KEY"; [| discriminate].
  intros H. eff_unfold. simpl in H.
  repeat case_outcome_in H.
  all: injection H as _ <-; reflexivity.
Qed.

(** What resolution returns has one of the three schemes. *)
Lemma ensureMetadataUri_scheme (w : World) (params : MetadataParams) (r : string) :
  outcome (ensureMetadataUri w params) = Ret r -> hasUriScheme r = true.
Proof.
  intros Hr.
  assert (Hpin : noUsableUri (uri params) -> hasUriScheme r = true).
  { intros Huri.
    destruct (ensureMetadataUri_pinned w params r Huri Hr) as [hash ->].
    unfold hasUriScheme. rewrite startsWith_app. reflexivity. }
  destruct (uri params) as [u |] eqn:Hu; [| apply Hpin; exact I].
  destruct (hasUriScheme (trim u)) eqn:Hscheme; [| apply Hpin; exact Hscheme].
  rewrite (ensureMetadataUri_passes w params u Hu Hscheme) in Hr.
  injection Hr as <-. exact Hscheme.
Qed.

Lemma append_assoc (a b c : string) : (a ++ b) ++ c = a ++ b ++ c.
Proof.
  induction a as [| x a IH]; [reflexivity |].
  change (String x ((a ++ b) ++ c) = String x (a ++ b ++ c)).
  rewrite IH. reflexivity.
Qed.

Lemma includes_app_here (sub post : string) : includes (sub ++ post) sub = true.
Proof. apply includes_spec. exists "", post. reflexivity. Qed.

Lemma includes_app_r (p s sub : string) :
  includes s sub = true -> includes (p ++ s) sub = true.
Proof.
  rewrite !includes_spec. intros (pre & post & ->).
  exists (p ++ pre), post. symmetry. apply append_assoc.
Qed.

(** The end of a Zora handler: serialization succeeds, the serialized
    result is part of the template, and the text generator is asked once. *)
Lemma respond_run (w : World) (actionName : string) (currentState : State)
  (result : JsValue) :
  exists serialized template,
    safeStringify result = Ret serialized
    /\ includes template serialized = true
    /\ respond w actionName currentState result
       = ([call_generateText (composeContext w currentState template)],
          match generateText w (composeContext w currentState template) with
          | Ret response => Ret (response, result)
          | Throw e => Throw e
          end).
Proof.
  destruct (safeStringify_total result) as [serialized Hs].
  exists serialized.
  unfold respond, composeResponseContext. rewrite Hs.
  unfold generateResponse, call, eval.
  unfold mbind at 3, Outcome_bind. cbv zeta.
  unfold mret at 2, Outcome_ret.
  unfold mbind at 1, Eff_bind. cbn [app].
  match goal with
  | |- context [generateText w (composeContext w currentState ?c)] => exists c
  end.
  split; [reflexivity |]. split.
  - repeat first [apply includes_app_here | apply includes_app_r].
  - match goal with |- context [generateText w ?c] => destruct (generateText w c) end;
      reflexivity.
Qed.

(** The steps of CREATE_COIN: they stop before the SDK is called, or they
    call it once with the coin built from the extraction, and end as the
    answer of the SDK decides. *)
Lemma createCoinSteps_shape (w : World) (message : Memory) (state : option State) :
  let steps := createCoinSteps getZoraClients w message state in
  (exists pre e, steps = (pre, Throw e) /\ sdkCalls pre = [])
  \/ exists t clients context currentState parameters resolvedUri pre,
       getZoraClients w = (t, Ret clients)
       /\ generateObject_createCoin w context = Ret parameters
       /\ outcome (ensureMetadataUri w
                     {| name := cc_name parameters; symbol := cc_symbol parameters;
                        uri := cc_uri parameters; image := cc_image parameters;
                        description := cc_description parameters |})
          = Ret resolvedUri
       /\ sdkCalls pre = []
       /\ let coinParams :=
            {| cp_name := cc_name parameters;
               cp_symbol := cc_symbol parameters;
               cp_uri := resolvedUri;
               cp_payoutRecipient := cc_payoutRecipient parameters;
               cp_platformReferrer := truthyString (cc_platformReferrer parameters);
               cp_currency := match cc_currency parameters with
                              | Some ZORA => ZORA
                              | _ => ETH
                              end |} in
          let rest :=
            match createCoin w coinParams (walletClient clients)
                    (publicClient clients) 120 with
            | Ret result => respond w "CREATE_COIN" currentState result
            | Throw e => ([], Throw e)
            end in
          steps = ((pre ++ call_createCoin coinParams (walletClient clients)
                            (publicClient clients) 120 :: trace rest)%list,
                   outcome rest).
Proof.
  intros steps.
  assert (Hsteps : steps = createCoinSteps getZoraClients w message state)
    by reflexivity.
  clearbody steps. unfold createCoinSteps in Hsteps.
  pose proof (getZoraClients_no_sdk w) as N1.
  pose proof (currentStateOf_no_sdk w message state) as N2.
  rewrite (bind_run (getZoraClients w)) in Hsteps.
  destruct (getZoraClients w) as [t1 [clients | e1]] eqn:H1;
    unfold trace in N1; cbn [fst] in N1;
    [| left; exists t1, e1; split; assumption].
  rewrite (bind_run (currentStateOf w message state)) in Hsteps.
  destruct (currentStateOf w message state) as [t2 [currentState | e2]];
    unfold trace in N2; cbn [fst] in N2.
  2: { left. exists (t1 ++ t2)%list, e2. split; [exact Hsteps |].
       rewrite sdkCalls_app, N1, N2. reflexivity. }
  unfold trace, outcome in Hsteps. cbn [fst snd] in Hsteps.
  cbv zeta in Hsteps.
  set (context := composeParameterContext w "CREATE_COIN" currentState _) in Hsteps.
  clearbody context.
  rewrite (bind_run (generateParameters w context createCoinSchemaOf)) in Hsteps.
  unfold generateParameters, call in Hsteps.
  cbn [schema_tag schema_answer createCoinSchemaOf] in Hsteps.
  destruct (generateObject_createCoin w context) as [parameters | e3] eqn:H3.
  2: { left. exists (t1 ++ t2 ++ [call_generateObject context createCoinSchema])%list, e3.
       split; [exact Hsteps |]. rewrite !sdkCalls_app, N1, N2. reflexivity. }
  unfold trace, outcome in Hsteps. cbn [fst snd] in Hsteps.
  pose proof (ensureMetadataUri_no_sdk w
                {| name := cc_name parameters; symbol := cc_symbol parameters;
                   uri := cc_uri parameters; image := cc_image parameters;
                   description := cc_description parameters |}) as N4.
  rewrite (bind_run (ensureMetadataUri w _)) in Hsteps.
  destruct (ensureMetadataUri w _) as [t4 [resolvedUri | e4]] eqn:H4;
    unfold trace in N4; cbn [fst] in N4;
    unfold trace, outcome in Hsteps; cbn [fst snd] in Hsteps.
  2: { left.
       exists (t1 ++ t2 ++ [call_generateObject context createCoinSchema] ++ t4)%list, e4.
       split; [exact Hsteps |]. rewrite !sdkCalls_app, N1, N2, N4. reflexivity. }
  right.
  exists t1, clients, context, currentState, parameters, resolvedUri,
    (t1 ++ t2 ++ [call_generateObject context createCoinSchema] ++ t4)%list.
  split; [reflexivity |]. split; [exact H3 |]. split; [rewrite H4; reflexivity |].
  split; [rewrite !sdkCalls_app, N1, N2, N4; reflexivity |].
  cbv zeta. rewrite Hsteps. unfold trace, outcome. cbn [fst snd].
  rewrite <- !app_assoc.
  destruct (createCoin w _ (walletClient clients) (publicClient clients) 120);
    [| reflexivity].
  rewrite bind_run. reflexivity.
Qed.

(** The steps of TRADE_COIN, likewise. *)
Lemma tradeCoinSteps_shape (w : World) (message : Memory) (state : option State) :
  let steps := tradeCoinSteps getZoraClients w message state in
  (exists pre e, steps = (pre, Throw e) /\ sdkCalls pre = [])
  \/ exists t clients context currentState parameters amountIn pre,
       getZoraClients w = (t, Ret clients)
       /\ generateObject_tradeCoin w context = Ret parameters
       /\ parseEther w (tc_amountIn parameters) = Ret amountIn
       /\ sdkCalls pre = []
       /\ let tradeParameters :=
            {| tp_sell_type := "eth"; tp_buy_type := "erc20";
               tp_buy_address := tc_coinAddress parameters;
               tp_amountIn := amountIn;
               tp_slippage := tc_slippage parameters;
               tp_sender := address (account clients) |} in
          let rest :=
            match tradeCoin w tradeParameters (walletClient clients)
                    (account clients) (publicClient clients) with
            | Ret result => respond w "TRADE_COIN" currentState result
            | Throw e => ([], Throw e)
            end in
          steps = ((pre ++ call_tradeCoin tradeParameters (walletClient clients)
                            (account clients) (publicClient clients)
                          :: trace rest)%list,
                   outcome rest).
Proof.
  intros steps.
  assert (Hsteps : steps = tradeCoinSteps getZoraClients w message state)
    by reflexivity.
  clearbody steps. unfold tradeCoinSteps in Hsteps.
  pose proof (getZoraClients_no_sdk w) as N1.
  pose proof (currentStateOf_no_sdk w message state) as N2.
  rewrite (bind_run (getZoraClients w)) in Hsteps.
  destruct (getZoraClients w) as [t1 [clients | e1]] eqn:H1;
    unfold trace in N1; cbn [fst] in N1;
    [| left; exists t1, e1; split; assumption].
  rewrite (bind_run (currentStateOf w message state)) in Hsteps.
  destruct (currentStateOf w message state) as [t2 [currentState | e2]];
    unfold trace in N2; cbn [fst] in N2.
  2: { left. exists (t1 ++ t2)%list, e2. split; [exact Hsteps |].
       rewrite sdkCalls_app, N1, N2. reflexivity. }
  unfold trace, outcome in Hsteps. cbn [fst snd] in Hsteps.
  cbv zeta in Hsteps.
  set (context := composeParameterContext w "TRADE_COIN" currentState _) in Hsteps.
  clearbody context.
  rewrite (bind_run (generateParameters w context tradeCoinSchemaOf)) in Hsteps.
  unfold generateParameters, call in Hsteps.
  cbn [schema_tag schema_answer tradeCoinSchemaOf] in Hsteps.
  destruct (generateObject_tradeCoin w context) as [parameters | e3] eqn:H3.
  2: { left. exists (t1 ++ t2 ++ [call_generateObject context tradeCoinSchema])%list, e3.
       split; [exact Hsteps |]. rewrite !sdkCalls_app, N1, N2. reflexivity. }
  unfold trace, outcome in Hsteps. cbn [fst snd] in Hsteps.
  rewrite (bind_run (eval _)) in Hsteps. unfold eval in Hsteps.
  destruct (parseEther w (tc_amountIn parameters)) as [amountIn | e4] eqn:H4;
    unfold trace, outcome in Hsteps; cbn [fst snd] in Hsteps.
  2: { left.
       exists (t1 ++ t2 ++ [call_generateObject context tradeCoinSchema] ++ [])%list, e4.
       split; [exact Hsteps |]. rewrite !sdkCalls_app, N1, N2. reflexivity. }
  right.
  exists t1, clients, context, currentState, parameters, amountIn,
    (t1 ++ t2 ++ [call_generateObject context tradeCoinSchema])%list.
  split; [reflexivity |]. split; [exact H3 |]. split; [exact H4 |].
  split; [rewrite !sdkCalls_app, N1, N2; reflexivity |].
  cbv zeta. rewrite Hsteps. unfold trace, outcome. cbn [fst snd app].
  rewrite <- !app_assoc.
  destruct (tradeCoin w _ (walletClient clients) (account clients)
              (publicClient clients)); [| reflexivity].
  rewrite bind_run. reflexivity.
Qed.

(** After the call of the SDK the steps only ask the text generator. *)
Lemma respond_no_sdk (w : World) (actionName : string) (currentState : State)
  (answer : Outcome JsValue) :
  sdkCalls (trace match answer with
                  | Ret result => respond w actionName currentState result
                  | Throw e => ([], Throw e)
                  end) = [].
Proof.
  destruct answer as [result | e]; [| reflexivity].
  destruct (respond_run w actionName currentState result)
    as (serialized & template & _ & _ & ->).
  reflexivity.
Qed.

Lemma sdkAnswer_sdk (w : World) (c : Call) (answer : Outcome JsValue) :
  sdkAnswer w c = Some answer -> isSdkCall c = true.
Proof. destruct c; (discriminate || reflexivity). Qed.

(** In a run that calls the SDK once, between calls of other kinds, a call
    of the SDK is that one. *)
Lemma sdk_call_unique (pre rest : list Call) (c0 c : Call) :
  sdkCalls pre = [] -> sdkCalls rest = [] ->
  In c (pre ++ c0 :: rest) -> isSdkCall c = true -> c = c0.
Proof.
  intros Hpre Hrest Hin Hc.
  apply in_app_or in Hin as [Hin | [Heq | Hin]].
  - rewrite (sdkCalls_none pre c Hpre Hin) in Hc. discriminate.
  - symmetry. exact Heq.
  - rewrite (sdkCalls_none rest c Hrest Hin) in Hc. discriminate.
Qed.

Lemma sdkCalls_one (pre rest : list Call) (c0 : Call) :
  sdkCalls pre = [] -> sdkCalls rest = [] -> isSdkCall c0 = true ->
  sdkCalls (pre ++ c0 :: rest) = [c0].
Proof.
  intros Hpre Hrest Hc. rewrite sdkCalls_app, Hpre. unfold sdkCalls in *.
  simpl. rewrite Hc, Hrest. reflexivity.
Qed.

(** The external calls of the TRADE_COIN handler are those of its steps. *)
Lemma tradeCoin_handler_externals (w : World) (message : Memory)
  (state : option State) (callback : option HandlerCallback) :
  externals (trace (handler (actionOf TRADE_COIN) w message state callback))
  = trace (tradeCoinSteps getZoraClients w message state).
Proof.
  rewrite handler_try_catch. unfold tryBlockOf. rewrite tryBlock_run.
  destruct (tradeCoinSteps getZoraClients w message state) as [t [[r x] | e]];
    unfold trace; cbn [fst].
  - destruct callback as [cb |]; [| externals_done].
    destruct (tradeCoinReply r x) as [reply | e].
    + destruct (cb reply) as [thrown |]; [| externals_done].
      rewrite tryCatch_Throw, catchBlock_logged. cbv zeta. cbn [fst].
      externals_done.
    + rewrite tryCatch_Throw, catchBlock_logged. cbv zeta. cbn [fst].
      externals_done.
  - rewrite tryCatch_Throw, catchBlock_logged. cbv zeta.
    destruct callback as [cb |]; cbn [fst]; externals_done.
Qed.

(** X10: every trade the TRADE_COIN handler sends to the coin SDK sells
    ETH for an ERC-20, whatever sell and buy type the object generator
    answered: it buys the coin address extracted, with the amount read by
    [parseEther] and the slippage extracted, and its sender is the address
    of the account held by the wallet client of the bootstrap.  The handler
    makes no other call of the coin SDK. *)
Theorem trade_sells_eth_for_the_coin (w : World) (message : Memory)
  (state : option State) (callback : option HandlerCallback)
  (tradeParameters : TradeParameters) (wallet : WalletClient) (acct : Account)
  (public : PublicClient) :
  let run := handler (actionOf TRADE_COIN) w message state callback in
  In (call_tradeCoin tradeParameters wallet acct public) (externals (trace run)) ->
  tp_sell_type tradeParameters = "eth"
  /\ tp_buy_type tradeParameters = "erc20"
  /\ tp_sender tradeParameters = address (wc_account wallet)
  /\ (exists t, getZoraClients w
                = (t, Ret {| publicClient := public; walletClient := wallet;
                             account := acct |}))
  /\ (exists context parameters,
        generateObject_tradeCoin w context = Ret parameters
        /\ tp_buy_address tradeParameters = tc_coinAddress parameters
        /\ tp_slippage tradeParameters = tc_slippage parameters
        /\ parseEther w (tc_amountIn parameters)
           = Ret (tp_amountIn tradeParameters))
  /\ sdkCalls (externals (trace run))
     = [call_tradeCoin tradeParameters wallet acct public].
Proof.
  intros run Hin. subst run. rewrite tradeCoin_handler_externals in *.
  destruct (tradeCoinSteps_shape w message state)
    as [(pre & e & Hs & Hpre)
       | (t & clients & context & currentState & parameters & amountIn & pre
          & H1 & H2 & H3 & Hpre & Hs)]; cbv zeta in Hs; rewrite Hs in Hin |- *;
    unfold trace in Hin |- *; cbn [fst] in Hin |- *.
  { pose proof (sdkCalls_none pre _ Hpre Hin). discriminate. }
  pose proof (respond_no_sdk w "TRADE_COIN" currentState
                (tradeCoin w
                   {| tp_sell_type := "eth"; tp_buy_type := "erc20";
                      tp_buy_address := tc_coinAddress parameters;
                      tp_amountIn := amountIn;
                      tp_slippage := tc_slippage parameters;
                      tp_sender := address (account clients) |}
                   (walletClient clients) (account clients) (publicClient clients)))
    as Hrest.
  unfold trace in Hrest.
  rewrite (sdkCalls_one pre _ _ Hpre Hrest) by reflexivity.
  apply (sdk_call_unique pre _ _ _ Hpre Hrest) in Hin; [| reflexivity].
  injection Hin as -> -> -> ->.
  pose proof (getZoraClients_account w t clients H1) as Hacct.
  destruct clients as [pc wc ac]. cbn [publicClient walletClient account] in *.
  rewrite Hacct.
  split; [reflexivity |]. split; [reflexivity |]. split; [reflexivity |].
  split; [exists t; exact H1 |].
  split; [| reflexivity].
  exists context, parameters. repeat split; assumption.
Qed.

Lemma trade_sells_eth_for_the_coin_witness :
  exists tradeParameters wallet acct public,
    In (call_tradeCoin tradeParameters wallet acct public)
       (externals (trace (handler (actionOf TRADE_COIN)
                            (Samples.answering Samples.zoraEnv) JNull None None)))
    /\ tp_sell_type tradeParameters = "eth"
    /\ tp_buy_type tradeParameters = "erc20".
Proof.
  set (wallet := {| wc_account := {| address := "0xA11CE" |}; wc_chain := base;
                    wc_transport := "https://mainnet.base.org" |}).
  exists {| tp_sell_type := "eth"; tp_buy_type := "erc20";
            tp_buy_address := "0x4e93a01c90f812284f71291a8d1415a904957156";
            tp_amountIn := 1000000000000000;
            tp_slippage := QArith_base.Qmake 5 100;
            tp_sender := "0xA11CE" |}, wallet, {| address := "0xA11CE" |},
         {| pc_chain := base; pc_transport := "https://mainnet.base.org" |}.
  assert (Hin : In (call_tradeCoin
                      {| tp_sell_type := "eth"; tp_buy_type := "erc20";
                         tp_buy_address := "0x4e93a01c90f812284f71291a8d1415a904957156";
                         tp_amountIn := 1000000000000000;
                         tp_slippage := QArith_base.Qmake 5 100;
                         tp_sender := "0xA11CE" |} wallet {| address := "0xA11CE" |}
                      {| pc_chain := base; pc_transport := "https://mainnet.base.org" |})
                   (externals (trace (handler (actionOf TRADE_COIN)
                      (Samples.answering Samples.zoraEnv) JNull None None)))).
  { vm_compute. do 6 right. left. reflexivity. }
  split; [exact Hin |].
  destruct (trade_sells_eth_for_the_coin _ _ _ _ _ _ _ _ Hin) as (Hs & Hb & _).
  split; [exact Hs | exact Hb].
Defined.

(** X11: every coin the CREATE_COIN handler sends to the coin SDK has the
    name, the symbol and the payout recipient extracted, a uri that metadata
    resolution returned, which starts with one of the three schemes, a
    platform referrer that is never the empty string, and the currency ZORA
    only when ZORA was extracted; it is sent with the two clients of the
    bootstrap and the gas multiplier 120.  The handler makes no other call
    of the coin SDK. *)
Theorem created_coin_follows_extraction (w : World) (message : Memory)
  (state : option State) (callback : option HandlerCallback)
  (coinParams : CoinParams) (wallet : WalletClient) (public : PublicClient)
  (gasMultiplier : Z) :
  let run := handler (actionOf CREATE_COIN) w message state callback in
  In (call_createCoin coinParams wallet public gasMultiplier)
     (externals (trace run)) ->
  gasMultiplier = 120%Z
  /\ hasUriScheme (cp_uri coinParams) = true
  /\ cp_platformReferrer coinParams <> Some ""
  /\ (exists t acct, getZoraClients w
                     = (t, Ret {| publicClient := public; walletClient := wallet;
                                  account := acct |}))
  /\ (exists context parameters,
        generateObject_createCoin w context = Ret parameters
        /\ cp_name coinParams = cc_name parameters
        /\ cp_symbol coinParams = cc_symbol parameters
        /\ cp_payoutRecipient coinParams = cc_payoutRecipient parameters
        /\ (cp_platformReferrer coinParams = None
            \/ cp_platformReferrer coinParams = cc_platformReferrer parameters)
        /\ (cp_currency coinParams = ZORA <-> cc_currency parameters = Some ZORA)
        /\ outcome (ensureMetadataUri w
                      {| name := cc_name parameters; symbol := cc_symbol parameters;
                         uri := cc_uri parameters; image := cc_image parameters;
                         description := cc_description parameters |})
           = Ret (cp_uri coinParams))
  /\ sdkCalls (externals (trace run))
     = [call_createCoin coinParams wallet public gasMultiplier].
Proof.
  intros run Hin. subst run. rewrite createCoin_handler_externals in *.
  destruct (createCoinSteps_shape w message state)
    as [(pre & e & Hs & Hpre)
       | (t & clients & context & currentState & parameters & resolvedUri & pre
          & H1 & H2 & H3 & Hpre & Hs)]; cbv zeta in Hs; rewrite Hs in Hin |- *;
    unfold trace in Hin |- *; cbn [fst] in Hin |- *.
  { pose proof (sdkCalls_none pre _ Hpre Hin). discriminate. }
  pose proof (respond_no_sdk w "CREATE_COIN" currentState
                (createCoin w
                   {| cp_name := cc_name parameters;
                      cp_symbol := cc_symbol parameters;
                      cp_uri := resolvedUri;
                      cp_payoutRecipient := cc_payoutRecipient parameters;
                      cp_platformReferrer := truthyString (cc_platformReferrer parameters);
                      cp_currency := match cc_currency parameters with
                                     | Some ZORA => ZORA
                                     | _ => ETH
                                     end |}
                   (walletClient clients) (publicClient clients) 120))
    as Hrest.
  unfold trace in Hrest.
  rewrite (sdkCalls_one pre _ _ Hpre Hrest) by reflexivity.
  apply (sdk_call_unique pre _ _ _ Hpre Hrest) in Hin; [| reflexivity].
  injection Hin as -> -> -> ->.
  destruct clients as [pc wc ac]. cbn [publicClient walletClient account] in *.
  cbn [cp_name cp_symbol cp_uri cp_payoutRecipient cp_platformReferrer cp_currency].
  split; [reflexivity |].
  split; [exact (ensureMetadataUri_scheme w _ _ H3) |].
  split.
  { destruct (cc_platformReferrer parameters) as [[| a r] |]; simpl; congruence. }
  split; [eauto |].
  split; [| reflexivity].
  exists context, parameters. repeat split; try assumption.
  - destruct (cc_platformReferrer parameters) as [[| a r] |]; simpl; auto.
  - destruct (cc_currency parameters) as [[|] |]; congruence.
  - intros ->. reflexivity.
Qed.

Lemma created_coin_follows_extraction_witness :
  exists coinParams wallet public,
    In (call_createCoin coinParams wallet public 120)
       (externals (trace (handler (actionOf CREATE_COIN) Samples.withWebUri
                            JNull None None)))
    /\ cp_uri coinParams = "https://example.org/coin.json"
    /\ cp_currency coinParams = ZORA
    /\ hasUriScheme (cp_uri coinParams) = true.
Proof.
  set (coin := {| cp_name := "My Awesome Coin"; cp_symbol := "MAC";
                  cp_uri := "https://example.org/coin.json";
                  cp_payoutRecipient := "0xB0B"; cp_platformReferrer := None;
                  cp_currency := ZORA |}).
  set (wallet := {| wc_account := {| address := "0xA11CE" |}; wc_chain := base;
                    wc_transport := "https://mainnet.base.org" |}).
  set (public := {| pc_chain := base; pc_transport := "https://mainnet.base.org" |}).
  exists coin, wallet, public.
  assert (Hin : In (call_createCoin coin wallet public 120)
                   (externals (trace (handler (actionOf CREATE_COIN)
                      Samples.withWebUri JNull None None)))).
  { vm_compute. do 6 right. left. reflexivity. }
  split; [exact Hin |].
  destruct (created_coin_follows_extraction _ _ _ _ _ _ _ _ Hin)
    as (_ & Hscheme & _).
  repeat split; exact Hscheme.
Defined.

(** The steps of a Zora handler, and its external calls. *)
Lemma zora_handler_externals (h : HandlerId) (w : World) (message : Memory)
  (state : option State) (callback : option HandlerCallback) :
  h <> GET_POLYMARKET_EVENTS ->
  externals (trace (handler (actionOf h) w message state callback))
  = trace (beforeCallback h w message state None).
Proof.
  intros Hh. destruct h; [| | contradiction]; unfold beforeCallback, upToCallback.
  - rewrite createCoin_handler_externals, trace_bind.
    destruct (outcome (createCoinSteps getZoraClients w message state));
      rewrite app_nil_r; reflexivity.
  - rewrite tradeCoin_handler_externals, trace_bind.
    destruct (outcome (tradeCoinSteps getZoraClients w message state));
      rewrite app_nil_r; reflexivity.
Qed.

(** X12: the external calls of the two Zora handlers do not depend on the
    callback: whether it is absent, accepts the reply or throws, the same
    calls leave the plugin, the call of the coin SDK included. *)
Theorem zora_calls_do_not_depend_on_callback (h : HandlerId) (w : World)
  (message : Memory) (state : option State)
  (callback callback' : option HandlerCallback) :
  h <> GET_POLYMARKET_EVENTS ->
  externals (trace (handler (actionOf h) w message state callback))
  = externals (trace (handler (actionOf h) w message state callback')).
Proof.
  intros Hh. rewrite !zora_handler_externals by exact Hh. reflexivity.
Qed.

Lemma zora_calls_do_not_depend_on_callback_witness :
  externals (trace (handler (actionOf CREATE_COIN) (Samples.answering Samples.zoraEnv)
                      JNull None (Some Samples.throwing)))
  = externals (trace (handler (actionOf CREATE_COIN) (Samples.answering Samples.zoraEnv)
                        JNull None None)).
Proof.
  apply (zora_calls_do_not_depend_on_callback CREATE_COIN). discriminate.
Defined.

(** What follows an answer of the SDK in the steps of a Zora handler. *)
Lemma createCoinSteps_after_sdk (w : World) (message : Memory)
  (state : option State) (c : Call) (result : JsValue) :
  In c (trace (createCoinSteps getZoraClients w message state)) ->
  sdkAnswer w c = Some (Ret result) ->
  exists pre currentState,
    let rest := respond w "CREATE_COIN" currentState result in
    createCoinSteps getZoraClients w message state
    = ((pre ++ c :: trace rest)%list, outcome rest).
Proof.
  intros Hin Hanswer.
  pose proof (sdkAnswer_sdk w c _ Hanswer) as Hc.
  destruct (createCoinSteps_shape w message state)
    as [(pre & e & Hs & Hpre)
       | (t & clients & context & currentState & parameters & resolvedUri & pre
          & H1 & H2 & H3 & Hpre & Hs)]; cbv zeta in Hs; rewrite Hs in Hin |- *;
    unfold trace at 1 in Hin; cbn [fst] in Hin.
  { rewrite (sdkCalls_none pre c Hpre Hin) in Hc. discriminate. }
  pose proof (respond_no_sdk w "CREATE_COIN" currentState
                (createCoin w
                   {| cp_name := cc_name parameters;
                      cp_symbol := cc_symbol parameters;
                      cp_uri := resolvedUri;
                      cp_payoutRecipient := cc_payoutRecipient parameters;
                      cp_platformReferrer := truthyString (cc_platformReferrer parameters);
                      cp_currency := match cc_currency parameters with
                                     | Some ZORA => ZORA
                                     | _ => ETH
                                     end |}
                   (walletClient clients) (publicClient clients) 120))
    as Hrest.
  apply (sdk_call_unique pre _ _ _ Hpre Hrest) in Hin; [| exact Hc].
  subst c. cbn [sdkAnswer] in Hanswer. injection Hanswer as Hanswer.
  rewrite Hanswer. exists pre, currentState. reflexivity.
Qed.

Lemma tradeCoinSteps_after_sdk (w : World) (message : Memory)
  (state : option State) (c : Call) (result : JsValue) :
  In c (trace (tradeCoinSteps getZoraClients w message state)) ->
  sdkAnswer w c = Some (Ret result) ->
  exists pre currentState,
    let rest := respond w "TRADE_COIN" currentState result in
    tradeCoinSteps getZoraClients w message state
    = ((pre ++ c :: trace rest)%list, outcome rest).
Proof.
  intros Hin Hanswer.
  pose proof (sdkAnswer_sdk w c _ Hanswer) as Hc.
  destruct (tradeCoinSteps_shape w message state)
    as [(pre & e & Hs & Hpre)
       | (t & clients & context & currentState & parameters & amountIn & pre
          & H1 & H2 & H3 & Hpre & Hs)]; cbv zeta in Hs; rewrite Hs in Hin |- *;
    unfold trace at 1 in Hin; cbn [fst] in Hin.
  { rewrite (sdkCalls_none pre c Hpre Hin) in Hc. discriminate. }
  pose proof (respond_no_sdk w "TRADE_COIN" currentState
                (tradeCoin w
                   {| tp_sell_type := "eth"; tp_buy_type := "erc20";
                      tp_buy_address := tc_coinAddress parameters;
                      tp_amountIn := amountIn;
                      tp_slippage := tc_slippage parameters;
                      tp_sender := address (account clients) |}
                   (walletClient clients) (account clients) (publicClient clients)))
    as Hrest.
  apply (sdk_call_unique pre _ _ _ Hpre Hrest) in Hin; [| exact Hc].
  subst c. cbn [sdkAnswer] in Hanswer. injection Hanswer as Hanswer.
  rewrite Hanswer. exists pre, currentState. reflexivity.
Qed.

(** X13: in the two Zora handlers an answer of the coin SDK always reaches
    the text generator: the result is serialized, bigints included, and
    the text generator is asked with a context composed from a template
    that contains the serialized result. *)
Theorem zora_result_reaches_generator (h : HandlerId) (w : World)
  (message : Memory) (state : option State) (callback : option HandlerCallback)
  (c : Call) (result : JsValue) :
  let run := handler (actionOf h) w message state callback in
  h <> GET_POLYMARKET_EVENTS ->
  In c (externals (trace run)) ->
  sdkAnswer w c = Some (Ret result) ->
  exists serialized template currentState,
    safeStringify result = Ret serialized
    /\ includes template serialized = true
    /\ In (call_generateText (composeContext w currentState template))
          (externals (trace run)).
Proof.
  intros run Hh Hin Hanswer. subst run.
  destruct h; [| | contradiction].
  - rewrite createCoin_handler_externals in *.
    destruct (createCoinSteps_after_sdk w message state c result Hin Hanswer)
      as (pre & currentState & Hs). cbv zeta in Hs. rewrite Hs.
    destruct (respond_run w "CREATE_COIN" currentState result)
      as (serialized & template & Hser & Hinc & ->).
    exists serialized, template, currentState.
    split; [exact Hser |]. split; [exact Hinc |].
    unfold trace. cbn [fst]. apply in_or_app. right. right. left. reflexivity.
  - rewrite tradeCoin_handler_externals in *.
    destruct (tradeCoinSteps_after_sdk w message state c result Hin Hanswer)
      as (pre & currentState & Hs). cbv zeta in Hs. rewrite Hs.
    destruct (respond_run w "TRADE_COIN" currentState result)
      as (serialized & template & Hser & Hinc & ->).
    exists serialized, template, currentState.
    split; [exact Hser |]. split; [exact Hinc |].
    unfold trace. cbn [fst]. apply in_or_app. right. right. left. reflexivity.
Qed.

Lemma zora_result_reaches_generator_witness :
  exists c serialized context,
    sdkAnswer (Samples.answering Samples.zoraEnv) c
    = Some (Ret (JObj [("hash", JStr "0xbeef");
                       ("amountOut", JBigInt 340282366920938463463374607431768211456)]))
    /\ includes serialized "340282366920938463463374607431768211456" = true
    /\ includes context serialized = true
    /\ In (call_generateText context)
          (externals (trace (handler (actionOf TRADE_COIN)
                               (Samples.answering Samples.zoraEnv) JNull None None))).
Proof.
  set (w := Samples.answering Samples.zoraEnv).
  set (c := call_tradeCoin
              {| tp_sell_type := "eth"; tp_buy_type := "erc20";
                 tp_buy_address := "0x4e93a01c90f812284f71291a8d1415a904957156";
                 tp_amountIn := 1000000000000000;
                 tp_slippage := QArith_base.Qmake 5 100;
                 tp_sender := "0xA11CE" |}
              {| wc_account := {| address := "0xA11CE" |}; wc_chain := base;
                 wc_transport := "https://mainnet.base.org" |}
              {| address := "0xA11CE" |}
              {| pc_chain := base; pc_transport := "https://mainnet.base.org" |}).
  assert (Hin : In c (externals (trace (handler (actionOf TRADE_COIN) w JNull None None)))).
  { vm_compute. do 6 right. left. reflexivity. }
  assert (Hh : TRADE_COIN <> GET_POLYMARKET_EVENTS) by discriminate.
  destruct (zora_result_reaches_generator TRADE_COIN w JNull None None c _ Hh Hin eq_refl)
    as (serialized & template & currentState & Hser & Hinc & Hgen).
  exists c, serialized, template.
  split; [reflexivity |].
  split; [injection Hser as <-; vm_compute; reflexivity |].
  split; [exact Hinc | exact Hgen].
Defined.

(** X14: when the coin SDK resolves to null and the text generator
    answers, the result of a Zora handler depends on the callback: without
    one it returns true; with one that accepts every reply it returns
    false, having told the callback of an error once, for reading the
    transaction hash of null throws while the reply is built.  The external
    calls of the two runs are the same. *)
Theorem null_result_is_reported_only_to_a_callback (h : HandlerId) (w : World)
  (message : Memory) (state : option State) (cb : HandlerCallback) (c : Call) :
  let quiet := handler (actionOf h) w message state None in
  let told := handler (actionOf h) w message state (Some cb) in
  h <> GET_POLYMARKET_EVENTS ->
  (forall reply, cb reply = None) ->
  In c (externals (trace quiet)) ->
  sdkAnswer w c = Some (Ret JNull) ->
  (forall context, In (call_generateText context) (externals (trace quiet)) ->
                   exists response, generateText w context = Ret response) ->
  outcome quiet = Ret true
  /\ outcome told = Ret false
  /\ (exists message, invocations (trace told)
                       = [errorReply (errorPrefix h) message])
  /\ externals (trace told) = externals (trace quiet).
Proof.
  intros quiet told Hh Hcb Hin Hanswer Hgen. subst quiet told.
  split; [| split; [| split]].
  4: { rewrite !zora_handler_externals by exact Hh. reflexivity. }
  all: destruct h; [| | contradiction].
  all: rewrite ?createCoin_handler_externals, ?tradeCoin_handler_externals in *.
  all: try (destruct (createCoinSteps_after_sdk w message state c JNull Hin Hanswer)
              as (pre & currentState & Hs);
            destruct (respond_run w "CREATE_COIN" currentState JNull)
              as (serialized & template & _ & _ & Hr)).
  all: try (destruct (tradeCoinSteps_after_sdk w message state c JNull Hin Hanswer)
              as (pre & currentState & Hs);
            destruct (respond_run w "TRADE_COIN" currentState JNull)
              as (serialized & template & _ & _ & Hr)).
  all: cbv zeta in Hs; rewrite Hr in Hs; unfold trace at 1, outcome at 1 in Hs;
    cbn [fst snd] in Hs.
  all: destruct (Hgen (composeContext w currentState template)) as [response Hresponse];
    [rewrite Hs; unfold trace; cbn [fst]; apply in_or_app; right; right; left;
     reflexivity |].
  all: rewrite Hresponse in Hs.
  all: rewrite handler_try_catch; unfold tryBlockOf; rewrite tryBlock_run, Hs.
  all: try (rewrite tryCatch_Ret; reflexivity).
  all: cbn [createCoinReply tradeCoinReply getProp mbind Outcome_bind].
  all: rewrite tryCatch_Throw, catchBlock_logged; cbv zeta; rewrite Hcb.
  all: try reflexivity.
  all: eexists; unfold trace; cbn [fst];
    rewrite !invocations_app, !invocations_External; reflexivity.
Qed.

Lemma null_result_is_reported_only_to_a_callback_witness :
  outcome (handler (actionOf CREATE_COIN) Samples.nullResult JNull None None)
  = Ret true
  /\ outcome (handler (actionOf CREATE_COIN) Samples.nullResult JNull None
                (Some Samples.accepting))
     = Ret false.
Proof.
  set (c := call_createCoin
              {| cp_name := "My Awesome Coin"; cp_symbol := "MAC";
                 cp_uri := "ipfs://QmHash";
                 cp_payoutRecipient := "0xB0B"; cp_platformReferrer := None;
                 cp_currency := ETH |}
              {| wc_account := {| address := "0xA11CE" |}; wc_chain := base;
                 wc_transport := "https://mainnet.base.org" |}
              {| pc_chain := base; pc_transport := "https://mainnet.base.org" |} 120).
  assert (Hin : In c (externals (trace (handler (actionOf CREATE_COIN)
                                          Samples.nullResult JNull None None)))).
  { vm_compute. do 7 right. left. reflexivity. }
  assert (Hh : CREATE_COIN <> GET_POLYMARKET_EVENTS) by discriminate.
  destruct (null_result_is_reported_only_to_a_callback CREATE_COIN Samples.nullResult
              JNull None Samples.accepting c Hh (fun _ => eq_refl) Hin eq_refl)
    as (Hquiet & Htold & _).
  { intros context _. exists "Done.". reflexivity. }
  split; [exact Hquiet | exact Htold].
Defined.

(** ** Metadata resolution *)

(** The document that is pinned, and the one request that carries it. *)
Lemma ensureMetadataUri_request (w : World) (params : MetadataParams) (jwt : string) :
  noUsableUri (uri params) ->
  truthyString (env w !! "PINATA_JWT") = Some jwt ->
  exists bodyText,
    JSON_stringify None 0
      (JObj [("pinataContent",
              JObj ([("name", JStr (name params));
                     ("description",
                      JStr (if blank (description params)
                            then ("Creator coin for " ++ name params)%string
                            else trim (default "" (description params))))]
                    ++ match (if blank (image params)
                              then (fun cid => ("ipfs://" ++ cid)%string)
                                     <$> truthyString (env w !! "PINATA_DEFAULT_IMAGE_CID")
                              else Some (trim (default "" (image params)))) with
                       | Some i => [("image", JStr i)]
                       | None => []
                       end)%list);
             ("pinataMetadata",
              JObj [("name", JStr ("zora-coin-" ++ symbol params ++ "-"
                                   ++ bigintToString (Date_now w)))])])
    = Ret bodyText
    /\ trace (ensureMetadataUri w params)
       = [call_fetch pinataUrl
            {| req_method := "POST";
               req_headers := [("Content-Type", "application/json");
                               ("Authorization", "Bearer " ++ jwt)];
               req_body := bodyText |}].
Proof.
  intros Huri Hjwt.
  rewrite ensureMetadataUri_discards by exact Huri.
  unfold ensureMetadataUri. rewrite Hjwt. clear Huri Hjwt.
  destruct params as [n s u i d].
  cbn [uri name symbol image description withoutUri fmap option_fmap option_map
       truthyString blank default id].
  destruct i as [i |]; [destruct (isEmpty (trim i)) eqn:Hi |];
    (destruct d as [d |]; [destruct (isEmpty (trim d)) eqn:Hd |]);
    cbn [truthyString blank default id]; rewrite ?Hi, ?Hd;
    try (destruct (truthyString (env w !! "PINATA_DEFAULT_IMAGE_CID")) as [cid |]).
  all: eff_unfold; unfold trace; simpl; rewrite ?Hi, ?Hd; simpl.
  all: eexists; split; [reflexivity |].
  all: repeat case_outcome; try reflexivity; congruence.
Qed.

(** X15: the request that metadata resolution sends to the pinning
    service.  It is sent only without a usable uri and with a credential;
    it is a POST that carries the credential as a bearer token, and its body
    is the serialization of a document with the name of the coin, the
    trimmed description or, when that is blank, Creator coin for and the
    name, and the trimmed image or, when that is blank, the default image
    identifier of the environment behind the ipfs scheme, the image being
    left out when there is neither.  It is the only external call of the
    resolution. *)
Theorem pin_request_content (w : World) (params : MetadataParams)
  (init : RequestInit) :
  In (call_fetch pinataUrl init) (trace (ensureMetadataUri w params)) ->
  exists jwt content,
    env w !! "PINATA_JWT" = Some jwt /\ jwt <> ""
    /\ noUsableUri (uri params)
    /\ req_method init = "POST"
    /\ req_headers init = [("Content-Type", "application/json");
                           ("Authorization", "Bearer " ++ jwt)]
    /\ JSON_stringify None 0
         (JObj [("pinataContent", JObj content);
                ("pinataMetadata",
                 JObj [("name", JStr ("zora-coin-" ++ symbol params ++ "-"
                                      ++ bigintToString (Date_now w)))])])
       = Ret (req_body init)
    /\ objectLookup content "name" = Some (JStr (name params))
    /\ objectLookup content "description"
       = Some (JStr (if blank (description params)
                     then "Creator coin for " ++ name params
                     else trim (default "" (description params))))
    /\ objectLookup content "image"
       = (if blank (image params)
          then (fun cid => JStr ("ipfs://" ++ cid))
                 <$> truthyString (env w !! "PINATA_DEFAULT_IMAGE_CID")
          else Some (JStr (trim (default "" (image params)))))
    /\ trace (ensureMetadataUri w params) = [call_fetch pinataUrl init].
Proof.
  intros Hin.
  assert (Huri : noUsableUri (uri params)).
  { destruct (uri params) as [u |] eqn:Hu; [| exact I]. simpl.
    destruct (hasUriScheme (trim u)) eqn:Hscheme; [| reflexivity].
    rewrite (ensureMetadataUri_passes w params u Hu Hscheme) in Hin. destruct Hin. }
  destruct (truthyString (env w !! "PINATA_JWT")) as [jwt |] eqn:Hjwt.
  2: { rewrite ensureMetadataUri_no_credential in Hin;
         [destruct Hin | exact Huri | unfold truthy; rewrite Hjwt; reflexivity]. }
  pose proof (truthyString_Some _ _ Hjwt) as [Henv Hne].
  destruct (ensureMetadataUri_request w params jwt Huri Hjwt)
    as (bodyText & Hbody & Htrace).
  rewrite Htrace in Hin |- *. destruct Hin as [Hin | []]. injection Hin as <-.
  eexists jwt, _.
  split; [exact Henv |]. split; [exact Hne |]. split; [exact Huri |].
  split; [reflexivity |]. split; [reflexivity |].
  split; [exact Hbody |].
  split; [reflexivity |]. split; [reflexivity |]. split; [| reflexivity].
  destruct (blank (image params)); [| reflexivity].
  destruct (truthyString (env w !! "PINATA_DEFAULT_IMAGE_CID")); reflexivity.
Qed.

Lemma pin_request_content_witness :
  exists init,
    In (call_fetch pinataUrl init)
       (trace (ensureMetadataUri (Samples.answering Samples.zoraEnv)
                 {| name := "My Awesome Coin"; symbol := "MAC";
                    uri := Some "  my-metadata.json "; image := None;
                    description := Some "   " |}))
    /\ req_method init = "POST"
    /\ req_headers init = [("Content-Type", "application/json");
                           ("Authorization", "Bearer jwt")].
Proof.
  set (body := "{" ++ dquote ++ "pinataContent" ++ dquote ++ ":{" ++ dquote ++ "name"
         ++ dquote ++ ":" ++ dquote ++ "My Awesome Coin" ++ dquote ++ ","
         ++ dquote ++ "description" ++ dquote ++ ":" ++ dquote
         ++ "Creator coin for My Awesome Coin" ++ dquote ++ "},"
         ++ dquote ++ "pinataMetadata" ++ dquote ++ ":{" ++ dquote ++ "name"
         ++ dquote ++ ":" ++ dquote ++ "zora-coin-MAC-1700000000000" ++ dquote
         ++ "}}").
  set (init := {| req_method := "POST";
                  req_headers := [("Content-Type", "application/json");
                                  ("Authorization", "Bearer jwt")];
                  req_body := body |}).
  assert (Hin : In (call_fetch pinataUrl init)
                   (trace (ensureMetadataUri (Samples.answering Samples.zoraEnv)
                             {| name := "My Awesome Coin"; symbol := "MAC";
                                uri := Some "  my-metadata.json "; image := None;
                                description := Some "   " |}))).
  { vm_compute. left. reflexivity. }
  exists init. split; [exact Hin |].
  destruct (pin_request_content _ _ _ Hin)
    as (jwt & content & Henv & _ & _ & Hmethod & Hheaders & _).
  split; [exact Hmethod |].
  rewrite Hheaders. vm_compute in Henv. injection Henv as <-. reflexivity.
Defined.

(** X16: when metadata resolution fails, and why.  On a uri that has one
    of the three schemes it never fails.  Without one it fails before any
    call when the credential is missing; with the credential it sends its
    one request and fails in four cases: the request itself failed, and its
    error is thrown as it is; the response is not ok, and the message
    carries its status, its status text and its body, an unreadable body
    counting as empty, whatever identifier the response holds; the body of
    an ok response cannot be parsed, and that error is thrown as it is; or
    the body holds no identifier.  It fails in no other case: each failure
    is one of these. *)
Theorem metadata_resolution_failures (w : World) (params : MetadataParams) :
  let run := ensureMetadataUri w params in
  (forall u, uri params = Some u -> hasUriScheme (trim u) = true ->
             run = ([], Ret (trim u)))
  /\ (noUsableUri (uri params) -> truthy (env w !! "PINATA_JWT") = false ->
      run = ([], Throw (ErrorObj "Missing PINATA_JWT. Cannot auto-generate metadata URI. Provide a valid uri or set PINATA_JWT to enable auto-pinning.")))
  /\ (noUsableUri (uri params) -> truthy (env w !! "PINATA_JWT") = true ->
      exists init,
        trace run = [call_fetch pinataUrl init]
        /\ (forall e, fetch w pinataUrl init = Throw e -> outcome run = Throw e)
        /\ (forall response,
              fetch w pinataUrl init = Ret response -> ok response = false ->
              outcome run
              = Throw (ErrorObj ("Pinata pinJSONToIPFS failed: "
                                 ++ bigintToString (status response) ++ " "
                                 ++ statusText response ++ " "
                                 ++ match response_text response with
                                    | Ret body => body
                                    | Throw _ => ""
                                    end)))
        /\ (forall response e,
              fetch w pinataUrl init = Ret response -> ok response = true ->
              response_json response = Throw e -> outcome run = Throw e)
        /\ (forall response json,
              fetch w pinataUrl init = Ret response -> ok response = true ->
              response_json response = Ret json ->
              truthy (IpfsHash json) = false ->
              outcome run = Throw (ErrorObj "Pinata response missing IpfsHash"))
        /\ (forall response json hash,
              fetch w pinataUrl init = Ret response -> ok response = true ->
              response_json response = Ret json ->
              truthyString (IpfsHash json) = Some hash ->
              outcome run = Ret ("ipfs://" ++ hash)))
  /\ (forall t error,
        run = (t, Throw error) ->
        noUsableUri (uri params)
        /\ ((truthy (env w !! "PINATA_JWT") = false /\ t = []
             /\ exists message, error = ErrorObj message
                                /\ includes message "PINATA_JWT" = true)
            \/ (truthy (env w !! "PINATA_JWT") = true
                /\ exists init,
                     t = [call_fetch pinataUrl init]
                     /\ match fetch w pinataUrl init with
                        | Throw e => error = e
                        | Ret response =>
                            if ok response then
                              response_json response = Throw error
                              \/ (exists json,
                                    response_json response = Ret json
                                    /\ truthy (IpfsHash json) = false
                                    /\ error = ErrorObj "Pinata response missing IpfsHash")
                            else
                              exists detail,
                                error = ErrorObj ("Pinata pinJSONToIPFS failed: "
                                                  ++ bigintToString (status response) ++ " "
                                                  ++ statusText response ++ " " ++ detail)
                                /\ (response_text response = Ret detail
                                    \/ (detail = ""
                                        /\ exists e, response_text response = Throw e))
                        end))).
Proof.
  cbv zeta. split; [| split; [| split]].
  - intros u Hu Hscheme. exact (ensureMetadataUri_passes w params u Hu Hscheme).
  - intros Huri Hjwt. exact (ensureMetadataUri_no_credential w params Huri Hjwt).
  - intros Huri Hjwt.
    destruct (ensureMetadataUri_pins w params Huri Hjwt) as [init Hpins].
    exists init. rewrite Hpins. unfold trace, outcome. cbn [fst snd].
    split; [reflexivity |]. split; [| split; [| split; [| split]]].
    + intros e ->. reflexivity.
    + intros response -> ->. reflexivity.
    + intros response e -> -> ->. reflexivity.
    + intros response json -> -> ->. unfold truthy.
      destruct (truthyString (IpfsHash json)); [discriminate | reflexivity].
    + intros response json hash -> -> -> ->. reflexivity.
  - intros t error Hrun.
    assert (Huri : noUsableUri (uri params)).
    { destruct (uri params) as [u |] eqn:Hu; [| exact I]. simpl.
      destruct (hasUriScheme (trim u)) eqn:Hscheme; [| reflexivity].
      rewrite (ensureMetadataUri_passes w params u Hu Hscheme) in Hrun.
      discriminate. }
    split; [exact Huri |].
    destruct (truthy (env w !! "PINATA_JWT")) eqn:Hjwt.
    + right. split; [reflexivity |].
      destruct (ensureMetadataUri_pins w params Huri Hjwt) as [init Hpins].
      rewrite Hpins in Hrun. injection Hrun as <- Hout. exists init.
      split; [reflexivity |].
      destruct (fetch w pinataUrl init) as [response | e]; [| congruence].
      destruct (ok response).
      * destruct (response_json response) as [json | e]; [| left; congruence].
        right. exists json. unfold truthy.
        destruct (truthyString (IpfsHash json)); [discriminate |].
        injection Hout as <-. repeat split.
      * injection Hout as <-.
        destruct (response_text response) as [detail | e].
        -- exists detail. split; [reflexivity | left; reflexivity].
        -- exists "". split; [reflexivity | right; eauto].
    + left. rewrite (ensureMetadataUri_no_credential w params Huri Hjwt) in Hrun.
      injection Hrun as <- <-. split; [reflexivity |]. split; [reflexivity |].
      eexists. split; [reflexivity |]. vm_compute. reflexivity.
Qed.

Lemma metadata_resolution_failures_witness :
  exists init,
    ensureMetadataUri Samples.pinRefused
      {| name := "My Awesome Coin"; symbol := "MAC"; uri := None; image := None;
         description := None |}
    = ([call_fetch pinataUrl init],
       Throw (ErrorObj "Pinata pinJSONToIPFS failed: 401 Unauthorized "))
    /\ truthy (env Samples.pinRefused !! "PINATA_JWT") = true.
Proof.
  eexists.
  assert (Hrun : ensureMetadataUri Samples.pinRefused
                   {| name := "My Awesome Coin"; symbol := "MAC"; uri := None;
                      image := None; description := None |}
                 = (_, Throw (ErrorObj "Pinata pinJSONToIPFS failed: 401 Unauthorized ")))
    by (vm_compute; reflexivity).
  split; [exact Hrun |].
  destruct (metadata_resolution_failures Samples.pinRefused
              {| name := "My Awesome Coin"; symbol := "MAC"; uri := None;
                 image := None; description := None |})
    as (_ & _ & _ & Hcauses).
  destruct (Hcauses _ _ Hrun) as (_ & [(Hjwt & _) | (Hjwt & _)]);
    [discriminate Hjwt | exact Hjwt].
Defined.

(** ** The order of the calls *)

Lemma stages_app (t1 t2 : list Call) :
  stages (t1 ++ t2) = (stages t1 ++ stages t2)%list.
Proof. unfold stages, effective. rewrite List.filter_app, List.map_app. reflexivity. Qed.

Lemma ordered_weaken (lo lo' : nat) (l : list nat) :
  lo <= lo' -> ordered lo' l = true -> ordered lo l = true.
Proof.
  destruct l as [| n rest]; [reflexivity |]. simpl. intros Hle H.
  apply andb_true_iff in H as [Hn Hrest]. apply Nat.ltb_lt in Hn.
  apply andb_true_iff. split; [apply Nat.ltb_lt; lia | exact Hrest].
Qed.

Lemma ordered_app (lo mid : nat) (l1 l2 : list nat) :
  lo <= mid -> ordered lo l1 = true -> Forall (fun n => n <= mid) l1 ->
  ordered mid l2 = true -> ordered lo (l1 ++ l2) = true.
Proof.
  revert lo. induction l1 as [| n rest IH]; intros lo Hle H1 Hb H2.
  - exact (ordered_weaken lo mid l2 Hle H2).
  - simpl in *. apply andb_true_iff in H1 as [Hn Hrest].
    inversion Hb as [| ? ? Hn' Hb']; subst.
    apply andb_true_iff. split; [exact Hn |].
    apply IH; assumption.
Qed.

(** In an ordered list each number is below those that follow it. *)
Lemma ordered_spec (lo : nat) (pre post : list nat) (a b : nat) :
  ordered lo (pre ++ a :: post) = true -> In b post -> a < b.
Proof.
  revert lo. induction pre as [| n pre IH]; intros lo H Hin.
  - simpl in H. apply andb_true_iff in H as [_ H].
    revert a H Hin. induction post as [| m post IHp]; intros a H Hin; [destruct Hin |].
    simpl in H. apply andb_true_iff in H as [Hm H]. apply Nat.ltb_lt in Hm.
    destruct Hin as [<- | Hin]; [exact Hm |].
    specialize (IHp m H Hin). lia.
  - simpl in H. apply andb_true_iff in H as [_ H]. exact (IH n H Hin).
Qed.

(** An ordered list bounded by [hi] has at most [hi - lo] numbers. *)
Lemma ordered_length (lo hi : nat) (l : list nat) :
  lo <= hi -> ordered lo l = true -> Forall (fun n => n <= hi) l ->
  length l + lo <= hi.
Proof.
  revert lo. induction l as [| n l IH]; intros lo Hle Ho Hb; simpl; [exact Hle |].
  simpl in Ho. apply andb_true_iff in Ho as [Hn Ho]. apply Nat.ltb_lt in Hn.
  inversion Hb as [| ? ? Hn' Hb']; subst.
  specialize (IH n Hn' Ho Hb'). lia.
Qed.

Lemma staged_weaken (lo lo' hi hi' : nat) (t : list Call) :
  lo <= lo' -> hi' <= hi -> staged lo' hi' t -> staged lo hi t.
Proof.
  intros Hlo Hhi [Ho Hb]. split; [exact (ordered_weaken lo lo' _ Hlo Ho) |].
  eapply List.Forall_impl; [| exact Hb]. simpl. intros n Hn. lia.
Qed.

Lemma staged_app (lo mid hi : nat) (t1 t2 : list Call) :
  lo <= mid -> mid <= hi ->
  staged lo mid t1 -> staged mid hi t2 -> staged lo hi (t1 ++ t2).
Proof.
  intros Hlo Hhi [Ho1 Hb1] [Ho2 Hb2]. unfold staged. rewrite stages_app. split.
  - exact (ordered_app lo mid _ _ Hlo Ho1 Hb1 Ho2).
  - apply Forall_app. split; [| exact Hb2].
    eapply List.Forall_impl; [| exact Hb1]. simpl. intros n Hn. lia.
Qed.

Lemma staged_nil (lo hi : nat) : staged lo hi [].
Proof. split; [reflexivity | constructor]. Qed.

Lemma staged_bind {A B} (lo mid hi : nat) (m : Eff Call A) (k : A -> Eff Call B) :
  lo <= mid -> mid <= hi ->
  staged lo mid (trace m) ->
  (forall a, outcome m = Ret a -> staged mid hi (trace (k a))) ->
  staged lo hi (trace (m ≫= k)).
Proof.
  intros Hlo Hhi Hm Hk. rewrite trace_bind.
  apply (staged_app lo mid hi); try assumption.
  destruct (outcome m) as [a | e]; [apply Hk; reflexivity | apply staged_nil].
Qed.

Ltac staged_list :=
  split; [reflexivity | repeat constructor; simpl; lia].

Lemma getZoraClients_staged (w : World) : staged 0 3 (trace (getZoraClients w)).
Proof.
  unfold getZoraClients.
  case_env w "ZORA_RPC_URL"; [| staged_list].
  case_env w "ZORA_PRIVATE_KEY"; [| staged_list].
  eff_unfold. unfold trace. simpl.
  repeat case_outcome; staged_list.
Qed.

Lemma getPolymarketClient_staged (w : World) :
  staged 0 4 (trace (Polymarket.getPolymarketClient w)).
Proof.
  unfold Polymarket.getPolymarketClient.
  case_env w "POLYMARKET_API_KEY"; [| staged_list].
  case_env w "POLYMARKET_SECRET"; [| staged_list].
  case_env w "POLYMARKET_PASSPHRASE"; [| staged_list].
  case_env w "WALLET_PRIVATE_KEY"; [| staged_list].
  case_env w "RPC_PROVIDER_URL"; [| staged_list].
  eff_unfold. unfold trace. simpl.
  repeat case_outcome; staged_list.
Qed.

Lemma currentStateOf_staged (w : World) (message : Memory) (state : option State) :
  staged 4 6 (trace (currentStateOf w message state)).
Proof.
  unfold currentStateOf. eff_unfold. unfold trace.
  destruct state as [[] |]; simpl; repeat case_outcome; staged_list.
Qed.

Lemma ensureMetadataUri_staged (w : World) (params : MetadataParams) :
  staged 7 8 (trace (ensureMetadataUri w params)).
Proof.
  assert (Hpin : noUsableUri (uri params) ->
                 staged 7 8 (trace (ensureMetadataUri w params))).
  { intros Huri. destruct (truthy (env w !! "PINATA_JWT")) eqn:Hjwt.
    - destruct (ensureMetadataUri_pins w params Huri Hjwt) as [init ->]. staged_list.
    - rewrite (ensureMetadataUri_no_credential w params Huri Hjwt). staged_list. }
  destruct (uri params) as [u |] eqn:Hu; [| apply Hpin; exact I].
  destruct (hasUriScheme (trim u)) eqn:Hscheme; [| apply Hpin; exact Hscheme].
  rewrite (ensureMetadataUri_passes w params u Hu Hscheme). staged_list.
Qed.

Lemma respond_staged (w : World) (actionName : string) (currentState : State)
  (result : JsValue) :
  staged 9 11 (trace (respond w actionName currentState result)).
Proof.
  destruct (respond_run w actionName currentState result)
    as (serialized & template & _ & _ & ->).
  staged_list.
Qed.

Lemma createCoinSteps_staged (w : World) (message : Memory) (state : option State) :
  staged 0 11 (trace (createCoinSteps getZoraClients w message state)).
Proof.
  unfold createCoinSteps.
  apply (staged_bind 0 3 11); [lia | lia | apply getZoraClients_staged |].
  intros clients _.
  apply (staged_bind 3 6 11); [lia | lia | |].
  { apply (staged_weaken 3 4 6 6); [lia | lia | apply currentStateOf_staged]. }
  intros currentState _. cbv zeta.
  apply (staged_bind 6 7 11); [lia | lia | staged_list |]. intros parameters _.
  apply (staged_bind 7 8 11); [lia | lia | apply ensureMetadataUri_staged |].
  intros resolvedUri _.
  apply (staged_bind 8 9 11); [lia | lia | staged_list |]. intros result _.
  apply (respond_staged w "CREATE_COIN" currentState result).
Qed.

Lemma tradeCoinSteps_staged (w : World) (message : Memory) (state : option State) :
  staged 0 11 (trace (tradeCoinSteps getZoraClients w message state)).
Proof.
  unfold tradeCoinSteps.
  apply (staged_bind 0 3 11); [lia | lia | apply getZoraClients_staged |].
  intros clients _.
  apply (staged_bind 3 6 11); [lia | lia | |].
  { apply (staged_weaken 3 4 6 6); [lia | lia | apply currentStateOf_staged]. }
  intros currentState _. cbv zeta.
  apply (staged_bind 6 7 11); [lia | lia | staged_list |]. intros parameters _.
  apply (staged_bind 7 8 11); [lia | lia | staged_list |]. intros amountIn _.
  apply (staged_bind 8 9 11); [lia | lia | staged_list |]. intros result _.
  apply (respond_staged w "TRADE_COIN" currentState result).
Qed.

Lemma runTool_staged (eventTool : Tool) (params : JsValue) :
  staged 8 10 (trace (Polymarket.runTool eventTool params)).
Proof.
  unfold Polymarket.runTool. eff_unfold. unfold trace.
  destruct (tool_execute eventTool) as [execute |]; simpl.
  - destruct (execute params) as [first | e]; simpl; [| staged_list].
    destruct (truthyValue first); simpl; [staged_list |].
    destruct (tool_call eventTool) as [call_ |]; simpl; [| staged_list].
    destruct (call_ params); staged_list.
  - destruct (tool_call eventTool) as [call_ |]; simpl; [| staged_list].
    destruct (call_ params); staged_list.
Qed.

Lemma polymarket_generateResponse_staged (w : World) (state : State)
  (actionName : string) (result : option JsValue) (successMessage : string) :
  staged 10 11 (trace (Polymarket.generateResponse w state actionName result
                         successMessage)).
Proof.
  unfold Polymarket.generateResponse.
  apply (staged_bind 10 10 11); [lia | lia | staged_list |].
  intros serialized _. cbv zeta. staged_list.
Qed.

Lemma eventsSteps_staged (w : World) (message : Memory) (state : option State) :
  staged 0 11 (trace (Polymarket.eventsSteps w message state)).
Proof.
  unfold Polymarket.eventsSteps.
  apply (staged_bind 0 4 11); [lia | lia | apply getPolymarketClient_staged |].
  intros client _.
  apply (staged_bind 4 6 11); [lia | lia | apply currentStateOf_staged |].
  intros currentState _. cbv zeta.
  apply (staged_bind 6 7 11); [lia | lia | staged_list |]. intros params _.
  destruct (List.find Polymarket.isEventTool (Polymarket.tools client))
    as [eventTool |]; [| staged_list].
  apply (staged_bind 7 10 11); [lia | lia | |].
  { apply (staged_weaken 7 8 10 10); [lia | lia | apply runTool_staged]. }
  intros result _.
  apply (staged_bind 10 11 11); [lia | lia | apply polymarket_generateResponse_staged |].
  intros responseText _. staged_list.
Qed.

(** The calls of a handler that are not console lines are those of its
    steps. *)
Lemma handler_stages (h : HandlerId) (w : World) (message : Memory)
  (state : option State) (callback : option HandlerCallback) :
  stages (externals (trace (handler (actionOf h) w message state callback)))
  = stages (trace (beforeCallback h w message state callback)).
Proof.
  rewrite handler_try_catch, tryBlockOf_run.
  destruct (beforeCallback h w message state callback) as [t [[reply |] | e]].
  - destruct callback as [cb |].
    + destruct (cb reply) as [thrown |].
      * rewrite tryCatch_Throw, catchBlock_logged. cbv zeta. unfold trace. cbn [fst].
        rewrite !externals_app, !externals_External. simpl. rewrite app_nil_r.
        rewrite stages_app. destruct h; simpl; rewrite app_nil_r; reflexivity.
      * rewrite tryCatch_Ret. unfold trace. cbn [fst].
        rewrite externals_app, externals_External. simpl. rewrite app_nil_r.
        reflexivity.
    + rewrite tryCatch_Ret. unfold trace. cbn [fst]. rewrite externals_External.
      reflexivity.
  - rewrite tryCatch_Ret. destruct callback; unfold trace; cbn [fst];
      rewrite externals_External; reflexivity.
  - rewrite tryCatch_Throw, catchBlock_logged. cbv zeta. unfold trace.
    destruct callback as [cb |]; cbn [fst];
      rewrite !externals_app, !externals_External; simpl; rewrite ?app_nil_r;
      rewrite ?stages_app; destruct h; simpl; rewrite ?app_nil_r; reflexivity.
Qed.

Lemma beforeCallback_staged (h : HandlerId) (w : World) (message : Memory)
  (state : option State) (callback : option HandlerCallback) :
  staged 0 11 (trace (beforeCallback h w message state callback)).
Proof.
  destruct h; unfold beforeCallback, upToCallback.
  - apply (staged_bind 0 11 11); [lia | lia | apply createCoinSteps_staged |].
    intros [response result] _. destruct callback; [| staged_list].
    unfold eval. destruct (createCoinReply response result); staged_list.
  - apply (staged_bind 0 11 11); [lia | lia | apply tradeCoinSteps_staged |].
    intros [response result] _. destruct callback; [| staged_list].
    unfold eval. destruct (tradeCoinReply response result); staged_list.
  - apply (staged_bind 0 11 11); [lia | lia | apply eventsSteps_staged |].
    intros [response result] _. destruct callback; staged_list.
Qed.

(** X17: the calls of a handler happen in one fixed order, each kind at
    most once, console lines apart: the derivation of the account, the
    public client, the wallet client, the tool list, the composition of the
    state, its update, the extraction, the pin request, the coin SDK or the
    [execute] of the tool, the [call] of the tool, the generation of the
    reply.  So of two calls of a run the later one has the later stage; in
    particular nothing is retried and no call follows the generation of the
    reply. *)
Theorem handler_calls_in_order (h : HandlerId) (w : World) (message : Memory)
  (state : option State) (callback : option HandlerCallback) :
  let calls := effective (externals (trace (handler (actionOf h) w message state
                                              callback))) in
  ordered 0 (List.map stage calls) = true
  /\ (forall pre c post c',
        calls = (pre ++ c :: post)%list -> In c' post -> stage c < stage c')
  /\ length calls <= 11.
Proof.
  intros calls.
  assert (Hordered : ordered 0 (List.map stage calls) = true).
  { subst calls. fold (stages (externals (trace (handler (actionOf h) w message
                                                   state callback)))).
    rewrite handler_stages. apply beforeCallback_staged. }
  assert (Hbound : Forall (fun n => n <= 11) (List.map stage calls)).
  { subst calls. fold (stages (externals (trace (handler (actionOf h) w message
                                                   state callback)))).
    rewrite handler_stages. apply beforeCallback_staged. }
  split; [exact Hordered |]. split.
  - intros pre c post c' Hcalls Hin. rewrite Hcalls, List.map_app in Hordered.
    simpl in Hordered.
    apply (ordered_spec 0 (List.map stage pre) (List.map stage post)); [exact Hordered |].
    apply List.in_map. exact Hin.
  - rewrite <- (List.length_map stage).
    pose proof (ordered_length 0 11 _ (Nat.le_0_l 11) Hordered Hbound). lia.
Qed.

(** X18: what a handler adds to the calls made before the callback.  With
    no callback, or one that accepts every reply, the external calls of a
    run are those made before the callback and, when one of them threw, the
    console line of the [catch] block, which only the market handler
    writes: it logs the thrown value once, as its last call, and the two
    Zora handlers log nothing. *)
Theorem failure_is_logged_by_the_market_handler_only (h : HandlerId) (w : World)
  (message : Memory) (state : option State) (callback : option HandlerCallback) :
  (forall cb reply, callback = Some cb -> cb reply = None) ->
  let run := handler (actionOf h) w message state callback in
  let before := beforeCallback h w message state callback in
  externals (trace run)
  = (trace before ++ match outcome before with
                     | Throw error => loggedBy h error
                     | Ret _ => []
                     end)%list
  /\ (h <> GET_POLYMARKET_EVENTS -> externals (trace run) = trace before).
Proof.
  intros Hquiet run before. subst run before.
  assert (Hrun : externals (trace (handler (actionOf h) w message state callback))
                 = (trace (beforeCallback h w message state callback)
                    ++ match outcome (beforeCallback h w message state callback) with
                       | Throw error => loggedBy h error
                       | Ret _ => []
                       end)%list).
  { rewrite handler_try_catch, tryBlockOf_run.
    destruct (beforeCallback h w message state callback) as [t [[reply |] | e]];
      unfold outcome; cbn [snd].
    - destruct callback as [cb |].
      + rewrite (Hquiet cb reply eq_refl), tryCatch_Ret. unfold trace. cbn [fst].
        rewrite externals_app, externals_External. reflexivity.
      + rewrite tryCatch_Ret. unfold trace. cbn [fst].
        rewrite externals_External, app_nil_r. reflexivity.
    - rewrite tryCatch_Ret. destruct callback; unfold trace; cbn [fst];
        rewrite externals_External, app_nil_r; reflexivity.
    - rewrite tryCatch_Throw, catchBlock_logged. cbv zeta. unfold trace.
      destruct callback as [cb |]; cbn [fst];
        rewrite !externals_app, !externals_External; simpl; rewrite ?app_nil_r;
        reflexivity. }
  split; [exact Hrun |].
  intros Hh. rewrite Hrun.
  destruct (outcome (beforeCallback h w message state callback)) as [r | e];
    [apply app_nil_r |].
  destruct h; [apply app_nil_r | apply app_nil_r | contradiction].
Qed.

Lemma failure_is_logged_by_the_market_handler_only_witness :
  externals (trace (handler (actionOf GET_POLYMARKET_EVENTS)
                      (Samples.answeringWith Samples.polymarketEnv []) JNull None
                      (Some Samples.accepting)))
  = (trace (beforeCallback GET_POLYMARKET_EVENTS
              (Samples.answeringWith Samples.polymarketEnv []) JNull None
              (Some Samples.accepting))
     ++ [console_error "Error executing GET_POLYMARKET_EVENTS:"
           (ErrorObj "Events tool not found")])%list.
Proof.
  destruct (failure_is_logged_by_the_market_handler_only GET_POLYMARKET_EVENTS
              (Samples.answeringWith Samples.polymarketEnv []) JNull None
              (Some Samples.accepting)) as [Hrun _].
  { intros cb reply [= <-]. reflexivity. }
  exact Hrun.
Defined.
